(** * libphonenumber-hook: the webhook pipeline of [api/handler.go] and
    [webhooks/handler.go]

    The repository holds two variants of one serverless function.  Both
    receive a GitHub push webhook, derive a release version from the pushed
    reference, clone the downstream repository, stage the upstream files,
    commit, push and open a pull request.

    - [Api] is [api/handler.go] (package [handler]): a per-file download
      from raw.githubusercontent.com of a fixed list of file names.
    - [Webhooks] is [webhooks/handler.go] (package [function]): a release
      tarball piped through gzip and tar.

    Strings are Go byte strings ([string] of [ascii]).  Calls into the
    outside world (the webhook parser, git, the network, the file system,
    the GitHub API) are answered by the oracles of a [World]; every such
    call is recorded as an [Event], and the handlers are functions from a
    [State] to an outcome, a new state and the events emitted. *)

From stdpp Require Import gmap strings list fin_maps.
From Stdlib Require Import ZArith Ascii.

Local Open Scope Z_scope.

(** ** The Go library functions the handlers call on strings *)

Module strings.

(** [strings.HasPrefix(s, prefix)]. *)
Fixpoint HasPrefix (s prefix : string) {struct prefix} : bool :=
  match prefix with
  | "" => true
  | String p prefix' =>
      match s with
      | "" => false
      | String c s' => Ascii.eqb c p && HasPrefix s' prefix'
      end
  end.

(** [strings.Contains(s, substr)]: [substr] starts at some offset of [s]. *)
Fixpoint Contains (s substr : string) : bool :=
  HasPrefix s substr ||
  match s with
  | "" => false
  | String _ s' => Contains s' substr
  end.

(** The scan of [strings.Replace] for a non-empty [old]: occurrences are
    taken leftmost first and do not overlap.  [skip] counts the bytes of
    the occurrence just replaced that are still to be dropped; [budget]
    is the number of replacements left ([None]: no limit). *)
Fixpoint replace_scan (old new : string) (skip : nat)
    (budget : option nat) (s : string) : string :=
  match s with
  | "" => ""
  | String c s' =>
      match skip with
      | S k => replace_scan old new k budget s'
      | O =>
          if bool_decide (budget ≠ Some O) && HasPrefix s old then
            new +:+ replace_scan old new (Nat.pred (String.length old))
                      (Nat.pred <$> budget) s'
          else String c (replace_scan old new O budget s')
      end
  end.

(** An empty [old] matches before every byte and at the end.  (Go splits
    at UTF-8 sequences here; the handlers never pass an empty [old].) *)
Fixpoint replace_empty (new : string) (budget : option nat)
    (s : string) : string :=
  if bool_decide (budget = Some O) then s
  else
    match s with
    | "" => new
    | String c s' =>
        new +:+ String c (replace_empty new (Nat.pred <$> budget) s')
    end.

(** [strings.Replace(s, old, new, n)]: the first [n] occurrences of [old]
    replaced by [new], all of them when [n < 0]. *)
Definition Replace (s old new : string) (n : Z) : string :=
  let budget := if n <? 0 then None else Some (Z.to_nat n) in
  if String.eqb old new then s
  else
    match old with
    | "" => replace_empty new budget s
    | String _ _ => replace_scan old new O budget s
    end.

(** [strings.ReplaceAll(s, old, new)] is [Replace(s, old, new, -1)]. *)
Definition ReplaceAll (s old new : string) : string := Replace s old new (-1).

End strings.

Module fmt.

(** What [fmt.Sprintf] appends for operands left over at the end of the
    format. *)
Fixpoint extra (args : list string) : string :=
  match args with
  | [] => ""
  | [a] => "string=" +:+ a
  | a :: args' => "string=" +:+ a +:+ ", " +:+ extra args'
  end.

(** [fmt.Sprintf(format, args...)] for string operands and the verb [%s],
    the only verb of the formats whose result the handlers use (the
    formats of log lines are kept unformatted in the [Event]s). *)
Fixpoint Sprintf (format : string) (args : list string) : string :=
  match format with
  | "" =>
      match args with
      | [] => ""
      | _ :: _ => "%!(EXTRA " +:+ extra args +:+ ")"
      end
  | String "%" (String "s" rest) =>
      match args with
      | a :: args' => a +:+ Sprintf rest args'
      | [] => "%!s(MISSING)" +:+ Sprintf rest []
      end
  | String c rest => String c (Sprintf rest args)
  end.

End fmt.

Module filepath.

(** Trailing slashes removed (the first loop of [filepath.Base]). *)
Fixpoint stripTrailingSlashes (path : string) : string :=
  match path with
  | "" => ""
  | String c path' =>
      match stripTrailingSlashes path' with
      | "" => if Ascii.eqb c "/" then "" else String c ""
      | r => String c r
      end
  end.

(** The part after the last slash, the whole of [path] when it has none
    (the second loop of [filepath.Base]). *)
Fixpoint lastElement (path : string) : string :=
  match path with
  | "" => ""
  | String c path' =>
      if strings.Contains path' "/" then lastElement path'
      else if Ascii.eqb c "/" then path' else path
  end.

(** [filepath.Base(path)] on a system whose separator is [/]. *)
Definition Base (path : string) : string :=
  match path with
  | "" => "."
  | _ =>
      match lastElement (stripTrailingSlashes path) with
      | "" => "/"
      | e => e
      end
  end.

End filepath.

(** ** Values exchanged with the libraries *)

(** A Go [error], by its message. *)
Definition error : Type := string.

(** A Go pair of a value and an [error]: the value, or the non-nil error. *)
Inductive result (A : Type) : Type :=
  | Ok (a : A)
  | Err (e : error).
Arguments Ok {A} a.
Arguments Err {A} e.

Module http.

(** The inbound request: only the method is read by the handlers, the
    rest goes to the webhook parser as it is. *)
Record Request : Type := { Method : string; Header : list (string * string); Payload : string }.

(** An [http.Client], by its [Timeout] in nanoseconds; zero is no
    timeout. *)
Record Client : Type := { Timeout : Z }.

(** [http.DefaultClient], the client of [http.Get]. *)
Definition DefaultClient : Client := {| Timeout := 0 |}.

(** A response body is a stream: the bytes it yields, and the error that
    ends it when it does not end well. *)
Record ReadCloser : Type := { bytes : string; readErr : option error }.

Record Response : Type := { StatusCode : Z; Body : ReadCloser }.

Definition StatusOK : Z := 200.
Definition StatusMethodNotAllowed : Z := 405.

(** The [http.ResponseWriter] of the invocation: the status line, once
    it is sent, and the body written so far. *)
Record ResponseWriter : Type := { status : option Z; written : string }.

(** [w.WriteHeader(code)]: the first call fixes the status, a later one
    is superfluous and changes nothing. *)
Definition WriteHeader (code : Z) (w : ResponseWriter) : ResponseWriter :=
  match status w with
  | Some _ => w
  | None => {| status := Some code; written := written w |}
  end.

(** [w.Write(data)]: sends the status 200 first when none was sent. *)
Definition Write (data : string) (w : ResponseWriter) : ResponseWriter :=
  let w' := WriteHeader StatusOK w in
  {| status := status w'; written := written w' +:+ data |}.

End http.

Module time.
Definition Second : Z := 1000000000.
End time.

Module webhook.
(** [PushPayload]: of the parsed push event only [Ref] is consumed. *)
Record PushPayload : Type := { Ref : string }.
End webhook.

Module git.

Record CloneOptions : Type := { URL : string; ReferenceName : string }.

Record CheckoutOptions : Type := { Create : bool; Branch : string; Force : bool }.

Record Signature : Type := { Name : string; Email : string; When : Z }.

Record CommitOptions : Type := { All : bool; Author : Signature }.

Record BasicAuth : Type := { Username : string; Password : string }.

Record PushOptions : Type := { RefSpecs : list string; Auth : BasicAuth }.

(** A cloned repository, by the directory of its work tree. *)
Record Repository : Type := { Path : string }.

End git.

Module github.
Record NewPullRequest : Type :=
  { Title : string; Head : string; Base : string; Body : string }.

Record PullRequest : Type := { Number : Z; HTMLURL : string }.
End github.

Module tar.

Definition TypeReg : ascii := "0"%char.
Definition TypeDir : ascii := "5"%char.

Record Header : Type := { Name : string; Typeflag : ascii; Mode : Z }.

(** What a [tar.Reader] over the gzip stream delivers, call after call:
    [Next] returns [io.EOF], or another error, or a header whose entry
    reads as [data] (ended by [readErr] when the stream breaks inside
    the entry), and then the reader goes on. *)
Inductive Reader : Type :=
  | EOF
  | Broken (e : error)
  | Entry (header : Header) (data : string) (readErr : option error) (rest : Reader).

End tar.

(** ** Events, the world and the state *)

Inductive Level : Type := InfoLevel | WarnLevel | FatalLevel | PanicLevel.

Inductive Arg : Type :=
  | Str (s : string)
  | Int (n : Z).

(** One call that leaves the process.  A log line keeps its format and its
    operands; a network call keeps the client it goes through; a commit
    keeps the files of the work tree it is taken from. *)
Inductive Event : Type :=
  | EvLog (level : Level) (format : string) (args : list Arg)
  | EvParse (r : http.Request)
  | EvTempDir (dir pattern : string)
  | EvPlainClone (directory : string) (o : git.CloneOptions) (client : http.Client)
  | EvCheckout (o : git.CheckoutOptions)
  | EvCreate (path : string)
  | EvOpenFile (path : string) (mode : Z)
  | EvHttpGet (url : string) (client : http.Client)
  | EvCommit (message : string) (o : git.CommitOptions) (tree : gmap string string)
  | EvPush (o : git.PushOptions) (client : http.Client)
  | EvPullRequestCreate (owner repo : string) (pull : github.NewPullRequest)
      (token : string).

(** The answers of the outside world. *)
Record World : Type := {
  (** [hook.Parse(r, PushEvent)] *)
  hook_Parse : http.Request → result webhook.PushPayload;
  (** [ioutil.TempDir(dir, pattern)]: the directory created *)
  ioutil_TempDir : string → string → result string;
  (** [git.PlainClone]: the files of the work tree it checks out, by path *)
  git_PlainClone : string → git.CloneOptions → result (gmap string string);
  (** [repository.Worktree()] *)
  repository_Worktree : git.Repository → option error;
  (** [worktree.Checkout] *)
  worktree_Checkout : git.CheckoutOptions → option error;
  (** [worktree.Commit]: the hash of the commit *)
  worktree_Commit : string → git.CommitOptions → gmap string string → result string;
  (** [repository.Remote(name)]: the first URL of the remote *)
  repository_Remote : string → result string;
  (** [remote.Push] *)
  remote_Push : git.PushOptions → option error;
  (** [http.Get(url)] *)
  http_Get : string → result http.Response;
  (** [gzip.NewReader] on a body, and the [tar.Reader] over it *)
  gzip_NewReader : http.ReadCloser → result tar.Reader;
  (** [os.Create(path)] *)
  os_Create : string → option error;
  (** [os.OpenFile(path, O_CREATE|O_RDWR, mode)] *)
  os_OpenFile : string → Z → option error;
  (** writing to the file at [path]: no failure, or the number of bytes it
      takes before it fails, and the error *)
  file_Write : string → option (nat * error);
  (** [client.PullRequests.Create] *)
  PullRequests_Create : string → string → github.NewPullRequest → result github.PullRequest;
  (** [os.Getenv] *)
  os_Getenv : string → string;
  (** [time.Now()] *)
  time_Now : Z
}.

(** What an invocation can change inside the process and on its disk. *)
Record State : Type := {
  (** the files, by path *)
  files : gmap string string;
  (** the response writer of the invocation *)
  response : http.ResponseWriter;
  (** the client go-git has installed for the protocol [https] *)
  https : http.Client
}.

Definition set_files (f : gmap string string → gmap string string) (st : State) : State :=
  {| files := f (files st); response := response st; https := https st |}.

Definition set_response (f : http.ResponseWriter → http.ResponseWriter) (st : State) : State :=
  {| files := files st; response := f (response st); https := https st |}.

Definition set_https (c : http.Client) (st : State) : State :=
  {| files := files st; response := response st; https := c |}.

(** ** The monad of the handlers: state, events, panic and exit *)

Inductive Outcome (A : Type) : Type :=
  | Done (a : A)
  | Panicked (e : error)
  | Exited (code : Z).
Arguments Done {A} a.
Arguments Panicked {A} e.
Arguments Exited {A} code.

Definition M (A : Type) : Type := State → Outcome A * State * list Event.

Definition ret {A : Type} (a : A) : M A := λ st, (Done a, st, []).

Definition bind {A B : Type} (m : M A) (k : A → M B) : M B :=
  λ st,
    match m st with
    | (Done a, st', evs) =>
        match k a st' with
        | (o, st'', evs') => (o, st'', evs ++ evs')
        end
    | (Panicked e, st', evs) => (Panicked e, st', evs)
    | (Exited c, st', evs) => (Exited c, st', evs)
    end.

Notation "'let*' x ':=' m 'in' k" := (bind m (λ x, k))
  (at level 10, x pattern, m at level 200, k at level 200).
Notation "m ;; k" := (bind m (λ _, k))
  (at level 100, k at level 200, right associativity).

Definition emit (e : Event) : M unit := λ st, (Done (), st, [e]).
Definition get : M State := λ st, (Done st, st, []).
Definition modify (f : State → State) : M unit := λ st, (Done (), f st, []).
Definition panic {A : Type} (e : error) : M A := λ st, (Panicked e, st, []).
Definition exit {A : Type} (code : Z) : M A := λ st, (Exited code, st, []).

Definition outcome {A : Type} (r : Outcome A * State * list Event) : Outcome A := r.1.1.
Definition final {A : Type} (r : Outcome A * State * list Event) : State := r.1.2.
Definition events {A : Type} (r : Outcome A * State * list Event) : list Event := r.2.

(** [for _, x := range xs { body }] *)
Fixpoint range {A : Type} (xs : list A) (body : A → M unit) : M unit :=
  match xs with
  | [] => ret ()
  | x :: xs' => body x;; range xs' body
  end.

Module log.
Definition Info (format : string) (args : list Arg) : M unit :=
  emit (EvLog InfoLevel format args).
Definition Warn (format : string) (args : list Arg) : M unit :=
  emit (EvLog WarnLevel format args).
(** [log.Fatal(err)]: the line, then [os.Exit(1)]. *)
Definition Fatal {A : Type} (err : error) : M A :=
  emit (EvLog FatalLevel err []);; exit 1.
(** [log.Panic(err)]: the line, then [panic]. *)
Definition Panic {A : Type} (err : error) : M A :=
  emit (EvLog PanicLevel err []);; panic err.
End log.

(** ** Files *)

Fixpoint take (n : nat) (s : string) : string :=
  match n, s with
  | S n', String c s' => String c (take n' s')
  | _, _ => ""
  end.

Fixpoint drop (n : nat) (s : string) : string :=
  match n, s with
  | S n', String _ s' => drop n' s'
  | _, _ => s
  end.

Module io.

(** The bytes of [data] that reach a file that fails as [limit] says. *)
Definition accepted (limit : option (nat * error)) (data : string) : string :=
  match limit with
  | Some (n, _) => take n data
  | None => data
  end.

(** The error [io.Copy] returns: the failure of the write when the file
    takes less than [src] yields, else the error that ends [src]. *)
Definition copyError (limit : option (nat * error)) (src : string)
    (readErr : option error) : option error :=
  match limit with
  | Some (n, e) => if (n <? String.length src)%nat then Some e else readErr
  | None => readErr
  end.

(** A file written from its first byte on: what was there beyond the
    bytes written stays. *)
Definition overwrite (new : string) (old : option string) : string :=
  new +:+ drop (String.length new) (default "" old).

End io.

Section Pipeline.

Variable w : World.

(** [os.Create(path)]: the file exists and is empty afterwards. *)
Definition os_create (path : string) : M (option error) :=
  emit (EvCreate path);;
  match os_Create w path with
  | Some err => ret (Some err)
  | None => modify (set_files (insert path ""));; ret None
  end.

(** [os.OpenFile(path, os.O_CREATE|os.O_RDWR, mode)]: the file exists
    afterwards, with the contents it had. *)
Definition os_openFile (path : string) (mode : Z) : M (option error) :=
  emit (EvOpenFile path mode);;
  match os_OpenFile w path mode with
  | Some err => ret (Some err)
  | None =>
      modify (set_files (λ fs, <[path := default "" (fs !! path)]> fs));;
      ret None
  end.

(** [io.Copy(file, src)] into the file just opened at [path]. *)
Definition io_Copy (path : string) (src : string) (readErr : option error) :
    M (option error) :=
  let limit := file_Write w path in
  modify (set_files (λ fs,
    <[path := io.overwrite (io.accepted limit src) (fs !! path)]> fs));;
  ret (io.copyError limit src readErr).

End Pipeline.

(** ** [api/handler.go] *)

Module Api.

Definition filenames : list string := [
  "asyoutypeformatter_test.js";
  "demo-compiled.js";
  "demo.js";
  "metadata.js";
  "metadatafortesting.js";
  "metadatalite.js";
  "phonemetadata.pb.js";
  "phonenumber.pb.js";
  "phonenumberutil.js";
  "phonenumberutil_test.js";
  "regioncodefortesting.js";
  "shortnumberinfo.js";
  "shortnumberinfo_test.js";
  "shortnumbermetadata.js"
].

Definition remoteRepositoryUsername : string := "ruimarinho".
Definition remoteRepositoryName : string := "google-libphonenumber".
Definition remoteBranchFormat : string := "support/update-libphonenumber-%s".

Record CommitOptions : Type := { Push : bool }.

(** The strings [HandleEvent], [Commit] and [OpenPullRequest] derive. *)

(** line 90 *)
Definition version (ref : string) : string :=
  strings.Replace ref "refs/tags/v" "" (-1).

(** lines 137-141 *)
Definition checkoutOptions (version : string) : git.CheckoutOptions :=
  {| git.Create := true;
     git.Branch :=
       fmt.Sprintf "refs/heads/%s"
         [fmt.Sprintf remoteBranchFormat [strings.Replace version "." "-" (-1)]];
     git.Force := true |}.

(** line 147: the path handed to [Download] for [filename] *)
Definition downloadPath (version filename : string) : string :=
  fmt.Sprintf "google/libphonenumber/v%s/javascript/i18n/phonenumbers/%s"
    [version; filename].

(** line 153 *)
Definition commitMessage (version : string) : string :=
  fmt.Sprintf "Update libphonenumber@%s" [version].

Definition commitOptions (now : Z) : git.CommitOptions :=
  {| git.All := true;
     git.Author :=
       {| git.Name := "Rui Marinho"; git.Email := "ruipmarinho@gmail.com";
          git.When := now |} |}.

(** lines 179-187 *)
Definition pushOptions (version token : string) : git.PushOptions :=
  let tag := strings.Replace version "." "-" (-1) in
  {| git.RefSpecs :=
       [fmt.Sprintf "refs/heads/%s:refs/heads/%s"
          [fmt.Sprintf remoteBranchFormat [tag];
           fmt.Sprintf remoteBranchFormat [tag]]];
     git.Auth :=
       {| git.Username := remoteRepositoryUsername; git.Password := token |} |}.

(** lines 236-241 *)
Definition newPullRequest (version : string) : github.NewPullRequest :=
  {| github.Title := fmt.Sprintf "Update libphonenumber@%s" [version];
     github.Head :=
       fmt.Sprintf remoteBranchFormat [strings.Replace version "." "-" (-1)];
     github.Base := "master";
     github.Body := fmt.Sprintf "Update libphonenumber@%s." [version] |}.

Section Handlers.

Variable w : World.

(** [Clone]: a repository cloned into a temporary folder. *)
Definition Clone (repositoryName : string) : M (string * result git.Repository) :=
  let pattern := strings.ReplaceAll repositoryName "/" "-" in
  emit (EvTempDir "" pattern);;
  match ioutil_TempDir w "" pattern with
  | Err err => ret ("", Err err)
  | Ok directory =>
      log.Info "Cloning %s to %s" [Str repositoryName; Str directory];;
      let options :=
        {| git.URL := fmt.Sprintf "https://github.com/%s.git" [repositoryName];
           git.ReferenceName := fmt.Sprintf "refs/heads/master" [] |} in
      let* st := get in
      emit (EvPlainClone directory options (https st));;
      match git_PlainClone w directory options with
      | Err err => ret (directory, Err err)
      | Ok tree =>
          modify (set_files (λ fs, tree ∪ fs));;
          log.Info "Cloned %s into %s" [Str repositoryName; Str directory];;
          ret (directory, Ok {| git.Path := directory |})
      end
  end.

(** [Download]: a file path downloaded into a target directory.  The
    file is the result in Go; here it is its path.  [http.Get] is the
    [Get] of [http.DefaultClient]; the status of the response is not
    read. *)
Definition Download (path directory : string) : M (result string) :=
  let filename := filepath.Base path in
  let target := fmt.Sprintf "%s/%s" [directory; filename] in
  let* err := os_create w target in
  let url := fmt.Sprintf "https://raw.githubusercontent.com/%s" [path] in
  match err with
  | Some err => ret (Err err)
  | None =>
      log.Info "Downloading %s from %s into directory %s"
        [Str filename; Str url; Str directory];;
      emit (EvHttpGet url http.DefaultClient);;
      match http_Get w url with
      | Err err => ret (Err err)
      | Ok response =>
          let body := http.Body response in
          let* err := io_Copy w target (http.bytes body) (http.readErr body) in
          match err with
          | Some err => log.Fatal err
          | None =>
              log.Info "File %s downloaded successfully" [Str path];;
              ret (Ok target)
          end
      end
  end.

(** The body of the loop of lines 146-151 of [Commit]. *)
Definition step (version directory filename : string) : M unit :=
  let* r := Download (downloadPath version filename)
              (fmt.Sprintf "%s/src" [directory]) in
  match r with
  | Err err => log.Fatal err
  | Ok _ => ret ()
  end.

(** Lines 146-151 of [Commit]: every file of [filenames] downloaded
    into the folder [src] of the clone. *)
Definition stage (version directory : string) : M unit :=
  range filenames (step version directory).

(** [Commit]: a branch created, and the modified tree committed on it. *)
Definition Commit (version directory : string) (repository : git.Repository)
    (options : CommitOptions) : M (option error) :=
  match repository_Worktree w repository with
  | Some err => ret (Some err)
  | None =>
      emit (EvCheckout (checkoutOptions version));;
      match worktree_Checkout w (checkoutOptions version) with
      | Some err => ret (Some err)
      | None =>
          stage version directory;;
          let* st := get in
          let message := commitMessage version in
          let o := commitOptions (time_Now w) in
          emit (EvCommit message o (files st));;
          match worktree_Commit w message o (files st) with
          | Err err => ret (Some err)
          | Ok commit =>
              log.Info "Git commit %s" [Str commit];;
              if negb (Push options) then
                log.Warn "Skipping commit push" [];; ret None
              else
                match repository_Remote w "origin" with
                | Err err => ret (Some err)
                | Ok url =>
                    log.Info "Pushing to remote origin %s" [Str url];;
                    let tag := strings.Replace version "." "-" (-1) in
                    let pushOptions := pushOptions version (os_Getenv w "GITHUB_TOKEN") in
                    let* st := get in
                    emit (EvPush pushOptions (https st));;
                    match remote_Push w pushOptions with
                    | Some err => ret (Some err)
                    | None =>
                        log.Info "Pushed to %s successfully"
                          [Str (fmt.Sprintf remoteBranchFormat [tag])];;
                        ret None
                    end
                end
          end
      end
  end.

(** [OpenPullRequest]: a pull request opened for the branch. *)
Definition OpenPullRequest (version : string) : M (option error) :=
  let token := os_Getenv w "GITHUB_TOKEN" in
  let pull := newPullRequest version in
  emit (EvPullRequestCreate remoteRepositoryUsername remoteRepositoryName pull token);;
  match PullRequests_Create w remoteRepositoryUsername remoteRepositoryName pull with
  | Err err => ret (Some err)
  | Ok pull =>
      log.Info "Pull request #%d opened (%v)"
        [Int (github.Number pull); Str (github.HTMLURL pull)];;
      ret None
  end.

(** [HandleEvent]. *)
Definition HandleEvent (payload : webhook.PushPayload) : M unit :=
  log.Info "Handling incoming webhook" [];;
  let push := payload in
  if negb (strings.Contains (webhook.Ref push) "refs/tags/") then
    log.Warn "Push reference is not a tag, skipping" []
  else
    let version := version (webhook.Ref push) in
    log.Info "Received push payload for version v%s" [Str version];;
    let* (directory, repository) :=
      Clone (fmt.Sprintf "%s/%s" [remoteRepositoryUsername; remoteRepositoryName]) in
    match repository with
    | Err err => log.Panic err
    | Ok repository =>
        let* err := Commit version directory repository {| Push := true |} in
        match err with
        | Some err => log.Panic err
        | None => OpenPullRequest version;; ret ()
        end
    end.

(** [Handler], the entry point of the serverless platform.
    [webhook.New()] has no option to apply and returns no error. *)
Definition Handler (r : http.Request) : M unit :=
  if negb (String.eqb (http.Method r) "POST") then
    modify (set_response (http.WriteHeader http.StatusMethodNotAllowed));;
    modify (set_response (http.Write "Method not supported by libphonenumber-hook"))
  else
    emit (EvParse r);;
    match hook_Parse w r with
    | Err err => log.Panic err
    | Ok payload =>
        HandleEvent payload;;
        modify (set_response (http.Write "OK"))
    end.

End Handlers.

End Api.

(** ** [webhooks/handler.go] *)

Module Webhooks.

Record CommitOptions : Type := { Push : bool }.

(** line 53 *)
Definition version (ref : string) : string :=
  strings.Replace ref "refs/tags/v" "" (-1).

(** lines 122-127 *)
Definition checkoutOptions (version : string) : git.CheckoutOptions :=
  let tag := strings.Replace version "." "-" (-1) in
  {| git.Create := true;
     git.Branch := fmt.Sprintf "refs/heads/support/update-libphonenumber-%s" [tag];
     git.Force := true |}.

(** line 133 *)
Definition commitMessage (version : string) : string :=
  fmt.Sprintf "Update libphonenumber@%s" [version].

Definition commitOptions (now : Z) : git.CommitOptions :=
  {| git.All := true;
     git.Author :=
       {| git.Name := "Rui Marinho"; git.Email := "ruipmarinho@gmail.com";
          git.When := now |} |}.

(** lines 170-178 *)
Definition pushOptions (version token : string) : git.PushOptions :=
  let tag := strings.Replace version "." "-" (-1) in
  {| git.RefSpecs :=
       [fmt.Sprintf
          "refs/heads/support/update-libphonenumber-%s:refs/heads/support/update-libphonenumber-%s"
          [tag; tag]];
     git.Auth := {| git.Username := "ruimarinho"; git.Password := token |} |}.

(** lines 195-200 *)
Definition newPullRequest (version : string) : github.NewPullRequest :=
  {| github.Title := fmt.Sprintf "Update libphonenumber@%s" [version];
     github.Head :=
       fmt.Sprintf "support/update-libphonenumber-%s"
         [strings.Replace version "." "-" (-1)];
     github.Base := "master";
     github.Body := fmt.Sprintf "Update libphonenumber@%s." [version] |}.

(** line 257 *)
Definition archiveURL (version : string) : string :=
  fmt.Sprintf "https://github.com/googlei18n/libphonenumber/archive/v%s.tar.gz" [version].

(** line 234: the entries [Extract] passes over *)
Definition skipped (header : tar.Header) : bool :=
  negb (Ascii.eqb (tar.Typeflag header) tar.TypeReg)
  || negb (strings.Contains (tar.Name header) "javascript/i18n/phonenumbers/").

(** line 238 *)
Definition targetPath (directory name : string) : string :=
  fmt.Sprintf "%s/src/" [directory] +:+ filepath.Base name.

(** line 86: the client [Clone] hands to go-git *)
Definition customClient : http.Client := {| http.Timeout := 15 * time.Second |}.

Section Handlers.

Variable w : World.

Definition Clone : M (string * result git.Repository) :=
  modify (set_https customClient);;
  emit (EvTempDir "" "libphonenumber");;
  match ioutil_TempDir w "" "libphonenumber" with
  | Err err => ret ("", Err err)
  | Ok directory =>
      log.Info "Cloning ruimarinho/google-libphonenumber to %s" [Str directory];;
      let options :=
        {| git.URL := "https://github.com/ruimarinho/google-libphonenumber.git";
           git.ReferenceName := "" |} in
      let* st := get in
      emit (EvPlainClone directory options (https st));;
      match git_PlainClone w directory options with
      | Err err => ret (directory, Err err)
      | Ok tree =>
          modify (set_files (λ fs, tree ∪ fs));;
          log.Info "Cloned ruimarinho/google-libphonenumber to %s" [Str directory];;
          ret (directory, Ok {| git.Path := directory |})
      end
  end.

(** [push]: the commit pushed to the remote origin. *)
Definition push (version : string) (repo : git.Repository) : M (option error) :=
  match repository_Remote w "origin" with
  | Err err => ret (Some err)
  | Ok url =>
      log.Info "Pushing to remote origin %s" [Str url];;
      let tag := strings.Replace version "." "-" (-1) in
      let pushOptions := pushOptions version (os_Getenv w "GITHUB_TOKEN") in
      let* st := get in
      emit (EvPush pushOptions (https st));;
      match remote_Push w pushOptions with
      | Some err => ret (Some err)
      | None =>
          log.Info "Pushed to %s successfully"
            [Str (fmt.Sprintf "support/update-libphonenumber-%s" [tag])];;
          ret None
      end
  end.

(** [Commit]: a branch created, and the modified tree committed on it. *)
Definition Commit (version : string) (repo : git.Repository)
    (options : CommitOptions) : M (option error) :=
  match repository_Worktree w repo with
  | Some err => ret (Some err)
  | None =>
      emit (EvCheckout (checkoutOptions version));;
      match worktree_Checkout w (checkoutOptions version) with
      | Some err => ret (Some err)
      | None =>
          let* st := get in
          let message := commitMessage version in
          let o := commitOptions (time_Now w) in
          emit (EvCommit message o (files st));;
          match worktree_Commit w message o (files st) with
          | Err err => ret (Some err)
          | Ok commit =>
              log.Info "Committed %s" [Str commit];;
              if negb (Push options) then
                log.Warn "Skipping commit push" [];; ret None
              else
                let* err := push version repo in
                match err with
                | Some err => ret (Some err)
                | None => ret None
                end
          end
      end
  end.

Definition OpenPullRequest (version : string) : M (option error) :=
  let token := os_Getenv w "GITHUB_TOKEN" in
  let pull := newPullRequest version in
  emit (EvPullRequestCreate "ruimarinho" "google-libphonenumber" pull token);;
  match PullRequests_Create w "ruimarinho" "google-libphonenumber" pull with
  | Err err => ret (Some err)
  | Ok pull =>
      log.Info "Pull request #%d opened (%v)"
        [Int (github.Number pull); Str (github.HTMLURL pull)];;
      ret None
  end.

(** The loop of [Extract], lines 222-251.  [err] is the variable of
    line 214, the error of [gzip.NewReader]: it is the one the
    condition of line 248 reads. *)
Fixpoint extractLoop (err : option error) (directory : string)
    (tarReader : tar.Reader) : M (option error) :=
  match tarReader with
  | tar.EOF => ret None
  | tar.Broken errRead => ret (Some errRead)
  | tar.Entry header data readErr rest =>
      let name := tar.Name header in
      if skipped header then extractLoop err directory rest
      else
        let path := targetPath directory name in
        log.Info "Extracting file" [Str path];;
        let* errFile := os_openFile w path (tar.Mode header) in
        match errFile with
        | Some errFile => ret (Some errFile)
        | None =>
            let* copyErr := io_Copy w path data readErr in
            match err with
            | Some _ => ret copyErr
            | None => extractLoop err directory rest
            end
        end
  end.

Definition Extract (file : http.ReadCloser) (directory : string) : M (option error) :=
  match gzip_NewReader w file with
  | Err err => log.Panic err
  | Ok tarReader =>
      let err : option error := None in
      extractLoop err directory tarReader
  end.

(** [Download]: the body of the response to the release tarball.
    [http.Get] is the [Get] of [http.DefaultClient]; the status of the
    response is not read. *)
Definition Download (version : string) : M (result http.ReadCloser) :=
  emit (EvHttpGet (archiveURL version) http.DefaultClient);;
  match http_Get w (archiveURL version) with
  | Err err => ret (Err err)
  | Ok resp => ret (Ok (http.Body resp))
  end.

(** [HandleEvent]. *)
Definition HandleEvent (payload : webhook.PushPayload) : M unit :=
  log.Info "Handling incoming libphonenumber-webhook" [];;
  let push := payload in
  if negb (strings.Contains (webhook.Ref push) "refs/tags/") then
    log.Warn "Push reference is not a tag, skipping" []
  else
    let version := version (webhook.Ref push) in
    log.Info "Received push payload for version v" [Str version];;
    let* (directory, repo) := Clone in
    match repo with
    | Err err => log.Panic err
    | Ok repo =>
        let* file := Download version in
        match file with
        | Err err => log.Panic err
        | Ok file =>
            let* err := Extract file directory in
            match err with
            | Some err => log.Panic err
            | None =>
                let* err := Commit version repo {| Push := true |} in
                match err with
                | Some err => log.Panic err
                | None => OpenPullRequest version;; ret ()
                end
            end
        end
    end.

(** [Handle], the entry point of a function invocation.  [ghooks.New()]
    has no option to apply and returns no error. *)
Definition Handle (r : http.Request) : M unit :=
  emit (EvParse r);;
  match hook_Parse w r with
  | Err err => log.Panic err
  | Ok payload =>
      HandleEvent payload;;
      modify (set_response (http.Write "OK"));;
      modify (set_response (http.WriteHeader http.StatusOK))
  end.

End Handlers.

End Webhooks.

(** ** Sample worlds, to run the handlers on *)

Module Sample.

(** A parser that takes the payload of a POST for the pushed reference. *)
Definition parse (r : http.Request) : result webhook.PushPayload :=
  if negb (String.eqb (http.Method r) "POST") then Err "invalid HTTP Method"
  else if String.eqb (http.Payload r) "" then Err "error parsing payload"
  else Ok {| webhook.Ref := http.Payload r |}.

Definition post (ref : string) : http.Request :=
  {| http.Method := "POST";
     http.Header := [("X-GitHub-Event", "push")];
     http.Payload := ref |}.

Definition tempDir (dir pattern : string) : result string :=
  Ok ("/tmp/" +:+ pattern +:+ "042").

(** The work tree of the downstream repository: the sources live in
    [src], next to a file that does not come from upstream. *)
Definition clone (directory : string) (o : git.CloneOptions) :
    result (gmap string string) :=
  Ok (<[directory +:+ "/package.json" := "{}"]>
      (<[directory +:+ "/src/index.js" := "module.exports = {};"]>
      (<[directory +:+ "/src/demo.js" := "// demo of the release before"]> ∅))).

(** The bytes of the release tarball, as the archive host sends them. *)
Definition archive : string := "gzip(tar(libphonenumber-8.12.0))".

(** raw.githubusercontent.com and the archive host: every URL is served
    with the status [code]; the archive host sends the tarball, the raw
    host the URL for the contents of the file. *)
Definition serve (code : Z) (url : string) : result http.Response :=
  Ok {| http.StatusCode := code;
        http.Body :=
          {| http.bytes :=
               if strings.HasPrefix url "https://github.com/" then archive
               else "contents of " +:+ url;
             http.readErr := None |} |}.

(** The answer to a URL that does not exist. *)
Definition notFound (url : string) : result http.Response :=
  Ok {| http.StatusCode := 404;
        http.Body := {| http.bytes := "404: Not Found"; http.readErr := None |} |}.

Definition regular (name data : string) (rest : tar.Reader) : tar.Reader :=
  tar.Entry {| tar.Name := name; tar.Typeflag := tar.TypeReg; tar.Mode := 420 |}
    data None rest.

(** A release tarball: a directory, a file outside the marked path and
    two files under it. *)
Definition tarball : tar.Reader :=
  tar.Entry {| tar.Name := "libphonenumber-8.12.0/"; tar.Typeflag := tar.TypeDir;
               tar.Mode := 493 |} "" None
    (regular "libphonenumber-8.12.0/README.md" "# libphonenumber"
    (regular "libphonenumber-8.12.0/javascript/i18n/phonenumbers/demo.js" "// demo 8.12.0"
    (regular "libphonenumber-8.12.0/javascript/i18n/phonenumbers/metadata.js"
       "// metadata 8.12.0" tar.EOF))).

(** The decoder: the tarball for its bytes, an error for any other body. *)
Definition gunzip (body : http.ReadCloser) : result tar.Reader :=
  if String.eqb (http.bytes body) archive then Ok tarball
  else Err "gzip: invalid header".

Definition created (owner repo : string) (pull : github.NewPullRequest) :
    result github.PullRequest :=
  Ok {| github.Number := 7;
        github.HTMLURL := "https://github.com/ruimarinho/google-libphonenumber/pull/7" |}.

(** A world in which git, the file system and the token are in order;
    the parser, the clone, the two network hosts, the decoder, the disk
    and the pull-request API are the arguments. *)
Definition world
    (parse : http.Request → result webhook.PushPayload)
    (clone : string → git.CloneOptions → result (gmap string string))
    (get : string → result http.Response)
    (gunzip : http.ReadCloser → result tar.Reader)
    (write : string → option (nat * error))
    (create : string → string → github.NewPullRequest → result github.PullRequest) :
    World :=
  {| hook_Parse := parse;
     ioutil_TempDir := tempDir;
     git_PlainClone := clone;
     repository_Worktree := λ _, None;
     worktree_Checkout := λ _, None;
     worktree_Commit := λ _ _ _, Ok "4b825dc642cb6eb9a060e54bf8d69288fbee4904";
     repository_Remote := λ _, Ok "https://github.com/ruimarinho/google-libphonenumber.git";
     remote_Push := λ _, None;
     http_Get := get;
     gzip_NewReader := gunzip;
     os_Create := λ _, None;
     os_OpenFile := λ _ _, None;
     file_Write := write;
     PullRequests_Create := create;
     os_Getenv := λ _, "secret";
     time_Now := 1600000000 |}.

(** Every call succeeds. *)
Definition happy : World :=
  world parse clone (serve 200) gunzip (λ _, None) created.

(** The clone of the downstream repository fails. *)
Definition offline : World :=
  world parse (λ _ _, Err "repository not found") (serve 200) gunzip (λ _, None) created.

(** The upstream hosts answer 404 to every URL. *)
Definition missing : World :=
  world parse clone notFound gunzip (λ _, None) created.

(** The upstream hosts send every file, under the status 404. *)
Definition mislabelled : World :=
  world parse clone (serve 404) gunzip (λ _, None) created.

(** The disk is full: no file takes a byte. *)
Definition diskFull : World :=
  world parse clone (serve 200) gunzip (λ _, Some (O, "no space left on device")) created.

(** The pull-request API refuses. *)
Definition refused : World :=
  world parse clone (serve 200) gunzip (λ _, None)
    (λ _ _ _, Err "422 Validation Failed").

(** The upstream hosts cannot be reached. *)
Definition unreachable : World :=
  world parse clone (λ _, Err "dial tcp: i/o timeout") gunzip (λ _, None) created.

(** A fresh process: no file, nothing written to the response, the
    default client for [https]. *)
Definition start : State :=
  {| files := ∅;
     response := {| http.status := None; http.written := "" |};
     https := http.DefaultClient |}.

End Sample.

(** ** The branch name as the specification words it *)

(** Every [.] of the version replaced by [-]. *)
Fixpoint dotsToDashes (v : string) : string :=
  match v with
  | "" => ""
  | String c v' => String (if Ascii.eqb c "." then "-"%char else c) (dotsToDashes v')
  end.

(** The fixed template with the dashed version in the place of [%s]. *)
Definition branchOfVersion (v : string) : string :=
  "support/update-libphonenumber-" +:+ dotsToDashes v.

(** ** Invariants of a run *)

(** [keeps I P m]: from a state that satisfies [I], the computation [m]
    emits only events that satisfy [P] and ends, however it ends, in a
    state that satisfies [I]. *)
Definition keeps (I : State → Prop) (P : Event → Prop) {A : Type} (m : M A) : Prop :=
  ∀ st, I st → Forall P (events (m st)) ∧ I (final (m st)).

(** ** What the specification asks of the handlers *)

Definition fresh : http.ResponseWriter := {| http.status := None; http.written := "" |}.

(** What the specification asks of a handler for a request that is not a
    POST: status 405 and the fixed body on a fresh response, the run
    returns, and nothing is parsed or run (no event at all). *)
Definition rejectsNonPost (handler : World → http.Request → M unit) : Prop :=
  ∀ w r st,
    http.Method r ≠ "POST" →
    response st = fresh →
    outcome (handler w r st) = Done ()
    ∧ response (final (handler w r st))
      = {| http.status := Some 405;
           http.written := "Method not supported by libphonenumber-hook" |}
    ∧ events (handler w r st) = [].

(** What the specification asks of a handler whose parser accepts the
    request: status 200 and the body [OK] on a fresh response, whatever
    the stages do. *)
Definition acknowledgesWhenParsed (handler : World → http.Request → M unit) : Prop :=
  ∀ w r payload st,
    hook_Parse w r = Ok payload →
    response st = fresh →
    response (final (handler w r st)) = {| http.status := Some 200; http.written := "OK" |}.

(** A run that has ended without returning. *)
Definition aborted {A : Type} (o : Outcome A) : Prop :=
  match o with
  | Done _ => False
  | Panicked _ | Exited _ => True
  end.

(** The end-to-end scenario of the specification. *)
Definition scenario : webhook.PushPayload := {| webhook.Ref := "refs/tags/v8.12.0" |}.

Definition scenarioPullRequest : github.NewPullRequest :=
  {| github.Title := "Update libphonenumber@8.12.0";
     github.Head := "support/update-libphonenumber-8-12-0";
     github.Base := "master";
     github.Body := "Update libphonenumber@8.12.0." |}.

(** What the scenario allows a call to carry. *)
Definition scenarioEvent (e : Event) : Prop :=
  match e with
  | EvCheckout o => git.Branch o = "refs/heads/support/update-libphonenumber-8-12-0"
  | EvCommit message _ _ => message = "Update libphonenumber@8.12.0"
  | EvPush o _ =>
      git.RefSpecs o
      = ["refs/heads/support/update-libphonenumber-8-12-0:refs/heads/support/update-libphonenumber-8-12-0"]
  | EvPullRequestCreate owner repo pull _ =>
      owner = "ruimarinho" ∧ repo = "google-libphonenumber" ∧ pull = scenarioPullRequest
  | _ => True
  end.

(** The specification's timeout: every fetch of upstream goes through a
    client with the ceiling of 15 seconds. *)
Definition fetchBounded (e : Event) : Prop :=
  match e with
  | EvHttpGet _ client => http.Timeout client = 15 * time.Second
  | _ => True
  end.

(** The clients of [webhooks/handler.go]: the default one for the fetch,
    the one [Clone] installs for git. *)
Definition clientsOfWebhooks (e : Event) : Prop :=
  match e with
  | EvHttpGet _ client => client = http.DefaultClient
  | EvPlainClone _ _ client | EvPush _ client => client = Webhooks.customClient
  | _ => True
  end.

(** The clients of [api/handler.go]: the default one for the fetch, for
    git the one that was installed when the run began. *)
Definition clientsOfApi (installed : http.Client) (e : Event) : Prop :=
  match e with
  | EvHttpGet _ client => client = http.DefaultClient
  | EvPlainClone _ _ client | EvPush _ client => client = installed
  | _ => True
  end.

(** ** Staging *)

(** A file name: not empty, and without a slash. *)
Definition plain (name : string) : bool :=
  negb (String.eqb name "") && negb (strings.Contains name "/").

(** The URL [Download] of [api/handler.go] fetches for a file (line 203). *)
Definition rawURL (version filename : string) : string :=
  fmt.Sprintf "https://raw.githubusercontent.com/%s" [Api.downloadPath version filename].

(** The path of a file in the folder [src] of the staging directory. *)
Definition staged (directory name : string) : string :=
  directory +:+ "/src/" +:+ name.

(** The specification's staging folder: it holds the files of the fixed
    list and no other. *)
Definition holdsExactly (names : list string) (directory : string)
    (fs : gmap string string) : Prop :=
  ∀ name, is_Some (fs !! staged directory name) ↔ name ∈ names.

(** The fetch of one file of [api/handler.go] goes well: the file is
    created, the URL answers (with whatever status), and the body [data]
    is copied whole. *)
Definition fetched (w : World) (version directory name data : string) : Prop :=
  os_Create w (staged directory name) = None
  ∧ ∃ response,
      http_Get w (rawURL version name) = Ok response
      ∧ http.bytes (http.Body response) = data
      ∧ io.copyError (file_Write w (staged directory name)) data
          (http.readErr (http.Body response)) = None.

(** The fetch of one file of [api/handler.go] fails: the destination is
    not created, or [http.Get] returns an error, or the copy of the body
    breaks (on the side of the network or on the side of the file). *)
Definition fetchFails (w : World) (version directory name : string) (e : error) : Prop :=
  os_Create w (staged directory name) = Some e
  ∨ os_Create w (staged directory name) = None
    ∧ (http_Get w (rawURL version name) = Err e
       ∨ ∃ response,
           http_Get w (rawURL version name) = Ok response
           ∧ io.copyError (file_Write w (staged directory name))
               (http.bytes (http.Body response))
               (http.readErr (http.Body response)) = Some e).

(** ** Failures of the fetch *)

(** A call that is neither a commit nor a push nor a pull request. *)
Definition beforeCommit (e : Event) : Prop :=
  match e with
  | EvCommit _ _ _ | EvPush _ _ | EvPullRequestCreate _ _ _ _ => False
  | _ => True
  end.

(** A call that is none of those, and no fetch either. *)
Definition quiet (e : Event) : Prop :=
  match e with
  | EvHttpGet _ _ | EvCommit _ _ _ | EvPush _ _ | EvPullRequestCreate _ _ _ _ => False
  | _ => True
  end.

(** The tarball cannot be read to its end, or one of its files cannot be
    opened in [directory]: [Next] returns an error other than [io.EOF], or
    [os.OpenFile] fails for an entry that is not passed over, after
    entries that are passed over or opened. *)
Inductive unreadable (w : World) (directory : string) : tar.Reader → error → Prop :=
  | unreadable_broken e :
      unreadable w directory (tar.Broken e) e
  | unreadable_unopened header data readErr rest e :
      Webhooks.skipped header = false →
      os_OpenFile w (Webhooks.targetPath directory (tar.Name header)) (tar.Mode header)
      = Some e →
      unreadable w directory (tar.Entry header data readErr rest) e
  | unreadable_skipped header data readErr rest e :
      Webhooks.skipped header = true →
      unreadable w directory rest e →
      unreadable w directory (tar.Entry header data readErr rest) e
  | unreadable_later header data readErr rest e :
      Webhooks.skipped header = false →
      os_OpenFile w (Webhooks.targetPath directory (tar.Name header)) (tar.Mode header)
      = None →
      unreadable w directory rest e →
      unreadable w directory (tar.Entry header data readErr rest) e.

(** The fetch of the tarball of [webhooks/handler.go] fails: [http.Get]
    returns an error, or [gzip.NewReader] does, or the tarball is
    unreadable. *)
Definition archiveFails (w : World) (version directory : string) (e : error) : Prop :=
  http_Get w (Webhooks.archiveURL version) = Err e
  ∨ ∃ response,
      http_Get w (Webhooks.archiveURL version) = Ok response
      ∧ (gzip_NewReader w (http.Body response) = Err e
         ∨ ∃ tarReader,
             gzip_NewReader w (http.Body response) = Ok tarReader
             ∧ unreadable w directory tarReader e).

(** The specification's check of the status, for [api/handler.go]: a
    response to the fetch of a file with a status other than 200 stops
    the run before a commit. *)
Definition statusCheckedByApi : Prop :=
  ∀ w payload st name response,
    strings.Contains (webhook.Ref payload) "refs/tags/" = true →
    name ∈ Api.filenames →
    http_Get w (rawURL (Api.version (webhook.Ref payload)) name) = Ok response →
    http.StatusCode response ≠ http.StatusOK →
    aborted (outcome (Api.HandleEvent w payload st))
    ∧ Forall beforeCommit (events (Api.HandleEvent w payload st)).

(** The same for [webhooks/handler.go] and the fetch of the tarball. *)
Definition statusCheckedByWebhooks : Prop :=
  ∀ w payload st response,
    strings.Contains (webhook.Ref payload) "refs/tags/" = true →
    http_Get w (Webhooks.archiveURL (Webhooks.version (webhook.Ref payload))) = Ok response →
    http.StatusCode response ≠ http.StatusOK →
    aborted (outcome (Webhooks.HandleEvent w payload st))
    ∧ Forall beforeCommit (events (Webhooks.HandleEvent w payload st)).

(** ** The version handed on *)

(** A call that carries the strings derived from the version [v]: the
    URL fetched, the branch checked out, the message of the commit, the
    refspec pushed, the pull request. *)
Definition carries (v : string) (e : Event) : Prop :=
  match e with
  | EvHttpGet url _ => url = Webhooks.archiveURL v ∨ ∃ name, url = rawURL v name
  | EvCheckout o => o = Api.checkoutOptions v
  | EvCommit message _ _ => message = Api.commitMessage v
  | EvPush o _ => git.RefSpecs o = git.RefSpecs (Api.pushOptions v "")
  | EvPullRequestCreate _ _ pull _ => pull = Api.newPullRequest v
  | _ => True
  end.

(** The trees committed in a run, in the order of the commits. *)
Definition committed (evs : list Event) : list (gmap string string) :=
  omap (λ e, match e with EvCommit _ _ tree => Some tree | _ => None end) evs.

(** ** Further predicates on the calls of a run *)

(** The URLs fetched in a run, in the order of the calls. *)
Definition fetches (evs : list Event) : list string :=
  omap (λ e, match e with EvHttpGet url _ => Some url | _ => None end) evs.

(** The headers of the entries of a tarball that [Extract] does not pass
    over, in the order of the archive. *)
Fixpoint kept (tarReader : tar.Reader) : list tar.Header :=
  match tarReader with
  | tar.EOF | tar.Broken _ => []
  | tar.Entry header _ _ rest =>
      if Webhooks.skipped header then kept rest else header :: kept rest
  end.

(** A temporary directory is asked for with a pattern that holds no path
    separator. *)
Definition patternWithoutSeparator (e : Event) : Prop :=
  match e with
  | EvTempDir _ pattern => strings.Contains pattern "/" = false
  | _ => True
  end.

(** A file is opened or created directly in the folder [src] of
    [directory], under a plain name. *)
Definition insideSrc (directory : string) (e : Event) : Prop :=
  match e with
  | EvOpenFile path _ | EvCreate path =>
      ∃ name, plain name = true ∧ path = staged directory name
  | _ => True
  end.

(** A file is created at the place of a file name of the list. *)
Definition createsListed (directory : string) (e : Event) : Prop :=
  match e with
  | EvCreate path => ∃ name, name ∈ Api.filenames ∧ path = staged directory name
  | _ => True
  end.

(** A call that is no fetch. *)
Definition notFetch (e : Event) : Prop :=
  match e with
  | EvHttpGet _ _ => False
  | _ => True
  end.


(** A call that is no push. *)
Definition notPush (e : Event) : Prop :=
  match e with
  | EvPush _ _ => False
  | _ => True
  end.

(** A call that is no creation of a pull request. *)
Definition notPull (e : Event) : Prop :=
  match e with
  | EvPullRequestCreate _ _ _ _ => False
  | _ => True
  end.

(** A call of the stages before the fetch: a log line, the parse, the
    temporary directory or the clone. *)
Definition beforeFetch (e : Event) : Prop :=
  match e with
  | EvLog _ _ _ | EvParse _ | EvTempDir _ _ | EvPlainClone _ _ _ => True
  | _ => False
  end.

(** A call that creates or opens no file. *)
Definition opensNoFile (e : Event) : Prop :=
  match e with
  | EvCreate _ | EvOpenFile _ _ => False
  | _ => True
  end.

(** A call that is no checkout. *)
Definition notCheckout (e : Event) : Prop :=
  match e with
  | EvCheckout _ => False
  | _ => True
  end.

(** The clone of the downstream repository fails: the temporary directory
    cannot be made under [pattern], or [git.PlainClone] into it returns an
    error. *)
Definition cloneFails (w : World) (pattern : string) (options : git.CloneOptions)
    (e : error) : Prop :=
  ioutil_TempDir w "" pattern = Err e
  ∨ ∃ directory,
      ioutil_TempDir w "" pattern = Ok directory
      ∧ git_PlainClone w directory options = Err e.

(** * Properties *)

(** ** Strings *)

Section StringFacts.

Implicit Types s t u old new : string.

Lemma append_cons c s t : String c s +:+ t = String c (s +:+ t).
Proof. reflexivity. Qed.

Lemma append_nil_r s : s +:+ "" = s.
Proof. induction s as [|c s IH]; [reflexivity|]. by rewrite append_cons, IH. Qed.

Lemma append_assoc s t u : (s +:+ t) +:+ u = s +:+ (t +:+ u).
Proof. induction s as [|c s IH]; [reflexivity|]. by rewrite !append_cons, IH. Qed.

Lemma HasPrefix_append s t : strings.HasPrefix (s +:+ t) s = true.
Proof.
  induction s as [|c s IH]; [reflexivity|].
  rewrite append_cons. simpl. by rewrite Ascii.eqb_refl, IH.
Qed.

(** The bytes of an occurrence just replaced are dropped. *)
Lemma replace_scan_skip old new budget s t :
  strings.replace_scan old new (String.length s) budget (s +:+ t)
  = strings.replace_scan old new O budget t.
Proof. induction s as [|c s IH]; [reflexivity|]. rewrite append_cons. simpl. exact IH. Qed.

(** A string without an occurrence of [old] is left as it is. *)
Lemma replace_scan_absent old new budget s :
  strings.Contains s old = false →
  strings.replace_scan old new O budget s = s.
Proof.
  induction s as [|c s IH]; [reflexivity|].
  simpl. intros [Hp Hs]%orb_false_iff.
  change (strings.HasPrefix (String c s) old = false) in Hp.
  rewrite Hp, andb_false_r. by rewrite IH.
Qed.

(** A leading occurrence of a non-empty [old] is replaced, and the scan
    goes on behind it. *)
Lemma replace_scan_head c old new s :
  strings.replace_scan (String c old) new O None (String c old +:+ s)
  = new +:+ strings.replace_scan (String c old) new O None s.
Proof.
  rewrite append_cons.
  change (strings.replace_scan (String c old) new O None (String c (old +:+ s)))
    with (if bool_decide (None ≠ Some O)
             && strings.HasPrefix (String c old +:+ s) (String c old)
          then new +:+ strings.replace_scan (String c old) new
                         (String.length old) None (old +:+ s)
          else String c (strings.replace_scan (String c old) new O None (old +:+ s))).
  rewrite HasPrefix_append, replace_scan_skip. reflexivity.
Qed.

Lemma Replace_dots v : strings.Replace v "." "-" (-1) = dotsToDashes v.
Proof.
  change (strings.Replace v "." "-" (-1)) with (strings.replace_scan "." "-" O None v).
  induction v as [|c v IH]; [reflexivity|].
  simpl. rewrite IH.
  destruct (Ascii.eqb c ".") eqn:Hc; simpl; reflexivity.
Qed.

End StringFacts.

Example Contains_tag : strings.Contains "refs/tags/v8.12.0" "refs/tags/" = true.
Proof. reflexivity. Qed.

Example Contains_branch : strings.Contains "refs/heads/master" "refs/tags/" = false.
Proof. reflexivity. Qed.

Example Replace_overlap : strings.Replace "aaa" "aa" "b" (-1) = "ba".
Proof. reflexivity. Qed.

Example Replace_limit : strings.Replace "a.b.c.d" "." "-" 2 = "a-b-c.d".
Proof. reflexivity. Qed.

Example Sprintf_two :
  fmt.Sprintf "refs/heads/%s:refs/heads/%s" ["x"; "y"] = "refs/heads/x:refs/heads/y".
Proof. reflexivity. Qed.

Example Base_file : filepath.Base "a/b/demo.js" = "demo.js".
Proof. reflexivity. Qed.

Example Base_trailing : filepath.Base "a/b//" = "b".
Proof. reflexivity. Qed.

Example Base_slashes : filepath.Base "//" = "/".
Proof. reflexivity. Qed.

(** ** The version derived from the reference *)

(** Behind a leading [refs/tags/v] the scan goes on: further occurrences
    are deleted as well. *)
Lemma version_of_tag S :
  Api.version ("refs/tags/v" +:+ S) = strings.Replace S "refs/tags/v" "" (-1).
Proof.
  unfold Api.version.
  change (strings.Replace ("refs/tags/v" +:+ S) "refs/tags/v" "" (-1))
    with (strings.replace_scan "refs/tags/v" "" O None ("refs/tags/v" +:+ S)).
  by rewrite replace_scan_head.
Qed.

(** Behind a leading [refs/tags/v], a remainder without a further
    occurrence is the version. *)
Lemma version_of_remainder (S : string) :
  strings.Contains S "refs/tags/v" = false →
  Api.version ("refs/tags/v" +:+ S) = S.
Proof.
  intros HS. rewrite version_of_tag.
  change (strings.Replace S "refs/tags/v" "" (-1))
    with (strings.replace_scan "refs/tags/v" "" O None S).
  by apply replace_scan_absent.
Qed.

(** C1 as stated fails: the reference [refs/tags/v1.0-refs/tags/v2] is
    [refs/tags/v] followed by [1.0-refs/tags/v2], and the version derived
    is [1.0-2]: every occurrence of [refs/tags/v] is deleted, not only the
    leading one. *)
Lemma version_not_always_remainder :
  Api.version ("refs/tags/v" +:+ "1.0-refs/tags/v2") = "1.0-2"
  ∧ Webhooks.version ("refs/tags/v" +:+ "1.0-refs/tags/v2") = "1.0-2"
  ∧ Api.version ("refs/tags/v" +:+ "1.0-refs/tags/v2") ≠ "1.0-refs/tags/v2"
  ∧ Webhooks.version ("refs/tags/v" +:+ "1.0-refs/tags/v2") ≠ "1.0-refs/tags/v2".
Proof. repeat split; discriminate. Qed.

(** What stands before the first occurrence is kept. *)
Example version_keeps_what_stands_before :
  Api.version "xrefs/tags/v1.0" = "x1.0".
Proof. reflexivity. Qed.

(** ** The strings derived from the version *)

(** Formats with [%s] only come out as concatenations. *)
Ltac sprintf :=
  cbn [fmt.Sprintf Api.remoteBranchFormat];
  rewrite ?append_nil_r, ?append_assoc; try reflexivity.

Lemma Api_branch v :
  fmt.Sprintf Api.remoteBranchFormat [strings.Replace v "." "-" (-1)] = branchOfVersion v.
Proof. unfold branchOfVersion. rewrite Replace_dots. sprintf. Qed.

Lemma Webhooks_branch v :
  fmt.Sprintf "support/update-libphonenumber-%s" [strings.Replace v "." "-" (-1)]
  = branchOfVersion v.
Proof. exact (Api_branch v). Qed.

(** C5: for every version the branch name the handlers derive (the head
    of the pull request, the branch checked out under [refs/heads/], the
    two sides of the pushed refspec) is the template
    [support/update-libphonenumber-%s] with every [.] of the version
    replaced by [-]; version [1.2.3] gives
    [support/update-libphonenumber-1-2-3].  The name is a function of the
    version alone, so a repeated derivation gives the same name. *)
Theorem branch_name_of_version (v token : string) :
  (github.Head (Api.newPullRequest v) = branchOfVersion v
   ∧ git.Branch (Api.checkoutOptions v) = "refs/heads/" +:+ branchOfVersion v
   ∧ git.RefSpecs (Api.pushOptions v token)
     = ["refs/heads/" +:+ branchOfVersion v +:+ ":refs/heads/" +:+ branchOfVersion v])
  ∧ (github.Head (Webhooks.newPullRequest v) = branchOfVersion v
     ∧ git.Branch (Webhooks.checkoutOptions v) = "refs/heads/" +:+ branchOfVersion v
     ∧ git.RefSpecs (Webhooks.pushOptions v token)
       = ["refs/heads/" +:+ branchOfVersion v +:+ ":refs/heads/" +:+ branchOfVersion v])
  ∧ (github.Head (Api.newPullRequest "1.2.3") = "support/update-libphonenumber-1-2-3"
     ∧ github.Head (Webhooks.newPullRequest "1.2.3") = "support/update-libphonenumber-1-2-3").
Proof.
  assert (∀ x y, fmt.Sprintf "refs/heads/%s:refs/heads/%s" [x; y]
                 = "refs/heads/" +:+ x +:+ ":refs/heads/" +:+ y) as Hspec
    by (intros; sprintf).
  repeat split.
  - apply Api_branch.
  - unfold Api.checkoutOptions. cbn [git.Branch]. rewrite Api_branch. sprintf.
  - unfold Api.pushOptions. cbn [git.RefSpecs]. by rewrite Api_branch, Hspec.
  - apply Webhooks_branch.
  - unfold Webhooks.checkoutOptions. cbn [git.Branch].
    rewrite Replace_dots. unfold branchOfVersion. sprintf.
  - unfold Webhooks.pushOptions. cbn [git.RefSpecs].
    rewrite Replace_dots. unfold branchOfVersion. sprintf.
Qed.

Lemma checkoutOptions_alike v : Api.checkoutOptions v = Webhooks.checkoutOptions v.
Proof.
  unfold Api.checkoutOptions, Webhooks.checkoutOptions. f_equal.
  generalize (strings.Replace v "." "-" (-1)). intros tag. sprintf.
Qed.

Lemma pushOptions_alike v token : Api.pushOptions v token = Webhooks.pushOptions v token.
Proof.
  unfold Api.pushOptions, Webhooks.pushOptions. f_equal.
  generalize (strings.Replace v "." "-" (-1)). intros tag. sprintf.
Qed.

(** C10: for every version the two variants compute the same strings:
    the branch checked out, the commit message and author, the refspec and
    credentials of the push, and the title, head, base and body of the
    pull request. *)
Theorem variants_derive_alike (v token : string) (now : Z) :
  Api.version v = Webhooks.version v
  ∧ Api.checkoutOptions v = Webhooks.checkoutOptions v
  ∧ Api.commitMessage v = Webhooks.commitMessage v
  ∧ Api.commitOptions now = Webhooks.commitOptions now
  ∧ Api.pushOptions v token = Webhooks.pushOptions v token
  ∧ Api.newPullRequest v = Webhooks.newPullRequest v.
Proof.
  split; [reflexivity|]. split; [apply checkoutOptions_alike|].
  split; [reflexivity|]. split; [reflexivity|].
  split; [apply pushOptions_alike|reflexivity].
Qed.

(** ** Proving an invariant of a run *)

Section Keeps.

Context (I : State → Prop) (P : Event → Prop).

Lemma keeps_ret {A} (a : A) : keeps I P (ret a).
Proof. intros st Hst. split; [constructor|exact Hst]. Qed.

Lemma keeps_panic {A} e : keeps I P (panic (A:=A) e).
Proof. intros st Hst. split; [constructor|exact Hst]. Qed.

Lemma keeps_exit {A} c : keeps I P (exit (A:=A) c).
Proof. intros st Hst. split; [constructor|exact Hst]. Qed.

Lemma keeps_emit e : P e → keeps I P (emit e).
Proof. intros He st Hst. split; [by repeat constructor|exact Hst]. Qed.

Lemma keeps_modify f : (∀ st, I st → I (f st)) → keeps I P (modify f).
Proof. intros Hf st Hst. split; [constructor|by apply Hf]. Qed.

Lemma keeps_bind {A B} (m : M A) (k : A → M B) :
  keeps I P m → (∀ a, keeps I P (k a)) → keeps I P (bind m k).
Proof.
  intros Hm Hk st Hst. destruct (Hm st Hst) as [Hev Hfin].
  unfold bind. destruct (m st) as [[[a|e|c] st'] evs]; [|by split..].
  destruct (Hk a st' Hfin) as [Hev' Hfin'].
  destruct (k a st') as [[o st''] evs']. split; [|exact Hfin'].
  apply Forall_app. by split.
Qed.

(** The state read is one that satisfies the invariant. *)
Lemma keeps_get_bind {B} (k : State → M B) :
  (∀ st, I st → keeps I P (k st)) → keeps I P (bind get k).
Proof.
  intros Hk st Hst. destruct (Hk st Hst st Hst) as [Hev Hfin].
  unfold bind, get. destruct (k st st) as [[o st'] evs]. by split.
Qed.

Lemma keeps_range {A} (xs : list A) (body : A → M unit) :
  (∀ x, keeps I P (body x)) → keeps I P (range xs body).
Proof.
  intros Hbody. induction xs as [|x xs IH]; [apply keeps_ret|].
  apply keeps_bind; [apply Hbody|intros _; exact IH].
Qed.

End Keeps.

(** One step of a proof of [keeps], by the shape of the computation. *)
Ltac keeps_step :=
  lazymatch goal with
  | |- keeps _ _ (bind get _) => apply keeps_get_bind; intros ? ?
  | |- keeps _ _ (bind _ _) => apply keeps_bind; [|intros ?]
  | |- keeps _ _ (ret _) => apply keeps_ret
  | |- keeps _ _ (panic _) => apply keeps_panic
  | |- keeps _ _ (exit _) => apply keeps_exit
  | |- keeps _ _ (emit _) => apply keeps_emit
  | |- keeps _ _ (modify _) => apply keeps_modify
  | |- keeps _ _ (range _ _) => apply keeps_range; intros ?
  | |- keeps _ _ (log.Info _ _) => unfold log.Info
  | |- keeps _ _ (log.Warn _ _) => unfold log.Warn
  | |- keeps _ _ (log.Fatal _) => unfold log.Fatal
  | |- keeps _ _ (log.Panic _) => unfold log.Panic
  | |- keeps _ _ (match ?x with _ => _ end) => destruct x
  | |- keeps _ _ (let (_, _) := ?x in _) => destruct x
  end.

Ltac keeps_auto := repeat keeps_step; eauto.

Section KeepsHandlers.

Variable w : World.
Variable v : string.
Context (I : State → Prop) (P : Event → Prop).

Hypothesis I_files : ∀ f st, I st → I (set_files f st).
Hypothesis I_https : ∀ st, I st → I (set_https Webhooks.customClient st).
Hypothesis P_log : ∀ l f a, P (EvLog l f a).
Hypothesis P_tmp : ∀ d p, P (EvTempDir d p).
Hypothesis P_create : ∀ p, P (EvCreate p).
Hypothesis P_open : ∀ p m, P (EvOpenFile p m).
Hypothesis P_clone : ∀ st d o, I st → P (EvPlainClone d o (https st)).
Hypothesis P_raw :
  ∀ filename,
    P (EvHttpGet
         (fmt.Sprintf "https://raw.githubusercontent.com/%s" [Api.downloadPath v filename])
         http.DefaultClient).
Hypothesis P_archive : P (EvHttpGet (Webhooks.archiveURL v) http.DefaultClient).
Hypothesis P_checkout : P (EvCheckout (Api.checkoutOptions v)).
Hypothesis P_commit :
  ∀ tree, P (EvCommit (Api.commitMessage v) (Api.commitOptions (time_Now w)) tree).
Hypothesis P_push :
  ∀ st, I st → P (EvPush (Api.pushOptions v (os_Getenv w "GITHUB_TOKEN")) (https st)).
Hypothesis P_pull :
  P (EvPullRequestCreate "ruimarinho" "google-libphonenumber" (Api.newPullRequest v)
       (os_Getenv w "GITHUB_TOKEN")).

Lemma keeps_os_create path : keeps I P (os_create w path).
Proof. unfold os_create. keeps_auto. Qed.

Lemma keeps_os_openFile path mode : keeps I P (os_openFile w path mode).
Proof. unfold os_openFile. keeps_auto. Qed.

Lemma keeps_io_Copy path src readErr : keeps I P (io_Copy w path src readErr).
Proof. unfold io_Copy. keeps_auto. Qed.

Local Hint Resolve keeps_os_create keeps_os_openFile keeps_io_Copy : core.

Lemma keeps_Api_Clone name : keeps I P (Api.Clone w name).
Proof. unfold Api.Clone. keeps_auto. Qed.

Lemma keeps_Api_Download filename directory :
  keeps I P (Api.Download w (Api.downloadPath v filename) directory).
Proof. unfold Api.Download. keeps_auto. Qed.

Local Hint Resolve keeps_Api_Clone keeps_Api_Download : core.

Lemma keeps_Api_stage directory : keeps I P (Api.stage w v directory).
Proof. unfold Api.stage, Api.step. keeps_auto. Qed.

Local Hint Resolve keeps_Api_stage : core.

Lemma keeps_Api_Commit directory repository options :
  keeps I P (Api.Commit w v directory repository options).
Proof. unfold Api.Commit. keeps_auto. Qed.

Lemma keeps_Api_OpenPullRequest : keeps I P (Api.OpenPullRequest w v).
Proof. unfold Api.OpenPullRequest. keeps_auto. Qed.

Local Hint Resolve keeps_Api_Commit keeps_Api_OpenPullRequest : core.

Lemma keeps_Api_HandleEvent payload :
  Api.version (webhook.Ref payload) = v → keeps I P (Api.HandleEvent w payload).
Proof. intros Hv. unfold Api.HandleEvent. rewrite Hv. keeps_auto. Qed.

(** The same for [webhooks/handler.go]; its derived strings are those
    of [api/handler.go]. *)

Lemma keeps_Webhooks_Clone : keeps I P (Webhooks.Clone w).
Proof. unfold Webhooks.Clone. keeps_auto. Qed.

Lemma keeps_Webhooks_Download : keeps I P (Webhooks.Download w v).
Proof. unfold Webhooks.Download. keeps_auto. Qed.

Lemma keeps_Webhooks_extractLoop err directory tarReader :
  keeps I P (Webhooks.extractLoop w err directory tarReader).
Proof.
  induction tarReader as [|e|header data readErr rest IH]; simpl; keeps_auto.
Qed.

Local Hint Resolve keeps_Webhooks_Clone keeps_Webhooks_Download
  keeps_Webhooks_extractLoop : core.

Lemma keeps_Webhooks_Extract file directory :
  keeps I P (Webhooks.Extract w file directory).
Proof. unfold Webhooks.Extract. keeps_auto. Qed.

Lemma keeps_Webhooks_push repo : keeps I P (Webhooks.push w v repo).
Proof.
  unfold Webhooks.push.
  rewrite <- (pushOptions_alike v (os_Getenv w "GITHUB_TOKEN")).
  keeps_auto.
Qed.

Local Hint Resolve keeps_Webhooks_Extract keeps_Webhooks_push : core.

Lemma keeps_Webhooks_Commit repo options :
  keeps I P (Webhooks.Commit w v repo options).
Proof.
  unfold Webhooks.Commit.
  rewrite <- (checkoutOptions_alike v).
  change (Webhooks.commitMessage v) with (Api.commitMessage v).
  change (Webhooks.commitOptions (time_Now w)) with (Api.commitOptions (time_Now w)).
  keeps_auto.
Qed.

Lemma keeps_Webhooks_OpenPullRequest : keeps I P (Webhooks.OpenPullRequest w v).
Proof.
  unfold Webhooks.OpenPullRequest.
  change (Webhooks.newPullRequest v) with (Api.newPullRequest v).
  keeps_auto.
Qed.

Local Hint Resolve keeps_Webhooks_Commit keeps_Webhooks_OpenPullRequest : core.

Lemma keeps_Webhooks_HandleEvent payload :
  Webhooks.version (webhook.Ref payload) = v → keeps I P (Webhooks.HandleEvent w payload).
Proof. intros Hv. unfold Webhooks.HandleEvent. rewrite Hv. keeps_auto. Qed.

End KeepsHandlers.

(** ** Running a sequence *)

Section Running.

Context {A B : Type}.
Implicit Types (m : M A) (k : A → M B).

Lemma bind_Done m k st a st' evs :
  m st = (Done a, st', evs) →
  bind m k st = (outcome (k a st'), final (k a st'), evs ++ events (k a st')).
Proof. intros Hm. unfold bind. rewrite Hm. by destruct (k a st') as [[o st''] evs']. Qed.

Lemma bind_Panicked m k st e st' evs :
  m st = (Panicked e, st', evs) → bind m k st = (Panicked e, st', evs).
Proof. intros Hm. unfold bind. by rewrite Hm. Qed.

Lemma bind_Exited m k st c st' evs :
  m st = (Exited c, st', evs) → bind m k st = (Exited c, st', evs).
Proof. intros Hm. unfold bind. by rewrite Hm. Qed.

(** A sequence that returns has run both of its parts. *)
Lemma bind_Done_inv m k st b :
  outcome (bind m k st) = Done b →
  ∃ a, outcome (m st) = Done a
       ∧ outcome (k a (final (m st))) = Done b
       ∧ events (bind m k st) = events (m st) ++ events (k a (final (m st)))
       ∧ final (bind m k st) = final (k a (final (m st))).
Proof.
  unfold bind. destruct (m st) as [[[a|e|c] st'] evs]; [|discriminate..].
  destruct (k a st') as [[o st''] evs'] eqn:Hk. intros Ho.
  exists a. cbn in *. rewrite Hk. by repeat split.
Qed.

(** The events of the first part come first, however the sequence ends. *)
Lemma bind_events_prefix m k st :
  ∃ evs, events (bind m k st) = events (m st) ++ evs.
Proof.
  unfold bind. destruct (m st) as [[[a|e|c] st'] evs].
  - destruct (k a st') as [[o st''] evs']. by exists evs'.
  - exists []. cbn. by rewrite app_nil_r.
  - exists []. cbn. by rewrite app_nil_r.
Qed.

End Running.

(** ** A push that is not a tag *)

(** C4: when the pushed reference does not contain [refs/tags/], each of
    the two [HandleEvent]s writes its first log line and the line of the
    skip, and returns: no clone, fetch, commit, push or pull request, no
    file touched, nothing else emitted. *)
Theorem non_tag_push_is_skipped (w : World) (payload : webhook.PushPayload) (st : State) :
  strings.Contains (webhook.Ref payload) "refs/tags/" = false →
  Api.HandleEvent w payload st
  = (Done (), st,
     [EvLog InfoLevel "Handling incoming webhook" [];
      EvLog WarnLevel "Push reference is not a tag, skipping" []])
  ∧ Webhooks.HandleEvent w payload st
    = (Done (), st,
       [EvLog InfoLevel "Handling incoming libphonenumber-webhook" [];
        EvLog WarnLevel "Push reference is not a tag, skipping" []]).
Proof.
  intros Href. unfold Api.HandleEvent, Webhooks.HandleEvent.
  rewrite Href. split; reflexivity.
Qed.

Lemma non_tag_push_is_skipped_witness :
  Api.HandleEvent Sample.happy {| webhook.Ref := "refs/heads/master" |} Sample.start
  = (Done (), Sample.start,
     [EvLog InfoLevel "Handling incoming webhook" [];
      EvLog WarnLevel "Push reference is not a tag, skipping" []])
  ∧ Webhooks.HandleEvent Sample.happy {| webhook.Ref := "refs/heads/master" |} Sample.start
    = (Done (), Sample.start,
       [EvLog InfoLevel "Handling incoming libphonenumber-webhook" [];
        EvLog WarnLevel "Push reference is not a tag, skipping" []]).
Proof.
  apply (non_tag_push_is_skipped Sample.happy {| webhook.Ref := "refs/heads/master" |}).
  reflexivity.
Defined.

(** ** The method of the request *)

(** C8, as the code has it: [Handler] of [api/handler.go] answers a request
    whose method is not POST with status 405 and the fixed plaintext body,
    and neither parses the payload nor runs a stage.  [Handle] of
    [webhooks/handler.go] has no check of its own: it hands every request
    to the parser first, and panics with the response untouched when the
    parser returns an error. *)
Theorem non_post_is_rejected_by_Handler (w : World) (r : http.Request) (st : State) :
  http.Method r ≠ "POST" →
  Api.Handler w r st
  = (Done (),
     set_response
       (λ rw, http.Write "Method not supported by libphonenumber-hook"
                (http.WriteHeader http.StatusMethodNotAllowed rw)) st,
     [])
  ∧ (response st = fresh →
     response (final (Api.Handler w r st))
     = {| http.status := Some 405;
          http.written := "Method not supported by libphonenumber-hook" |})
  ∧ (∃ evs, events (Webhooks.Handle w r st) = EvParse r :: evs)
  ∧ (∀ e, hook_Parse w r = Err e →
       Webhooks.Handle w r st = (Panicked e, st, [EvParse r; EvLog PanicLevel e []])).
Proof.
  intros Hmethod.
  assert (Api.Handler w r st
          = (Done (),
             set_response
               (λ rw, http.Write "Method not supported by libphonenumber-hook"
                        (http.WriteHeader http.StatusMethodNotAllowed rw)) st,
             [])) as HA.
  { unfold Api.Handler.
    destruct (String.eqb_spec (http.Method r) "POST") as [Heq|_]; [by destruct Hmethod|].
    reflexivity. }
  split; [exact HA|]. split; [|split].
  - intros Hfresh. rewrite HA. cbn. by rewrite Hfresh.
  - unfold Webhooks.Handle. destruct (bind_events_prefix (emit (EvParse r))
      (λ _, match hook_Parse w r with
            | Ok payload =>
                Webhooks.HandleEvent w payload;;
                modify (set_response (http.Write "OK"));;
                modify (set_response (http.WriteHeader http.StatusOK))
            | Err err => log.Panic err
            end) st) as [evs Hevs].
    exists evs. exact Hevs.
  - intros e He. unfold Webhooks.Handle. rewrite He. reflexivity.
Qed.

Lemma non_post_is_rejected_by_Handler_witness :
  Api.Handler Sample.happy
    {| http.Method := "GET"; http.Header := []; http.Payload := "" |} Sample.start
  = (Done (),
     set_response
       (λ rw, http.Write "Method not supported by libphonenumber-hook"
                (http.WriteHeader http.StatusMethodNotAllowed rw)) Sample.start,
     [])
  ∧ response (final (Api.Handler Sample.happy
       {| http.Method := "GET"; http.Header := []; http.Payload := "" |} Sample.start))
    = {| http.status := Some 405;
         http.written := "Method not supported by libphonenumber-hook" |}.
Proof.
  destruct (non_post_is_rejected_by_Handler Sample.happy
              {| http.Method := "GET"; http.Header := []; http.Payload := "" |}
              Sample.start) as (H1 & H2 & _).
  - discriminate.
  - split; [exact H1|]. apply H2. reflexivity.
Defined.

(** C8 as stated fails for [Handle] of [webhooks/handler.go]: a GET goes to
    the parser, the run panics on the parser's error, and no status and no
    body are written. *)
Lemma Handle_does_not_reject_non_post : ¬ rejectsNonPost Webhooks.Handle.
Proof.
  intros H.
  destruct (H Sample.happy
              {| http.Method := "GET"; http.Header := []; http.Payload := "" |}
              Sample.start) as (Ho & _); [discriminate|reflexivity|].
  vm_compute in Ho. discriminate Ho.
Qed.

(** ** The acknowledgment *)

Lemma WriteHeader_after_Write code data rw :
  http.WriteHeader code (http.Write data rw) = http.Write data rw.
Proof. by destruct rw as [[?|] ?]. Qed.

(** No stage has the response writer in its hands. *)
Lemma Api_HandleEvent_response w payload st :
  response (final (Api.HandleEvent w payload st)) = response st.
Proof.
  apply (keeps_Api_HandleEvent w (Api.version (webhook.Ref payload))
           (λ s, response s = response st) (λ _, True)); done.
Qed.

Lemma Webhooks_HandleEvent_response w payload st :
  response (final (Webhooks.HandleEvent w payload st)) = response st.
Proof.
  apply (keeps_Webhooks_HandleEvent w (Webhooks.version (webhook.Ref payload))
           (λ s, response s = response st) (λ _, True)); done.
Qed.

(** The creation of the pull request never stops the run: its error is a
    value that [HandleEvent] drops. *)
Lemma Api_OpenPullRequest_returns w v st :
  ∃ err, outcome (Api.OpenPullRequest w v st) = Done err.
Proof.
  unfold Api.OpenPullRequest, bind, emit, log.Info, emit, ret, outcome.
  destruct (PullRequests_Create w _ _ _); cbn; eauto.
Qed.

Lemma Webhooks_OpenPullRequest_returns w v st :
  ∃ err, outcome (Webhooks.OpenPullRequest w v st) = Done err.
Proof.
  unfold Webhooks.OpenPullRequest, bind, emit, log.Info, emit, ret, outcome.
  destruct (PullRequests_Create w _ _ _); cbn; eauto.
Qed.

(** C7, as the code has it: [HandleEvent] runs before the response is
    written.  When the payload parses, the handler writes [OK] (status 200)
    exactly when [HandleEvent] returns; when [HandleEvent] panics or exits
    (a failed clone, fetch, commit or push) the handler ends the same way
    and the response is left as it was.  The stages never touch the
    response, and the creation of the pull request always returns, so its
    failure does not keep the [OK] back. *)
Theorem acknowledged_when_HandleEvent_returns
    (w : World) (r : http.Request) (payload : webhook.PushPayload) (st : State) :
  hook_Parse w r = Ok payload →
  (http.Method r = "POST" →
   response (final (Api.HandleEvent w payload st)) = response st
   ∧ match outcome (Api.HandleEvent w payload st) with
     | Done _ =>
         outcome (Api.Handler w r st) = Done ()
         ∧ response (final (Api.Handler w r st)) = http.Write "OK" (response st)
     | o =>
         outcome (Api.Handler w r st) = o
         ∧ response (final (Api.Handler w r st)) = response st
     end)
  ∧ (response (final (Webhooks.HandleEvent w payload st)) = response st
     ∧ match outcome (Webhooks.HandleEvent w payload st) with
       | Done _ =>
           outcome (Webhooks.Handle w r st) = Done ()
           ∧ response (final (Webhooks.Handle w r st)) = http.Write "OK" (response st)
       | o =>
           outcome (Webhooks.Handle w r st) = o
           ∧ response (final (Webhooks.Handle w r st)) = response st
       end)
  ∧ (∀ v st', ∃ err, outcome (Api.OpenPullRequest w v st') = Done err)
  ∧ (∀ v st', ∃ err, outcome (Webhooks.OpenPullRequest w v st') = Done err).
Proof.
  intros Hparse. split; [intros Hmethod; split|split; [split|split]].
  - apply Api_HandleEvent_response.
  - pose proof (Api_HandleEvent_response w payload st) as Hresp.
    unfold Api.Handler. rewrite Hmethod, Hparse.
    change (negb (String.eqb "POST" "POST")) with false. cbv iota.
    set (run := Api.HandleEvent w payload) in *.
    unfold bind, emit, modify. cbv beta.
    destruct (run st) as [[[[]|e|c] st'] evs]; cbn in *; by rewrite ?Hresp.
  - apply Webhooks_HandleEvent_response.
  - pose proof (Webhooks_HandleEvent_response w payload st) as Hresp.
    unfold Webhooks.Handle. rewrite Hparse.
    set (run := Webhooks.HandleEvent w payload) in *.
    unfold bind, emit, modify. cbv beta.
    destruct (run st) as [[[[]|e|c] st'] evs]; cbn in *; rewrite ?Hresp; [|done..].
    by rewrite WriteHeader_after_Write.
  - intros v st'. apply Api_OpenPullRequest_returns.
  - intros v st'. apply Webhooks_OpenPullRequest_returns.
Qed.

Lemma acknowledged_when_HandleEvent_returns_witness :
  outcome (Api.Handler Sample.refused (Sample.post "refs/tags/v8.12.0") Sample.start) = Done ()
  ∧ response (final (Api.Handler Sample.refused (Sample.post "refs/tags/v8.12.0") Sample.start))
    = {| http.status := Some 200; http.written := "OK" |}.
Proof.
  destruct (acknowledged_when_HandleEvent_returns Sample.refused
              (Sample.post "refs/tags/v8.12.0") {| webhook.Ref := "refs/tags/v8.12.0" |}
              Sample.start eq_refl) as [HA _].
  exact (proj2 (HA eq_refl)).
Defined.

(** C7 as stated fails: the payload parses, the clone of the downstream
    repository fails, [HandleEvent] panics and no [OK] is written. *)
Lemma failed_clone_is_not_acknowledged : ¬ acknowledgesWhenParsed Api.Handler.
Proof.
  intros H.
  specialize (H Sample.offline (Sample.post "refs/tags/v8.12.0")
                {| webhook.Ref := "refs/tags/v8.12.0" |} Sample.start eq_refl eq_refl).
  vm_compute in H. discriminate H.
Qed.

Example failed_clone_panics :
  outcome (Api.Handler Sample.offline (Sample.post "refs/tags/v8.12.0") Sample.start)
  = Panicked "repository not found"
  ∧ outcome (Webhooks.Handle Sample.offline (Sample.post "refs/tags/v8.12.0") Sample.start)
    = Panicked "repository not found".
Proof. split; vm_compute; reflexivity. Qed.

(** ** A run that returns has committed and opened the pull request *)

(** From [outcome (bind m k st) = Done _]: both parts have returned. *)
Tactic Notation "done_inv" hyp(H) "as" simple_intropattern(a) simple_intropattern(Hm) :=
  lazymatch type of H with
  | outcome (bind ?m ?k ?st) = Done _ =>
      let Hev := fresh "Hev" in
      let Hfin := fresh "Hfin" in
      apply bind_Done_inv in H as (a & Hm & H & Hev & Hfin);
      rewrite Hev; clear Hev Hfin; cbv beta in H
  end.

(** Membership in a list of events built with [::] and [++]. *)
Ltac find_event :=
  cbn [events emit log.Info log.Warn fst snd];
  lazymatch goal with
  | H : ?e ∈ ?l |- ?e ∈ ?l => exact H
  | |- _ ∈ _ :: _ => first [apply list_elem_of_here | apply list_elem_of_further; find_event]
  | |- _ ∈ _ ++ _ =>
      apply elem_of_app; first [left; solve [find_event] | right; find_event]
  end.

Lemma Api_Commit_committed w v directory repository options st :
  outcome (Api.Commit w v directory repository options st) = Done None →
  ∃ tree,
    EvCommit (Api.commitMessage v) (Api.commitOptions (time_Now w)) tree
    ∈ events (Api.Commit w v directory repository options st).
Proof.
  unfold Api.Commit. intros H.
  destruct (repository_Worktree w repository); [discriminate H|].
  done_inv H as [] _. destruct (worktree_Checkout w _); [discriminate H|].
  done_inv H as [] _. done_inv H as st' _. done_inv H as [] _.
  eexists. find_event.
Qed.

Lemma Webhooks_Commit_committed w v repo options st :
  outcome (Webhooks.Commit w v repo options st) = Done None →
  ∃ tree,
    EvCommit (Webhooks.commitMessage v) (Webhooks.commitOptions (time_Now w)) tree
    ∈ events (Webhooks.Commit w v repo options st).
Proof.
  unfold Webhooks.Commit. intros H.
  destruct (repository_Worktree w repo); [discriminate H|].
  done_inv H as [] _. destruct (worktree_Checkout w _); [discriminate H|].
  done_inv H as st' _. done_inv H as [] _.
  eexists. find_event.
Qed.

Lemma Api_OpenPullRequest_opens w v st :
  EvPullRequestCreate "ruimarinho" "google-libphonenumber" (Api.newPullRequest v)
    (os_Getenv w "GITHUB_TOKEN")
  ∈ events (Api.OpenPullRequest w v st).
Proof.
  unfold Api.OpenPullRequest.
  destruct (bind_events_prefix
    (emit (EvPullRequestCreate Api.remoteRepositoryUsername Api.remoteRepositoryName
             (Api.newPullRequest v) (os_Getenv w "GITHUB_TOKEN")))
    (λ _, match PullRequests_Create w Api.remoteRepositoryUsername
                  Api.remoteRepositoryName (Api.newPullRequest v) with
          | Ok pull =>
              log.Info "Pull request #%d opened (%v)"
                [Int (github.Number pull); Str (github.HTMLURL pull)];; ret None
          | Err err => ret (Some err)
          end) st) as [evs ->].
  find_event.
Qed.

Lemma Webhooks_OpenPullRequest_opens w v st :
  EvPullRequestCreate "ruimarinho" "google-libphonenumber" (Webhooks.newPullRequest v)
    (os_Getenv w "GITHUB_TOKEN")
  ∈ events (Webhooks.OpenPullRequest w v st).
Proof.
  unfold Webhooks.OpenPullRequest.
  destruct (bind_events_prefix
    (emit (EvPullRequestCreate "ruimarinho" "google-libphonenumber"
             (Webhooks.newPullRequest v) (os_Getenv w "GITHUB_TOKEN")))
    (λ _, match PullRequests_Create w "ruimarinho" "google-libphonenumber"
                  (Webhooks.newPullRequest v) with
          | Ok pull =>
              log.Info "Pull request #%d opened (%v)"
                [Int (github.Number pull); Str (github.HTMLURL pull)];; ret None
          | Err err => ret (Some err)
          end) st) as [evs ->].
  find_event.
Qed.

(** A run of [HandleEvent] on a tag that returns has created a commit and
    asked for the pull request. *)
Lemma Api_HandleEvent_Done w payload st :
  strings.Contains (webhook.Ref payload) "refs/tags/" = true →
  outcome (Api.HandleEvent w payload st) = Done () →
  let v := Api.version (webhook.Ref payload) in
  (∃ tree, EvCommit (Api.commitMessage v) (Api.commitOptions (time_Now w)) tree
           ∈ events (Api.HandleEvent w payload st))
  ∧ EvPullRequestCreate "ruimarinho" "google-libphonenumber" (Api.newPullRequest v)
      (os_Getenv w "GITHUB_TOKEN")
    ∈ events (Api.HandleEvent w payload st).
Proof.
  intros Htag H. unfold Api.HandleEvent in *. rewrite Htag in *. cbn [negb] in *.
  done_inv H as [] _. done_inv H as [] _.
  done_inv H as [directory [repository|err]] _; [|discriminate H].
  done_inv H as [err|] Hcommit; [discriminate H|].
  destruct (Api_Commit_committed _ _ _ _ _ _ Hcommit) as [tree Htree].
  done_inv H as ? Hopen.
  match type of Hopen with
  | outcome (Api.OpenPullRequest w ?v ?s) = Done _ =>
      pose proof (Api_OpenPullRequest_opens w v s) as Hpull
  end.
  split; [exists tree|]; find_event.
Qed.

Lemma Webhooks_HandleEvent_Done w payload st :
  strings.Contains (webhook.Ref payload) "refs/tags/" = true →
  outcome (Webhooks.HandleEvent w payload st) = Done () →
  let v := Webhooks.version (webhook.Ref payload) in
  (∃ tree, EvCommit (Webhooks.commitMessage v) (Webhooks.commitOptions (time_Now w)) tree
           ∈ events (Webhooks.HandleEvent w payload st))
  ∧ EvPullRequestCreate "ruimarinho" "google-libphonenumber" (Webhooks.newPullRequest v)
      (os_Getenv w "GITHUB_TOKEN")
    ∈ events (Webhooks.HandleEvent w payload st).
Proof.
  intros Htag H. unfold Webhooks.HandleEvent in *. rewrite Htag in *. cbn [negb] in *.
  done_inv H as [] _. done_inv H as [] _.
  done_inv H as [directory [repo|err]] _; [|discriminate H].
  done_inv H as [file|err] _; [|discriminate H].
  done_inv H as [err|] _; [discriminate H|].
  done_inv H as [err|] Hcommit; [discriminate H|].
  destruct (Webhooks_Commit_committed _ _ _ _ _ Hcommit) as [tree Htree].
  done_inv H as ? Hopen.
  match type of Hopen with
  | outcome (Webhooks.OpenPullRequest w ?v ?s) = Done _ =>
      pose proof (Webhooks_OpenPullRequest_opens w v s) as Hpull
  end.
  split; [exists tree|]; find_event.
Qed.

(** ** The scenario of release 8.12.0 *)

(** C6: for the reference [refs/tags/v8.12.0] both handlers derive the
    version [8.12.0] and the branch [support/update-libphonenumber-8-12-0];
    whatever the world answers, every checkout, commit, push and
    pull-request call of the run carries that branch, the message
    [Update libphonenumber@8.12.0] and the pull request with that title,
    that head and the base [master]; and a run that returns has made the
    commit and has asked for the pull request. *)
Theorem scenario_8_12_0 (w : World) (st : State) :
  (Api.version (webhook.Ref scenario) = "8.12.0"
   ∧ Webhooks.version (webhook.Ref scenario) = "8.12.0"
   ∧ branchOfVersion "8.12.0" = "support/update-libphonenumber-8-12-0"
   ∧ Api.commitMessage "8.12.0" = "Update libphonenumber@8.12.0"
   ∧ Api.newPullRequest "8.12.0" = scenarioPullRequest
   ∧ Webhooks.newPullRequest "8.12.0" = scenarioPullRequest)
  ∧ Forall scenarioEvent (events (Api.HandleEvent w scenario st))
  ∧ Forall scenarioEvent (events (Webhooks.HandleEvent w scenario st))
  ∧ (outcome (Api.HandleEvent w scenario st) = Done () →
     (∃ o tree, EvCommit "Update libphonenumber@8.12.0" o tree
                ∈ events (Api.HandleEvent w scenario st))
     ∧ ∃ token, EvPullRequestCreate "ruimarinho" "google-libphonenumber"
                  scenarioPullRequest token
                ∈ events (Api.HandleEvent w scenario st))
  ∧ (outcome (Webhooks.HandleEvent w scenario st) = Done () →
     (∃ o tree, EvCommit "Update libphonenumber@8.12.0" o tree
                ∈ events (Webhooks.HandleEvent w scenario st))
     ∧ ∃ token, EvPullRequestCreate "ruimarinho" "google-libphonenumber"
                  scenarioPullRequest token
                ∈ events (Webhooks.HandleEvent w scenario st)).
Proof.
  split; [by repeat split|]. split; [|split; [|split]].
  - by apply (keeps_Api_HandleEvent w "8.12.0" (λ _, True) scenarioEvent).
  - by apply (keeps_Webhooks_HandleEvent w "8.12.0" (λ _, True) scenarioEvent).
  - intros H. destruct (Api_HandleEvent_Done w scenario st eq_refl H) as [[tree Htree] Hpull].
    split; [by eexists _, tree|by eexists].
  - intros H.
    destruct (Webhooks_HandleEvent_Done w scenario st eq_refl H) as [[tree Htree] Hpull].
    split; [by eexists _, tree|by eexists].
Qed.

Lemma scenario_8_12_0_witness :
  (∃ token, EvPullRequestCreate "ruimarinho" "google-libphonenumber" scenarioPullRequest token
            ∈ events (Api.HandleEvent Sample.happy scenario Sample.start))
  ∧ ∃ token, EvPullRequestCreate "ruimarinho" "google-libphonenumber" scenarioPullRequest token
             ∈ events (Webhooks.HandleEvent Sample.happy scenario Sample.start).
Proof.
  destruct (scenario_8_12_0 Sample.happy Sample.start) as (_ & _ & _ & HA & HB).
  split.
  - apply HA. vm_compute. reflexivity.
  - apply HB. vm_compute. reflexivity.
Defined.

(** ** The clients of the network calls *)

(** [Clone] installs its client before anything else: a run of
    [webhooks/handler.go] emits what it would emit with the client
    installed from the start. *)
Lemma Webhooks_HandleEvent_installed w payload st :
  events (Webhooks.HandleEvent w payload st)
  = events (Webhooks.HandleEvent w payload (set_https Webhooks.customClient st)).
Proof. unfold Webhooks.HandleEvent. by destruct (negb _). Qed.

(** C9, as the code has it: in [webhooks/handler.go] the client with the
    timeout of 15 seconds is the one installed for go-git, so the clone
    and the push of the downstream repository go through it; the fetch of
    upstream is [http.Get], through the default client, whose timeout is
    zero (none).  [api/handler.go] installs no client: its fetches go
    through the default client as well, and git through whatever client
    was installed when the run began. *)
Theorem timeout_is_on_the_git_client
    (w : World) (payload : webhook.PushPayload) (st : State) :
  Forall clientsOfWebhooks (events (Webhooks.HandleEvent w payload st))
  ∧ Forall (clientsOfApi (https st)) (events (Api.HandleEvent w payload st))
  ∧ http.Timeout Webhooks.customClient = 15 * time.Second
  ∧ http.Timeout http.DefaultClient = 0.
Proof.
  split; [|split; [|by split]].
  - rewrite Webhooks_HandleEvent_installed.
    by apply (keeps_Webhooks_HandleEvent w (Webhooks.version (webhook.Ref payload))
                (λ s, https s = Webhooks.customClient) clientsOfWebhooks).
  - by apply (keeps_Api_HandleEvent w (Api.version (webhook.Ref payload))
                (λ s, https s = https st) (clientsOfApi (https st))).
Qed.

(** C9 as stated fails: the fetch of the release tarball goes through the
    default client, which has no timeout. *)
Lemma upstream_fetch_is_not_bounded :
  ¬ (∀ w payload st, Forall fetchBounded (events (Webhooks.HandleEvent w payload st))).
Proof.
  intros H. specialize (H Sample.happy scenario Sample.start).
  rewrite List.Forall_forall in H.
  specialize (H (EvHttpGet "https://github.com/googlei18n/libphonenumber/archive/v8.12.0.tar.gz"
                   http.DefaultClient)).
  assert (fetchBounded
            (EvHttpGet "https://github.com/googlei18n/libphonenumber/archive/v8.12.0.tar.gz"
               http.DefaultClient)) as Hbad.
  { apply H. vm_compute. do 6 right. left. reflexivity. }
  discriminate Hbad.
Qed.

(** ** Paths *)

Section PathFacts.

Implicit Types s t name : string.

Lemma Contains_cons c s t :
  strings.Contains (String c s) t = strings.HasPrefix (String c s) t || strings.Contains s t.
Proof. reflexivity. Qed.

Lemma Contains_slash_cons c s :
  strings.Contains (String c s) "/" = Ascii.eqb c "/" || strings.Contains s "/".
Proof. rewrite Contains_cons. cbn [strings.HasPrefix]. by rewrite andb_true_r. Qed.

Lemma Contains_slash_append s t : strings.Contains (s +:+ String "/" t) "/" = true.
Proof.
  induction s as [|c s IH].
  - reflexivity.
  - rewrite append_cons, Contains_slash_cons, IH. apply orb_true_r.
Qed.

Lemma plain_spec name :
  plain name = true ↔ name ≠ "" ∧ strings.Contains name "/" = false.
Proof.
  unfold plain. rewrite andb_true_iff, !negb_true_iff, String.eqb_neq. reflexivity.
Qed.

(** Nothing is stripped from a path that ends in a file name. *)
Lemma stripTrailingSlashes_name name :
  strings.Contains name "/" = false → filepath.stripTrailingSlashes name = name.
Proof.
  induction name as [|c name IH]; [reflexivity|].
  rewrite Contains_slash_cons. intros [Hc Hname]%orb_false_iff.
  cbn [filepath.stripTrailingSlashes]. rewrite (IH Hname), Hc.
  by destruct name.
Qed.

Lemma stripTrailingSlashes_append s name :
  plain name = true → filepath.stripTrailingSlashes (s +:+ name) = s +:+ name.
Proof.
  intros [Hne Hname]%plain_spec. induction s as [|c s IH].
  - by apply stripTrailingSlashes_name.
  - rewrite append_cons. cbn [filepath.stripTrailingSlashes]. rewrite IH.
    destruct (s +:+ name) eqn:Hs; [|reflexivity].
    destruct s; [|discriminate Hs]. by destruct Hne.
Qed.

Lemma lastElement_append s name :
  strings.Contains name "/" = false →
  filepath.lastElement (s +:+ String "/" name) = name.
Proof.
  intros Hname. induction s as [|c s IH].
  - change ("" +:+ String "/" name) with (String "/" name).
    cbn [filepath.lastElement]. by rewrite Hname.
  - rewrite append_cons. cbn [filepath.lastElement].
    by rewrite Contains_slash_append.
Qed.

(** The base of a path that ends in a slash and a file name is the file
    name. *)
Lemma Base_join s name :
  plain name = true → filepath.Base (s +:+ String "/" name) = name.
Proof.
  intros Hplain. pose proof Hplain as [Hne Hname]%plain_spec.
  unfold filepath.Base.
  destruct (s +:+ String "/" name) eqn:Hs; [by destruct s|]. rewrite <- Hs.
  change (String "/" name) with ("/" +:+ name). rewrite <- append_assoc.
  rewrite stripTrailingSlashes_append by done.
  rewrite append_assoc. change ("/" +:+ name) with (String "/" name).
  rewrite lastElement_append by done. by destruct name.
Qed.

Lemma Base_downloadPath v name :
  plain name = true → filepath.Base (Api.downloadPath v name) = name.
Proof.
  intros Hplain. unfold Api.downloadPath. cbn [fmt.Sprintf].
  rewrite append_nil_r.
  change (String "g" ?s) with ("google/libphonenumber/v" +:+ v +:+ "/javascript/i18n/phonenumbers/" +:+ name).
  change (v +:+ "/javascript/i18n/phonenumbers/" +:+ name)
    with (v +:+ ("/javascript/i18n/phonenumbers" +:+ String "/" name)).
  rewrite <- !append_assoc. by apply Base_join.
Qed.

(** The file [Download] creates for a name of the list. *)
Lemma Download_target v directory name :
  plain name = true →
  fmt.Sprintf "%s/%s"
    [fmt.Sprintf "%s/src" [directory]; filepath.Base (Api.downloadPath v name)]
  = staged directory name.
Proof.
  intros Hplain. rewrite Base_downloadPath by done.
  unfold staged. cbn [fmt.Sprintf]. by rewrite !append_nil_r, append_assoc.
Qed.

Lemma staged_inj directory : Inj (=) (=) (staged directory).
Proof.
  intros name1 name2 H. unfold staged in H.
  apply (inj (String.app directory)) in H. by injection H.
Qed.

Lemma filenames_plain : Forall (λ name, plain name = true) Api.filenames.
Proof. repeat constructor. Qed.

End PathFacts.

(** ** Staging the files of the list *)

(** The run of a sequence whose parts are laid open, reduced; the strings
    are left as they are. *)
Ltac run :=
  cbn beta iota zeta delta [outcome final events fst snd files set_files].

Section CopyFacts.

Implicit Types s data : string.

Lemma take_all n s : (String.length s ≤ n)%nat → take n s = s.
Proof.
  revert n. induction s as [|c s IH]; intros [|n] Hn; try reflexivity.
  - cbn in Hn. lia.
  - cbn in *. rewrite IH; [reflexivity|lia].
Qed.

Lemma drop_nil n : drop n "" = "".
Proof. by destruct n. Qed.

(** A copy without an error has written all the bytes of the source. *)
Lemma accepted_whole limit data readErr :
  io.copyError limit data readErr = None →
  io.accepted limit data = data ∧ readErr = None.
Proof.
  unfold io.copyError, io.accepted. destruct limit as [[n e]|]; [|done].
  destruct (n <? String.length data)%nat eqn:Hn; [by intros [=]|].
  apply Nat.ltb_ge in Hn. intros ->. by rewrite take_all.
Qed.

(** Into a file that [os.Create] has just emptied. *)
Lemma overwrite_empty data : io.overwrite data (Some "") = data.
Proof. unfold io.overwrite. cbn. by rewrite drop_nil, append_nil_r. Qed.

End CopyFacts.

Section Stage.

Variable w : World.
Variables v directory : string.

Local Abbreviation step := (Api.step w v directory).

(** One turn of the loop: the file is fetched and holds the body of the
    response, or the fetch fails and the process exits. *)
Lemma step_run name st :
  plain name = true →
  (∃ data,
      fetched w v directory name data
      ∧ outcome (step name st) = Done ()
      ∧ files (final (step name st)) = <[staged directory name := data]> (files st))
  ∨ (∃ e, fetchFails w v directory name e ∧ outcome (step name st) = Exited 1).
Proof.
  intros Hplain. unfold Api.step, Api.Download, fetched, fetchFails.
  rewrite (Download_target v directory name Hplain).
  fold (rawURL v name).
  unfold os_create, io_Copy, log.Fatal, log.Info, bind, emit, modify, ret, exit.
  destruct (os_Create w (staged directory name)) as [e|] eqn:Hcreate; run.
  { right. exists e. by split; [left|]. }
  destruct (http_Get w (rawURL v name)) as [response|e] eqn:Hget; run.
  2: { right. exists e. split; [right; split; [done|by left]|done]. }
  destruct (io.copyError _ _ _) as [e|] eqn:Hcopy; run.
  { right. exists e. split; [right; split; [done|right; by exists response]|done]. }
  left. exists (http.bytes (http.Body response)).
  destruct (accepted_whole _ _ _ Hcopy) as [Hwhole _].
  split; [split; [done|by exists response]|]. split; [done|].
  rewrite lookup_insert_eq, Hwhole, overwrite_empty. apply insert_insert_eq.
Qed.

(** The loop over any list of file names. *)
Lemma range_step_Done names st :
  Forall (λ name, plain name = true) names →
  outcome (range names step st) = Done () →
  (∀ name, name ∈ names →
     ∃ data, fetched w v directory name data
             ∧ files (final (range names step st)) !! staged directory name = Some data)
  ∧ (∀ path, (∀ name, name ∈ names → path ≠ staged directory name) →
       files (final (range names step st)) !! path = files st !! path).
Proof.
  intros Hplain. revert st.
  induction Hplain as [|name names Hname Hnames IH]; intros st Hdone.
  { split; [by intros name ?%elem_of_nil|done]. }
  cbn [range] in *.
  apply bind_Done_inv in Hdone as ([] & Hstep & Hrest & _ & Hfin).
  rewrite Hfin. destruct (IH _ Hrest) as [IHin IHout].
  destruct (step_run name st Hname) as [(data & Hdata & _ & Hfiles)|(e & _ & Hexit)];
    [|congruence].
  split.
  - intros name' [->|Hin]%elem_of_cons; [|by apply IHin].
    destruct (decide (name ∈ names)) as [Hin|Hnotin]; [by apply IHin|].
    exists data. split; [done|].
    rewrite IHout, Hfiles; [apply lookup_insert_eq|].
    intros name' Hin ?%staged_inj. congruence.
  - intros path Hpath. rewrite IHout, Hfiles.
    + apply lookup_insert_ne. intros <-.
      by apply (Hpath name (list_elem_of_here _ _)).
    + intros name' Hin. by apply Hpath, list_elem_of_further.
Qed.

(** A failing fetch stops the loop: the process exits. *)
Lemma range_step_Exited names st name e :
  Forall (λ name, plain name = true) names →
  name ∈ names →
  fetchFails w v directory name e →
  outcome (range names step st) = Exited 1.
Proof.
  intros Hplain. revert st.
  induction Hplain as [|name' names Hname' Hnames IH]; intros st Hin Hfail.
  { by apply elem_of_nil in Hin. }
  cbn [range].
  destruct (step name' st) as [[o st'] evs] eqn:Hrun.
  destruct (step_run name' st Hname') as [(data & Hdata & Ho & _)|(e' & _ & Hexit)].
  - rewrite Hrun in Ho. cbn in Ho. subst o.
    rewrite (bind_Done _ _ _ _ _ _ Hrun). cbn.
    apply elem_of_cons in Hin as [->|Hin]; [|by apply IH].
    exfalso. destruct Hdata as [Hcreate (response & Hget & Hbytes & Hcopy)].
    destruct Hfail as [?|[_ [?|(response' & Hget' & Hcopy')]]]; [congruence..|].
    rewrite Hget in Hget'. injection Hget' as <-. rewrite Hbytes in Hcopy'. congruence.
  - rewrite Hrun in Hexit. cbn in Hexit. subst o.
    by rewrite (bind_Exited _ _ _ _ _ _ Hrun).
Qed.

End Stage.

(** C3, as the code has it: when the staging loop of [api/handler.go]
    returns, each file name of the fixed list has a file in the folder
    [src] of the staging directory whose content is, byte for byte, the
    body of the response to its URL, and every other path holds what it
    held before the loop (the files that the clone put into [src] are
    still there). *)
Theorem staged_files_are_the_fixed_list (w : World) (v directory : string) (st : State) :
  outcome (Api.stage w v directory st) = Done () →
  (∀ name, name ∈ Api.filenames →
     ∃ response,
       http_Get w (rawURL v name) = Ok response
       ∧ files (final (Api.stage w v directory st)) !! staged directory name
         = Some (http.bytes (http.Body response)))
  ∧ (∀ path, (∀ name, name ∈ Api.filenames → path ≠ staged directory name) →
       files (final (Api.stage w v directory st)) !! path = files st !! path).
Proof.
  intros Hdone.
  destruct (range_step_Done w v directory Api.filenames st filenames_plain Hdone)
    as [Hin Hout].
  split; [|exact Hout].
  intros name Hname. destruct (Hin name Hname) as (data & Hfetched & Hfile).
  destruct Hfetched as (_ & response & Hget & <- & _). by exists response.
Qed.

Lemma staged_files_are_the_fixed_list_witness :
  (∃ response,
     http_Get Sample.happy (rawURL "8.12.0" "demo.js") = Ok response
     ∧ files (final (Api.stage Sample.happy "8.12.0" "/tmp/clone" Sample.start))
         !! staged "/tmp/clone" "demo.js"
       = Some (http.bytes (http.Body response)))
  ∧ files (final (Api.stage Sample.happy "8.12.0" "/tmp/clone" Sample.start))
      !! "/tmp/clone/package.json"
    = files Sample.start !! "/tmp/clone/package.json".
Proof.
  destruct (staged_files_are_the_fixed_list Sample.happy "8.12.0" "/tmp/clone" Sample.start)
    as [Hin Hout].
  - vm_compute. reflexivity.
  - split.
    + apply Hin. do 2 apply list_elem_of_further. apply list_elem_of_here.
    + apply Hout. intros name _. unfold staged. discriminate.
Defined.

(** C3 as stated fails: the staging directory is a clone of the downstream
    repository, and a file that the clone has put into [src] stays there
    beside the files of the list. *)
Lemma src_holds_more_than_the_list :
  ¬ (∀ w v directory st,
       outcome (Api.stage w v directory st) = Done () →
       holdsExactly Api.filenames directory (files (final (Api.stage w v directory st)))).
Proof.
  intros H.
  specialize (H Sample.happy "8.12.0" "/tmp/ruimarinho-google-libphonenumber042"
                (final (Api.Clone Sample.happy "ruimarinho/google-libphonenumber" Sample.start))).
  destruct (H ltac:(vm_compute; reflexivity) "index.js") as [Hin _].
  assert ("index.js" ∈ Api.filenames) as Hlisted.
  { apply Hin. vm_compute. eexists. reflexivity. }
  apply list_elem_of_In in Hlisted. vm_compute in Hlisted.
  repeat destruct Hlisted as [Hlisted|Hlisted]; discriminate || done.
Qed.

(** [Extract] of [webhooks/handler.go] opens its targets without
    truncating them: behind the bytes of a shorter upstream file the end of
    the file of the clone remains. *)
Example Extract_leaves_the_old_tail :
  files (final (Webhooks.HandleEvent Sample.happy scenario Sample.start))
    !! "/tmp/libphonenumber042/src/demo.js"
  = Some "// demo 8.12.0 release before".
Proof. vm_compute. reflexivity. Qed.

(** ** A fetch that fails *)

Section FetchFails.

Variable w : World.
Variables v directory : string.
Variable tree : gmap string string.

(** The clone of [webhooks/handler.go] that succeeds. *)
Lemma Webhooks_Clone_ok st :
  ioutil_TempDir w "" "libphonenumber" = Ok directory →
  git_PlainClone w directory
    {| git.URL := "https://github.com/ruimarinho/google-libphonenumber.git";
       git.ReferenceName := "" |} = Ok tree →
  outcome (Webhooks.Clone w st) = Done (directory, Ok {| git.Path := directory |}).
Proof.
  intros Htmp Hclone. unfold Webhooks.Clone. rewrite Htmp.
  unfold bind, get, emit, modify, log.Info, emit, ret. run. by rewrite Hclone.
Qed.

(** The clone of [api/handler.go] that succeeds. *)
Lemma Api_Clone_ok st :
  ioutil_TempDir w "" "ruimarinho-google-libphonenumber" = Ok directory →
  git_PlainClone w directory
    {| git.URL := "https://github.com/ruimarinho/google-libphonenumber.git";
       git.ReferenceName := "refs/heads/master" |} = Ok tree →
  outcome (Api.Clone w "ruimarinho/google-libphonenumber" st)
  = Done (directory, Ok {| git.Path := directory |}).
Proof.
  intros Htmp Hclone. unfold Api.Clone.
  change (strings.ReplaceAll "ruimarinho/google-libphonenumber" "/" "-")
    with "ruimarinho-google-libphonenumber".
  change (fmt.Sprintf "https://github.com/%s.git" ["ruimarinho/google-libphonenumber"])
    with "https://github.com/ruimarinho/google-libphonenumber.git".
  change (fmt.Sprintf "refs/heads/master" []) with "refs/heads/master".
  rewrite Htmp.
  unfold bind, get, emit, modify, log.Info, emit, ret. run. by rewrite Hclone.
Qed.

(** An unreadable tarball makes the loop of [Extract] return its error. *)
Lemma extractLoop_unreadable tarReader e st :
  unreadable w directory tarReader e →
  outcome (Webhooks.extractLoop w None directory tarReader st) = Done (Some e).
Proof.
  intros H. revert st.
  induction H as [e|header data readErr rest e Hskip Hopen
                 |header data readErr rest e Hskip _ IH
                 |header data readErr rest e Hskip Hopen _ IH]; intros st;
    cbn [Webhooks.extractLoop]; rewrite ?Hskip.
  - reflexivity.
  - unfold os_openFile, bind, emit, log.Info, emit, ret. by rewrite Hopen.
  - apply IH.
  - unfold os_openFile, io_Copy, bind, emit, modify, log.Info, emit, ret.
    rewrite Hopen. run.
    match goal with
    | |- context [Webhooks.extractLoop w None directory rest ?s] =>
        specialize (IH s); destruct (Webhooks.extractLoop w None directory rest s)
          as [[o st'] evs]
    end.
    exact IH.
Qed.

End FetchFails.

Lemma Webhooks_Download_run w v st :
  Webhooks.Download w v st
  = (Done match http_Get w (Webhooks.archiveURL v) with
          | Ok resp => Ok (http.Body resp)
          | Err err => Err err
          end,
     st, [EvHttpGet (Webhooks.archiveURL v) http.DefaultClient]).
Proof.
  unfold Webhooks.Download, bind, emit, ret.
  by destruct (http_Get w (Webhooks.archiveURL v)).
Qed.

(** The parts of a run laid open, and the run reduced. *)
Ltac lay :=
  repeat (progress (unfold bind, log.Panic, log.Info, emit, panic, ret; run)).

(** In [webhooks/handler.go], after a clone that succeeds, a failing fetch
    makes the run panic with the error of the failure; the run has made
    the one call to fetch and no commit, push or pull request. *)
Lemma Webhooks_fetch_failure (w : World) (payload : webhook.PushPayload) (st : State)
    (directory : string) (tree : gmap string string) (e : error) :
  strings.Contains (webhook.Ref payload) "refs/tags/" = true →
  ioutil_TempDir w "" "libphonenumber" = Ok directory →
  git_PlainClone w directory
    {| git.URL := "https://github.com/ruimarinho/google-libphonenumber.git";
       git.ReferenceName := "" |} = Ok tree →
  archiveFails w (Webhooks.version (webhook.Ref payload)) directory e →
  outcome (Webhooks.HandleEvent w payload st) = Panicked e
  ∧ ∃ pre post,
      events (Webhooks.HandleEvent w payload st)
      = pre ++ EvHttpGet (Webhooks.archiveURL (Webhooks.version (webhook.Ref payload)))
                 http.DefaultClient :: post
      ∧ Forall quiet pre ∧ Forall quiet post.
Proof.
  intros Htag Htmp Hclone Hfail.
  unfold Webhooks.HandleEvent. rewrite Htag. cbn [negb].
  set (v := Webhooks.version (webhook.Ref payload)) in *.
  pose proof (Webhooks_Clone_ok w directory tree st Htmp Hclone) as HC.
  assert (Forall quiet (events (Webhooks.Clone w st))) as HevC
    by (by apply (keeps_Webhooks_Clone w (λ _, True) quiet)).
  lay.
  destruct (Webhooks.Clone w st) as [[oc stc] evc]. cbn in HC, HevC. subst oc. run.
  rewrite Webhooks_Download_run. run.
  assert (∀ l : list Event, Forall quiet l → Forall quiet
            (EvLog InfoLevel "Handling incoming libphonenumber-webhook" []
             :: EvLog InfoLevel "Received push payload for version v" [Str v] :: l)) as Hpre
    by (intros; by repeat constructor).
  destruct Hfail as [Hget|(response & Hget & [Hgz|(tarReader & Hgz & Hbad)])];
    rewrite Hget; run.
  - split; [done|]. eexists _, _. split; [|split]; [|by apply Hpre; exact HevC|];
      [by rewrite ?app_nil_r; cbn [app]|]. by repeat constructor.
  - unfold Webhooks.Extract. rewrite Hgz. lay.
    split; [done|]. eexists _, _. split; [|split]; [|by apply Hpre; exact HevC|];
      [by rewrite ?app_nil_r; cbn [app]|]. by repeat constructor.
  - unfold Webhooks.Extract. rewrite Hgz.
    pose proof (extractLoop_unreadable w directory tarReader e stc Hbad) as HE.
    assert (Forall quiet (events (Webhooks.extractLoop w None directory tarReader stc)))
      as HevE by (by apply (keeps_Webhooks_extractLoop w (λ _, True) quiet)).
    destruct (Webhooks.extractLoop w None directory tarReader stc) as [[oe ste] eve].
    cbn in HE, HevE. subst oe. run.
    split; [done|]. eexists _, _. split; [|split]; [|by apply Hpre; exact HevC|];
      [by rewrite ?app_nil_r; cbn [app]|].
    apply Forall_app. split; [done|by repeat constructor].
Qed.

(** In [api/handler.go], after a checkout that succeeds, a fetch of the
    list that fails makes [Commit] exit before it commits. *)
Lemma Api_Commit_exits (w : World) (v directory : string) (repository : git.Repository)
    (options : Api.CommitOptions) (name : string) (e : error) (st : State) :
  repository_Worktree w repository = None →
  worktree_Checkout w (Api.checkoutOptions v) = None →
  name ∈ Api.filenames →
  fetchFails w v directory name e →
  outcome (Api.Commit w v directory repository options st) = Exited 1
  ∧ Forall beforeCommit (events (Api.Commit w v directory repository options st)).
Proof.
  intros Hworktree Hcheckout Hname Hfail.
  unfold Api.Commit. rewrite Hworktree, Hcheckout. lay.
  pose proof (range_step_Exited w v directory Api.filenames st name e
                filenames_plain Hname Hfail) as HS.
  change (range Api.filenames (Api.step w v directory) st)
    with (Api.stage w v directory st) in HS.
  assert (Forall beforeCommit (events (Api.stage w v directory st))) as HevS
    by (by apply (keeps_Api_stage w v (λ _, True) beforeCommit)).
  destruct (Api.stage w v directory st) as [[os sts] evs]. cbn in HS, HevS. subst os.
  run. split; [done|]. by constructor.
Qed.

Lemma Api_fetch_failure (w : World) (payload : webhook.PushPayload) (st : State)
    (directory : string) (tree : gmap string string) (name : string) (e : error) :
  strings.Contains (webhook.Ref payload) "refs/tags/" = true →
  ioutil_TempDir w "" "ruimarinho-google-libphonenumber" = Ok directory →
  git_PlainClone w directory
    {| git.URL := "https://github.com/ruimarinho/google-libphonenumber.git";
       git.ReferenceName := "refs/heads/master" |} = Ok tree →
  repository_Worktree w {| git.Path := directory |} = None →
  worktree_Checkout w (Api.checkoutOptions (Api.version (webhook.Ref payload))) = None →
  name ∈ Api.filenames →
  fetchFails w (Api.version (webhook.Ref payload)) directory name e →
  outcome (Api.HandleEvent w payload st) = Exited 1
  ∧ Forall beforeCommit (events (Api.HandleEvent w payload st)).
Proof.
  intros Htag Htmp Hclone Hworktree Hcheckout Hname Hfail.
  unfold Api.HandleEvent. rewrite Htag. cbn [negb].
  set (v := Api.version (webhook.Ref payload)) in *.
  change (fmt.Sprintf "%s/%s" [Api.remoteRepositoryUsername; Api.remoteRepositoryName])
    with "ruimarinho/google-libphonenumber".
  pose proof (Api_Clone_ok w directory tree st Htmp Hclone) as HC.
  assert (Forall beforeCommit
            (events (Api.Clone w "ruimarinho/google-libphonenumber" st))) as HevC
    by (by apply (keeps_Api_Clone w (λ _, True) beforeCommit)).
  lay.
  destruct (Api.Clone w "ruimarinho/google-libphonenumber" st) as [[oc stc] evc].
  cbn in HC, HevC. subst oc. run.
  destruct (Api_Commit_exits w v directory {| git.Path := directory |}
              {| Api.Push := true |} name e stc Hworktree Hcheckout Hname Hfail)
    as [Ho Hev].
  destruct (Api.Commit w v directory _ _ stc) as [[o st'] evs]. cbn in Ho, Hev. subst o.
  run. split; [done|]. repeat constructor. by apply Forall_app.
Qed.

(** C2, as the code has it.  In [webhooks/handler.go], once the clone has
    succeeded: when [http.Get] returns an error, or [gzip.NewReader] does,
    or the tar reader returns an error other than the end of the archive,
    or a destination file cannot be opened, the run panics with that
    error; it has made its one call to fetch, and no commit, push or pull
    request.  In [api/handler.go], once the clone and the checkout have
    succeeded: when for a file of the list the destination cannot be
    created, or [http.Get] returns an error, or the copy of the body
    fails, the process exits with status 1 and no commit, push or pull
    request has been made.  The status of a response is not among these
    failures: no handler reads it. *)
Theorem failed_fetch_aborts_before_commit
    (w : World) (payload : webhook.PushPayload) (st : State) :
  strings.Contains (webhook.Ref payload) "refs/tags/" = true →
  (∀ directory tree e,
     ioutil_TempDir w "" "libphonenumber" = Ok directory →
     git_PlainClone w directory
       {| git.URL := "https://github.com/ruimarinho/google-libphonenumber.git";
          git.ReferenceName := "" |} = Ok tree →
     archiveFails w (Webhooks.version (webhook.Ref payload)) directory e →
     outcome (Webhooks.HandleEvent w payload st) = Panicked e
     ∧ ∃ pre post,
         events (Webhooks.HandleEvent w payload st)
         = pre ++ EvHttpGet (Webhooks.archiveURL (Webhooks.version (webhook.Ref payload)))
                    http.DefaultClient :: post
         ∧ Forall quiet pre ∧ Forall quiet post)
  ∧ (∀ directory tree name e,
       ioutil_TempDir w "" "ruimarinho-google-libphonenumber" = Ok directory →
       git_PlainClone w directory
         {| git.URL := "https://github.com/ruimarinho/google-libphonenumber.git";
            git.ReferenceName := "refs/heads/master" |} = Ok tree →
       repository_Worktree w {| git.Path := directory |} = None →
       worktree_Checkout w (Api.checkoutOptions (Api.version (webhook.Ref payload))) = None →
       name ∈ Api.filenames →
       fetchFails w (Api.version (webhook.Ref payload)) directory name e →
       outcome (Api.HandleEvent w payload st) = Exited 1
       ∧ Forall beforeCommit (events (Api.HandleEvent w payload st))).
Proof.
  intros Htag. split.
  - intros directory tree e. by apply Webhooks_fetch_failure.
  - intros directory tree name e. by apply Api_fetch_failure.
Qed.

Lemma failed_fetch_aborts_before_commit_witness :
  outcome (Webhooks.HandleEvent Sample.missing scenario Sample.start)
  = Panicked "gzip: invalid header"
  ∧ outcome (Api.HandleEvent Sample.diskFull scenario Sample.start) = Exited 1.
Proof.
  split.
  - destruct (failed_fetch_aborts_before_commit Sample.missing scenario Sample.start eq_refl)
      as [HB _].
    eapply HB; [reflexivity|reflexivity|].
    right. eexists. split; [reflexivity|]. left. reflexivity.
  - destruct (failed_fetch_aborts_before_commit Sample.diskFull scenario Sample.start eq_refl)
      as [_ HA].
    eapply (HA _ _ "asyoutypeformatter_test.js" "no space left on device");
      [reflexivity|reflexivity|reflexivity|reflexivity|apply list_elem_of_here|].
    right. split; [reflexivity|]. right. eexists. split; reflexivity.
Defined.

(** C2 as stated fails for a response whose status is not 200: the status
    is never read.  [api/handler.go] stages the body of a 404 as the file
    and commits it; [webhooks/handler.go] hands the body to gzip, and goes
    on to commit when it decodes. *)
Lemma status_is_not_checked : ¬ statusCheckedByApi ∧ ¬ statusCheckedByWebhooks.
Proof.
  split; intros H.
  - destruct (H Sample.missing scenario Sample.start "demo.js"
                {| http.StatusCode := 404;
                   http.Body := {| http.bytes := "404: Not Found"; http.readErr := None |} |})
      as [Habort _]; [reflexivity| |reflexivity|discriminate|].
    + do 2 apply list_elem_of_further. apply list_elem_of_here.
    + vm_compute in Habort. exact Habort.
  - destruct (H Sample.mislabelled scenario Sample.start
                {| http.StatusCode := 404;
                   http.Body := {| http.bytes := Sample.archive; http.readErr := None |} |})
      as [Habort _]; [reflexivity|reflexivity|discriminate|].
    vm_compute in Habort. exact Habort.
Qed.

(** The page of the 404 is what [api/handler.go] commits. *)
Example not_found_page_is_committed :
  (λ tree : gmap string string,
     tree !! "/tmp/ruimarinho-google-libphonenumber042/src/demo.js")
  <$> committed (events (Api.HandleEvent Sample.missing scenario Sample.start))
  = [Some "404: Not Found"].
Proof. vm_compute. reflexivity. Qed.

(** Line 248 of [webhooks/handler.go] tests the error of [gzip.NewReader]
    where it means the error of the copy: on a full disk [Extract] returns
    no error, and the run commits, pushes and opens the pull request. *)
Example failed_copy_is_not_noticed :
  outcome (Webhooks.HandleEvent Sample.diskFull scenario Sample.start) = Done ()
  ∧ files (final (Webhooks.HandleEvent Sample.diskFull scenario Sample.start))
      !! "/tmp/libphonenumber042/src/metadata.js" = Some "".
Proof. split; vm_compute; reflexivity. Qed.

(** ** The version is handed on as it is *)

(** C1, as the code has it: when the reference is [refs/tags/v] followed by
    a string [S] that holds no further [refs/tags/v], both handlers derive
    the version [S] exactly, whatever [S] is (nothing checks that it is a
    well-formed version), and every later call of the run (the fetch, the
    checkout, the commit, the push, the pull request) carries the strings
    derived from that very [S]. *)
Theorem version_is_remainder (S : string) (w : World) (st : State) :
  strings.Contains S "refs/tags/v" = false →
  Api.version ("refs/tags/v" +:+ S) = S
  ∧ Webhooks.version ("refs/tags/v" +:+ S) = S
  ∧ Forall (carries S)
      (events (Api.HandleEvent w {| webhook.Ref := "refs/tags/v" +:+ S |} st))
  ∧ Forall (carries S)
      (events (Webhooks.HandleEvent w {| webhook.Ref := "refs/tags/v" +:+ S |} st)).
Proof.
  intros HS. pose proof (version_of_remainder S HS) as HA.
  split; [exact HA|]. split; [exact HA|]. split.
  - apply (keeps_Api_HandleEvent w S (λ _, True) (carries S)); try done.
    intros name. right. by exists name.
  - apply (keeps_Webhooks_HandleEvent w S (λ _, True) (carries S)); try done.
    by left.
Qed.

Lemma version_is_remainder_witness :
  Api.version ("refs/tags/v" +:+ "8.12.0-rc1+build") = "8.12.0-rc1+build"
  ∧ Webhooks.version ("refs/tags/v" +:+ "8.12.0-rc1+build") = "8.12.0-rc1+build".
Proof.
  pose proof (version_is_remainder "8.12.0-rc1+build" Sample.happy Sample.start eq_refl)
    as H.
  exact (conj (proj1 H) (proj1 (proj2 H))).
Defined.

(** * Further properties of the handlers *)

(** ** References and names *)

Section CharFacts.

Implicit Types (a b c : ascii) (s : string).

Lemma Contains_char_cons c a s :
  strings.Contains (String c s) (String a "")
  = Ascii.eqb c a || strings.Contains s (String a "").
Proof. rewrite Contains_cons. cbn [strings.HasPrefix]. by rewrite andb_true_r. Qed.

Lemma replace_scan_char_cons a b c s :
  strings.replace_scan (String a "") (String b "") O None (String c s)
  = String (if Ascii.eqb c a then b else c)
      (strings.replace_scan (String a "") (String b "") O None s).
Proof.
  cbn [strings.replace_scan strings.HasPrefix String.length Nat.pred fmap option_fmap option_map].
  rewrite andb_true_r.
  replace (bool_decide (None ≠ Some O)) with true by (symmetry; by apply bool_decide_eq_true).
  by destruct (Ascii.eqb c a).
Qed.

(** Where every [a] is replaced by another byte, no [a] is left. *)
Lemma replace_scan_char_gone a b s :
  Ascii.eqb b a = false →
  strings.Contains (strings.replace_scan (String a "") (String b "") O None s) (String a "")
  = false.
Proof.
  intros Hba. induction s as [|c s IH]; [reflexivity|].
  rewrite replace_scan_char_cons, Contains_char_cons, IH, orb_false_r.
  by destruct (Ascii.eqb c a) eqn:Hc.
Qed.

Lemma dotsToDashes_inj s1 s2 :
  strings.Contains s1 "-" = false →
  strings.Contains s2 "-" = false →
  dotsToDashes s1 = dotsToDashes s2 →
  s1 = s2.
Proof.
  revert s2. induction s1 as [|c1 s1 IH]; intros [|c2 s2]; try done.
  rewrite !Contains_char_cons. intros [Hc1 H1]%orb_false_iff [Hc2 H2]%orb_false_iff.
  cbn [dotsToDashes]. intros [= Hc Hs]. f_equal; [|by apply IH].
  destruct (Ascii.eqb_spec c1 ".") as [->|], (Ascii.eqb_spec c2 ".") as [->|];
    [done|subst c2; cbn in Hc2; discriminate|subst c1; cbn in Hc1; discriminate|done].
Qed.

End CharFacts.

(** X1: the filter of [HandleEvent] looks for [refs/tags/] and the strip
    for [refs/tags/v]: a reference without [refs/tags/v] (a tag whose name
    does not begin with [v]) is taken whole for the version. *)
Theorem version_of_reference_without_v (ref : string) :
  strings.Contains ref "refs/tags/v" = false →
  Api.version ref = ref ∧ Webhooks.version ref = ref.
Proof.
  intros Href.
  assert (Api.version ref = ref) as H; [|by split].
  unfold Api.version.
  change (strings.Replace ref "refs/tags/v" "" (-1))
    with (strings.replace_scan "refs/tags/v" "" O None ref).
  by apply replace_scan_absent.
Qed.

Lemma version_of_reference_without_v_witness :
  strings.Contains "refs/tags/8.12.0" "refs/tags/" = true
  ∧ Api.version "refs/tags/8.12.0" = "refs/tags/8.12.0"
  ∧ Webhooks.version "refs/tags/8.12.0" = "refs/tags/8.12.0".
Proof.
  split; [reflexivity|].
  apply (version_of_reference_without_v "refs/tags/8.12.0"). reflexivity.
Defined.

(** X2: two versions without a [-] that get the same branch are the same
    version; with a [-] they need not be. *)
Theorem branch_names_do_not_collide (v1 v2 : string) :
  strings.Contains v1 "-" = false →
  strings.Contains v2 "-" = false →
  github.Head (Api.newPullRequest v1) = github.Head (Api.newPullRequest v2)
  ∨ github.Head (Webhooks.newPullRequest v1) = github.Head (Webhooks.newPullRequest v2) →
  v1 = v2.
Proof.
  intros H1 H2 Hhead.
  assert (branchOfVersion v1 = branchOfVersion v2) as Hbranch.
  { destruct Hhead as [Hhead|Hhead]; cbn [github.Head Api.newPullRequest
      Webhooks.newPullRequest] in Hhead.
    - by rewrite !Api_branch in Hhead.
    - by rewrite !Webhooks_branch in Hhead. }
  unfold branchOfVersion in Hbranch.
  apply (inj (String.app "support/update-libphonenumber-")) in Hbranch.
  by apply dotsToDashes_inj.
Qed.

Lemma branch_names_do_not_collide_witness : "8.12.0" = "8.12.0".
Proof.
  apply (branch_names_do_not_collide "8.12.0" "8.12.0"); [reflexivity|reflexivity|].
  left. reflexivity.
Defined.

Example branch_names_collide_on_dashes :
  github.Head (Api.newPullRequest "8.12-0") = github.Head (Api.newPullRequest "8.12.0").
Proof. reflexivity. Qed.

(** X3: the branch name is the fixed prefix followed by a string without
    a [.], whatever the version. *)
Theorem branch_name_has_no_dot (v : string) :
  ∃ tag,
    strings.Contains tag "." = false
    ∧ github.Head (Api.newPullRequest v) = "support/update-libphonenumber-" +:+ tag
    ∧ github.Head (Webhooks.newPullRequest v) = "support/update-libphonenumber-" +:+ tag
    ∧ git.Branch (Api.checkoutOptions v)
      = "refs/heads/support/update-libphonenumber-" +:+ tag.
Proof.
  exists (strings.Replace v "." "-" (-1)). split.
  - change (strings.Replace v "." "-" (-1)) with (strings.replace_scan "." "-" O None v).
    by apply replace_scan_char_gone.
  - cbn [github.Head Api.newPullRequest Webhooks.newPullRequest git.Branch
         Api.checkoutOptions].
    generalize (strings.Replace v "." "-" (-1)). intros tag.
    repeat split; sprintf.
Qed.

(** X4: [Clone] of [api/handler.go] asks for its temporary directory with
    a pattern that holds no path separator, whatever the name of the
    repository is. *)
Theorem TempDir_pattern_has_no_separator (w : World) (repositoryName : string) (st : State) :
  Forall patternWithoutSeparator (events (Api.Clone w repositoryName st)).
Proof.
  assert (strings.Contains (strings.ReplaceAll repositoryName "/" "-") "/" = false) as Hpat.
  { change (strings.ReplaceAll repositoryName "/" "-")
      with (strings.replace_scan "/" "-" O None repositoryName).
    by apply replace_scan_char_gone. }
  assert (keeps (λ _, True) patternWithoutSeparator (Api.Clone w repositoryName)) as H.
  { unfold Api.Clone. repeat keeps_step; done. }
  exact (proj1 (H st I)).
Qed.

(** ** The files [Extract] and the staging loop write *)

Section BaseFacts.

Implicit Types (a c : ascii) (s t m name : string).

Lemma lastElement_no_slash s : strings.Contains (filepath.lastElement s) "/" = false.
Proof.
  induction s as [|c s IH]; [reflexivity|].
  cbn [filepath.lastElement].
  destruct (strings.Contains s "/") eqn:Hs; [exact IH|].
  destruct (Ascii.eqb c "/") eqn:Hc; [exact Hs|].
  by rewrite Contains_slash_cons, Hc, Hs.
Qed.

(** What is left of a path without its trailing slashes is empty or ends
    in a byte that is no slash. *)
Lemma stripTrailingSlashes_shape s :
  filepath.stripTrailingSlashes s = ""
  ∨ ∃ t c, filepath.stripTrailingSlashes s = t +:+ String c "" ∧ Ascii.eqb c "/" = false.
Proof.
  induction s as [|x s IH]; [by left|].
  cbn [filepath.stripTrailingSlashes].
  destruct IH as [->|(t & c & -> & Hc)].
  - destruct (Ascii.eqb x "/") eqn:Hx; [by left|].
    right. by exists "", x.
  - right. exists (String x t), c. split; [|done]. by destruct t.
Qed.

(** A path of slashes holds no string that begins with another byte. *)
Lemma stripTrailingSlashes_nil s a m :
  filepath.stripTrailingSlashes s = "" →
  Ascii.eqb a "/" = false →
  strings.Contains s (String a m) = false.
Proof.
  intros Hs Ha. induction s as [|x s IH]; [reflexivity|].
  cbn [filepath.stripTrailingSlashes] in Hs.
  destruct (filepath.stripTrailingSlashes s) eqn:Hstrip; [|discriminate Hs].
  destruct (Ascii.eqb_spec x "/") as [->|]; [|discriminate Hs].
  rewrite Contains_cons, IH by done. cbn [strings.HasPrefix].
  rewrite Ascii.eqb_sym, Ha. reflexivity.
Qed.

Lemma lastElement_nonempty t c :
  Ascii.eqb c "/" = false → filepath.lastElement (t +:+ String c "") ≠ "".
Proof.
  intros Hc. induction t as [|x t IH].
  - change ("" +:+ String c "") with (String c "").
    cbn [filepath.lastElement strings.Contains strings.HasPrefix orb]. by rewrite Hc.
  - rewrite append_cons. cbn [filepath.lastElement].
    destruct (strings.Contains (t +:+ String c "") "/"); [exact IH|].
    destruct (Ascii.eqb x "/"); [by destruct t|done].
Qed.

(** The base of a path that holds a string beginning with a byte other
    than a slash is a plain name. *)
Lemma Base_plain s a m :
  Ascii.eqb a "/" = false →
  strings.Contains s (String a m) = true →
  plain (filepath.Base s) = true.
Proof.
  intros Ha Hs. unfold filepath.Base.
  destruct s as [|x s]; [discriminate Hs|].
  destruct (stripTrailingSlashes_shape (String x s)) as [Hnil|(t & c & Hstrip & Hc)].
  { by rewrite (stripTrailingSlashes_nil _ a m Hnil Ha) in Hs. }
  rewrite Hstrip.
  pose proof (lastElement_nonempty t c Hc) as Hne.
  pose proof (lastElement_no_slash (t +:+ String c "")) as Hslash.
  destruct (filepath.lastElement (t +:+ String c "")) as [|y e] eqn:He; [done|].
  apply plain_spec. by split.
Qed.

(** [Extract] flattens: the target of an entry it does not pass over is
    a plain name in the folder [src]. *)
Lemma targetPath_staged directory header :
  Webhooks.skipped header = false →
  plain (filepath.Base (tar.Name header)) = true
  ∧ Webhooks.targetPath directory (tar.Name header)
    = staged directory (filepath.Base (tar.Name header)).
Proof.
  unfold Webhooks.skipped. intros [_ Hmark]%orb_false_iff.
  apply negb_false_iff in Hmark. split.
  - by apply (Base_plain _ "j" "avascript/i18n/phonenumbers/").
  - unfold Webhooks.targetPath, staged. cbn [fmt.Sprintf].
    by rewrite append_assoc.
Qed.

End BaseFacts.

Section ExtractFacts.

Variable w : World.
Variable directory : string.

(** One turn of the loop of [Extract] for an entry that is opened: the
    bytes that the file takes are laid over what the file held, the error
    of the copy is dropped, and the loop goes on. *)
Lemma extractLoop_opened header data readErr rest st :
  Webhooks.skipped header = false →
  os_OpenFile w (Webhooks.targetPath directory (tar.Name header)) (tar.Mode header) = None →
  let path := Webhooks.targetPath directory (tar.Name header) in
  let st' :=
    set_files (insert path
      (io.overwrite (io.accepted (file_Write w path) data) (Some (default "" (files st !! path)))))
      st in
  Webhooks.extractLoop w None directory (tar.Entry header data readErr rest) st
  = (outcome (Webhooks.extractLoop w None directory rest st'),
     final (Webhooks.extractLoop w None directory rest st'),
     EvLog InfoLevel "Extracting file" [Str path]
     :: EvOpenFile path (tar.Mode header)
     :: events (Webhooks.extractLoop w None directory rest st')).
Proof.
  intros Hskip Hopen. cbv zeta.
  cbn [Webhooks.extractLoop]. rewrite Hskip.
  set (path := Webhooks.targetPath directory (tar.Name header)) in *.
  set (st' := set_files (insert path _) st).
  unfold os_openFile, io_Copy, bind, emit, modify, log.Info, emit, ret.
  rewrite Hopen. run.
  assert (set_files
            (λ fs, <[path := io.overwrite (io.accepted (file_Write w path) data) (fs !! path)]> fs)
            (set_files (λ fs, <[path := default "" (fs !! path)]> fs) st) = st') as ->.
  { unfold st', set_files. cbn [files response https]. f_equal.
    by rewrite lookup_insert_eq, insert_insert_eq. }
  by destruct (Webhooks.extractLoop w None directory rest st') as [[o s] evs].
Qed.

Lemma extractLoop_unopened header data readErr rest st e :
  Webhooks.skipped header = false →
  os_OpenFile w (Webhooks.targetPath directory (tar.Name header)) (tar.Mode header) = Some e →
  Webhooks.extractLoop w None directory (tar.Entry header data readErr rest) st
  = (Done (Some e), st,
     [EvLog InfoLevel "Extracting file"
        [Str (Webhooks.targetPath directory (tar.Name header))];
      EvOpenFile (Webhooks.targetPath directory (tar.Name header)) (tar.Mode header)]).
Proof.
  intros Hskip Hopen. cbn [Webhooks.extractLoop]. rewrite Hskip.
  unfold os_openFile, bind, emit, log.Info, emit, ret. by rewrite Hopen.
Qed.

End ExtractFacts.

Section ExtractProperties.

Variable w : World.
Variable directory : string.

Lemma extractLoop_insideSrc tarReader st :
  Forall (insideSrc directory)
    (events (Webhooks.extractLoop w None directory tarReader st)).
Proof.
  revert st. induction tarReader as [|e|header data readErr rest IH]; intros st;
    [constructor..|].
  destruct (Webhooks.skipped header) eqn:Hskip.
  { cbn [Webhooks.extractLoop]. rewrite Hskip. apply IH. }
  destruct (targetPath_staged directory header Hskip) as [Hplain Hpath].
  assert (insideSrc directory
            (EvOpenFile (Webhooks.targetPath directory (tar.Name header)) (tar.Mode header)))
    as Hin by (by eexists).
  destruct (os_OpenFile w (Webhooks.targetPath directory (tar.Name header)) (tar.Mode header))
    as [e|] eqn:Hopen.
  - rewrite (extractLoop_unopened w directory _ _ _ _ _ e Hskip Hopen).
    by repeat constructor.
  - rewrite (extractLoop_opened w directory _ _ _ _ _ Hskip Hopen).
    repeat constructor; [done|]. apply IH.
Qed.

Lemma extractLoop_frame tarReader st path :
  (∀ header, header ∈ kept tarReader →
     path ≠ Webhooks.targetPath directory (tar.Name header)) →
  files (final (Webhooks.extractLoop w None directory tarReader st)) !! path
  = files st !! path.
Proof.
  revert st. induction tarReader as [|e|header data readErr rest IH]; intros st Hpath;
    [reflexivity..|].
  cbn [kept] in Hpath.
  destruct (Webhooks.skipped header) eqn:Hskip.
  { cbn [Webhooks.extractLoop]. rewrite Hskip. by apply IH. }
  destruct (os_OpenFile w (Webhooks.targetPath directory (tar.Name header)) (tar.Mode header))
    as [e|] eqn:Hopen.
  - by rewrite (extractLoop_unopened w directory _ _ _ _ _ e Hskip Hopen).
  - rewrite (extractLoop_opened w directory _ _ _ _ _ Hskip Hopen). run.
    rewrite IH by (intros h Hh; by apply Hpath, list_elem_of_further).
    cbn [files set_files]. apply lookup_insert_ne.
    intros <-. by apply (Hpath header (list_elem_of_here _ _)).
Qed.

Lemma extractLoop_result tarReader st :
  ∃ r, outcome (Webhooks.extractLoop w None directory tarReader st) = Done r
       ∧ ∀ e, r = Some e ↔ unreadable w directory tarReader e.
Proof.
  revert st. induction tarReader as [|x|header data readErr rest IH]; intros st.
  - exists None. split; [reflexivity|]. intros e. split; [discriminate|inversion 1].
  - exists (Some x). split; [reflexivity|]. intros e. split.
    + intros [= ->]. constructor.
    + by inversion 1.
  - destruct (Webhooks.skipped header) eqn:Hskip.
    { cbn [Webhooks.extractLoop]. rewrite Hskip.
      destruct (IH st) as (r & Hr & Hiff). exists r. split; [exact Hr|].
      intros e. rewrite Hiff. split.
      - by apply unreadable_skipped.
      - inversion 1; subst; congruence. }
    destruct (os_OpenFile w (Webhooks.targetPath directory (tar.Name header))
                (tar.Mode header)) as [x|] eqn:Hopen.
    + rewrite (extractLoop_unopened w directory _ _ _ _ _ x Hskip Hopen).
      exists (Some x). split; [reflexivity|]. intros e. split.
      * intros [= ->]. by apply unreadable_unopened.
      * inversion 1; subst; congruence.
    + rewrite (extractLoop_opened w directory _ _ _ _ _ Hskip Hopen). run.
      match goal with
      | |- context [Webhooks.extractLoop w None directory rest ?s] =>
          destruct (IH s) as (r & Hr & Hiff)
      end.
      exists r. split; [exact Hr|].
      intros e. rewrite Hiff. split.
      * by apply unreadable_later.
      * inversion 1; subst; congruence.
Qed.

End ExtractProperties.

(** X5: [Extract] flattens the archive: whatever the names of the entries
    are, every file it opens lies directly in the folder [src] of the
    staging directory, under a name that is not empty and holds no
    slash. *)
Theorem Extract_opens_files_in_src
    (w : World) (file : http.ReadCloser) (directory : string) (st : State) :
  Forall (insideSrc directory) (events (Webhooks.Extract w file directory st)).
Proof.
  unfold Webhooks.Extract. destruct (gzip_NewReader w file) as [tarReader|e].
  - apply extractLoop_insideSrc.
  - by repeat constructor.
Qed.

(** X6: [Extract] leaves every path as it is that is not the target of an
    entry it keeps (a regular file whose name holds the marked path):
    nothing is written for directories, for other entries, or when the
    body is no gzip stream. *)
Theorem Extract_touches_only_its_targets
    (w : World) (file : http.ReadCloser) (directory : string) (st : State) (path : string) :
  (∀ tarReader header,
     gzip_NewReader w file = Ok tarReader →
     header ∈ kept tarReader →
     path ≠ Webhooks.targetPath directory (tar.Name header)) →
  files (final (Webhooks.Extract w file directory st)) !! path = files st !! path.
Proof.
  intros Hpath. unfold Webhooks.Extract.
  destruct (gzip_NewReader w file) as [tarReader|e] eqn:Hgz; [|reflexivity].
  apply extractLoop_frame. intros header. by apply Hpath.
Qed.

Lemma Extract_touches_only_its_targets_witness :
  files (final (Webhooks.Extract Sample.happy
                  {| http.bytes := Sample.archive; http.readErr := None |} "/tmp/clone"
                  Sample.start))
    !! "/tmp/clone/src/README.md"
  = files Sample.start !! "/tmp/clone/src/README.md".
Proof.
  apply (Extract_touches_only_its_targets Sample.happy).
  intros tarReader header [= <-] Hkept.
  apply list_elem_of_In in Hkept. vm_compute in Hkept.
  destruct Hkept as [<-|[<-|[]]]; vm_compute; discriminate.
Defined.

(** X7: once the gzip header is read, [Extract] returns, and returns an
    error exactly when the tar reader fails or a target cannot be opened;
    whether a copy has failed (on the side of the archive or on the side
    of the file) has no part in it. *)
Theorem Extract_returns_errors_of_Next_and_OpenFile
    (w : World) (file : http.ReadCloser) (directory : string) (st : State)
    (tarReader : tar.Reader) :
  gzip_NewReader w file = Ok tarReader →
  ∃ r, outcome (Webhooks.Extract w file directory st) = Done r
       ∧ ∀ e, r = Some e ↔ unreadable w directory tarReader e.
Proof.
  intros Hgz. unfold Webhooks.Extract. rewrite Hgz. apply extractLoop_result.
Qed.

Lemma Extract_returns_errors_of_Next_and_OpenFile_witness :
  ∃ r, outcome (Webhooks.Extract Sample.diskFull
                  {| http.bytes := Sample.archive; http.readErr := None |} "/tmp/clone"
                  Sample.start) = Done r
       ∧ ∀ e, r = Some e ↔ unreadable Sample.diskFull "/tmp/clone" Sample.tarball e.
Proof.
  apply (Extract_returns_errors_of_Next_and_OpenFile Sample.diskFull). reflexivity.
Defined.

(** X8: [Extract] opens a target without truncating it: when the entry is
    copied whole, the file holds the bytes of the entry followed by what
    the file held beyond their length (nothing, when the file is new or
    was not longer), unless a later entry is written to the same path. *)
Theorem Extract_writes_over_the_old_file
    (w : World) (directory : string) (header : tar.Header) (data : string)
    (readErr : option error) (rest : tar.Reader) (st : State) :
  Webhooks.skipped header = false →
  os_OpenFile w (Webhooks.targetPath directory (tar.Name header)) (tar.Mode header) = None →
  file_Write w (Webhooks.targetPath directory (tar.Name header)) = None →
  (∀ later, later ∈ kept rest →
     Webhooks.targetPath directory (tar.Name header)
     ≠ Webhooks.targetPath directory (tar.Name later)) →
  files (final (Webhooks.extractLoop w None directory
                  (tar.Entry header data readErr rest) st))
    !! Webhooks.targetPath directory (tar.Name header)
  = Some (data +:+ drop (String.length data)
                     (default "" (files st !! Webhooks.targetPath directory (tar.Name header)))).
Proof.
  intros Hskip Hopen Hwrite Hlater.
  rewrite (extractLoop_opened w directory _ _ _ _ _ Hskip Hopen). run.
  rewrite extractLoop_frame by done.
  cbn [files set_files]. rewrite lookup_insert_eq, Hwrite. reflexivity.
Qed.

Lemma Extract_writes_over_the_old_file_witness :
  files (final (Webhooks.extractLoop Sample.happy None "/tmp/clone"
                  (Sample.regular "a/javascript/i18n/phonenumbers/demo.js" "// new" tar.EOF)
                  (set_files (insert "/tmp/clone/src/demo.js" "// the old file") Sample.start)))
    !! Webhooks.targetPath "/tmp/clone" "a/javascript/i18n/phonenumbers/demo.js"
  = Some ("// new" +:+ drop (String.length "// new")
            (default ""
               (files (set_files (insert "/tmp/clone/src/demo.js" "// the old file")
                         Sample.start)
                !! Webhooks.targetPath "/tmp/clone" "a/javascript/i18n/phonenumbers/demo.js"))).
Proof.
  apply (Extract_writes_over_the_old_file Sample.happy "/tmp/clone"
           {| tar.Name := "a/javascript/i18n/phonenumbers/demo.js";
              tar.Typeflag := tar.TypeReg; tar.Mode := 420 |});
    [reflexivity|reflexivity|reflexivity|].
  intros later Hlater. by apply elem_of_nil in Hlater.
Defined.

Example Extract_writes_over_the_old_file_example :
  files (final (Webhooks.extractLoop Sample.happy None "/tmp/clone"
                  (Sample.regular "a/javascript/i18n/phonenumbers/demo.js" "// new" tar.EOF)
                  (set_files (insert "/tmp/clone/src/demo.js" "// the old file") Sample.start)))
    !! "/tmp/clone/src/demo.js"
  = Some "// new old file".
Proof. vm_compute. reflexivity. Qed.

(** ** The staging loop of [api/handler.go] *)

Section Sequences.

Context {A B : Type}.
Implicit Types (m : M A) (k : A → M B).

(** The events of a sequence: those of the first part, and those of the
    second when the first returns. *)
Lemma bind_events m k st :
  events (bind m k st)
  = events (m st)
    ++ match outcome (m st) with
       | Done a => events (k a (final (m st)))
       | _ => []
       end.
Proof.
  unfold bind. destruct (m st) as [[[a|e|c] st'] evs]; cbn; [|by rewrite app_nil_r..].
  by destruct (k a st') as [[o st''] evs'].
Qed.

Lemma bind_outcome m k st :
  outcome (bind m k st)
  = match outcome (m st) with
    | Done a => outcome (k a (final (m st)))
    | Panicked e => Panicked e
    | Exited c => Exited c
    end.
Proof.
  unfold bind. destruct (m st) as [[[a|e|c] st'] evs]; cbn; [|done..].
  by destruct (k a st') as [[o st''] evs'].
Qed.

End Sequences.

Lemma fetches_app evs1 evs2 : fetches (evs1 ++ evs2) = fetches evs1 ++ fetches evs2.
Proof. apply omap_app. Qed.

Lemma fetches_notFetch evs : Forall notFetch evs → fetches evs = [].
Proof.
  induction 1 as [|e evs He _ IH]; [reflexivity|].
  destruct e; cbn in *; done.
Qed.

Section StageTrace.

Variable w : World.
Variables v directory : string.

(** The fetch of one turn of the loop: one, unless the file cannot be
    created. *)
Lemma step_fetches name st :
  plain name = true →
  fetches (events (Api.step w v directory name st))
  = match os_Create w (staged directory name) with
    | None => [rawURL v name]
    | Some _ => []
    end.
Proof.
  intros Hplain. unfold Api.step, Api.Download.
  rewrite (Download_target v directory name Hplain).
  fold (rawURL v name).
  unfold os_create, io_Copy, log.Fatal, log.Info, bind, emit, modify, ret, exit.
  destruct (os_Create w (staged directory name)) as [e|] eqn:Hcreate; run; [reflexivity|].
  destruct (http_Get w (rawURL v name)) as [response|e] eqn:Hget; run; [|reflexivity].
  destruct (io.copyError _ _ _) as [e|] eqn:Hcopy; run; reflexivity.
Qed.

Lemma range_step_fetches names st :
  Forall (λ name, plain name = true) names →
  fetches (events (range names (Api.step w v directory) st)) `prefix_of` (rawURL v <$> names)
  ∧ (outcome (range names (Api.step w v directory) st) = Done () →
     fetches (events (range names (Api.step w v directory) st)) = rawURL v <$> names).
Proof.
  intros Hplain. revert st.
  induction Hplain as [|name names Hname Hnames IH]; intros st.
  { split; [by exists []|done]. }
  cbn [range]. rewrite bind_events, bind_outcome, fetches_app, (step_fetches name st Hname).
  destruct (step_run w v directory name st Hname)
    as [(data & [Hcreate _] & Ho & _)|(e & _ & Ho)]; rewrite Ho.
  - rewrite Hcreate. destruct (IH (final (Api.step w v directory name st))) as [Hpre Heq].
    split.
    + cbn [fmap list_fmap app]. by apply prefix_cons.
    + intros Hdone. cbn [fmap list_fmap app]. f_equal. by apply Heq.
  - split; [|discriminate]. rewrite app_nil_r.
    destruct (os_Create w (staged directory name)).
    + apply prefix_nil.
    + cbn [fmap list_fmap]. apply prefix_cons, prefix_nil.
Qed.

(** Every file of a turn is created at the place of its name. *)
Lemma keeps_step_createsListed name :
  name ∈ Api.filenames →
  keeps (λ _, True) (createsListed directory) (Api.step w v directory name).
Proof.
  intros Hname.
  assert (plain name = true) as Hplain.
  { by apply (proj1 (Forall_forall _ _) filenames_plain). }
  unfold Api.step, Api.Download.
  rewrite (Download_target v directory name Hplain).
  unfold os_create.
  repeat keeps_step; try done.
  by exists name.
Qed.

Lemma keeps_range_elem {A} (I : State → Prop) (P : Event → Prop)
    (xs : list A) (body : A → M unit) :
  (∀ x, x ∈ xs → keeps I P (body x)) → keeps I P (range xs body).
Proof.
  induction xs as [|x xs IH]; intros Hbody; [apply keeps_ret|].
  cbn [range]. apply keeps_bind.
  - apply Hbody, list_elem_of_here.
  - intros _. apply IH. intros y Hy. by apply Hbody, list_elem_of_further.
Qed.

End StageTrace.

(** X9: whatever the version is (it is not validated, and it is part of
    the path handed to [Download]), the staging loop creates files only
    at the places of the file names of the list, directly in the folder
    [src] of the staging directory. *)
Theorem stage_creates_only_the_listed_files
    (w : World) (v directory : string) (st : State) :
  Forall (createsListed directory) (events (Api.stage w v directory st)).
Proof.
  assert (keeps (λ _, True) (createsListed directory) (Api.stage w v directory)) as H.
  { unfold Api.stage. apply keeps_range_elem. intros name.
    apply keeps_step_createsListed. }
  exact (proj1 (H st I)).
Qed.

(** X10: the staging loop fetches the URLs of the list in the order of
    the list, each at most once: the URLs fetched are a prefix of the URLs
    of the list, and all of them when the loop returns. *)
Theorem stage_fetches_in_order (w : World) (v directory : string) (st : State) :
  fetches (events (Api.stage w v directory st)) `prefix_of` (rawURL v <$> Api.filenames)
  ∧ (outcome (Api.stage w v directory st) = Done () →
     fetches (events (Api.stage w v directory st)) = rawURL v <$> Api.filenames).
Proof. apply range_step_fetches, filenames_plain. Qed.

(** X11: [Download] of [api/handler.go] creates its file before it
    fetches: when [http.Get] then returns an error, [Download] returns
    that error and leaves the file empty, whatever the file of the clone
    held. *)
Theorem Download_failure_leaves_an_empty_file
    (w : World) (v directory name : string) (e : error) (st : State) :
  plain name = true →
  os_Create w (staged directory name) = None →
  http_Get w (rawURL v name) = Err e →
  outcome (Api.Download w (Api.downloadPath v name) (fmt.Sprintf "%s/src" [directory]) st)
  = Done (Err e)
  ∧ files (final (Api.Download w (Api.downloadPath v name)
                    (fmt.Sprintf "%s/src" [directory]) st))
    = <[staged directory name := ""]> (files st).
Proof.
  intros Hplain Hcreate Hget. unfold Api.Download.
  rewrite (Download_target v directory name Hplain).
  fold (rawURL v name).
  unfold os_create, log.Info, bind, emit, modify, ret.
  rewrite Hcreate. run. rewrite Hget. by run.
Qed.

(** ** The commit and the push *)

Lemma fetches_cons e evs :
  fetches (e :: evs)
  = match e with EvHttpGet url _ => url :: fetches evs | _ => fetches evs end.
Proof. by destruct e. Qed.

Lemma committed_app evs1 evs2 : committed (evs1 ++ evs2) = committed evs1 ++ committed evs2.
Proof. apply omap_app. Qed.

Lemma committed_cons e evs :
  committed (e :: evs)
  = match e with EvCommit _ _ tree => tree :: committed evs | _ => committed evs end.
Proof. by destruct e. Qed.


(** The fetches and the commits of a list of events that is written out. *)
Ltac count_events :=
  repeat (rewrite ?fetches_app, ?fetches_cons, ?committed_app, ?committed_cons;
          cbv beta iota);
  change (fetches []) with (@nil string);
  change (committed []) with (@nil (gmap string string));
  rewrite ?app_nil_r; cbn [app].

(** The parts of a run laid open down to the oracles, and the run
    reduced. *)
Ltac unroll :=
  repeat (progress (unfold bind, log.Panic, log.Fatal, log.Info, log.Warn, emit, get,
                      modify, panic, exit, ret; run)).

(** A case for every answer of the oracles of git and of the API. *)
Ltac oracles :=
  repeat match goal with
         | |- context [match ?x with _ => _ end] =>
             lazymatch x with
             | worktree_Commit _ _ _ _ => destruct x eqn:?
             | repository_Remote _ _ => destruct x eqn:?
             | remote_Push _ _ => destruct x eqn:?
             | repository_Worktree _ _ => destruct x eqn:?
             | worktree_Checkout _ _ => destruct x eqn:?
             | PullRequests_Create _ _ _ _ => destruct x eqn:?
             end; run
         end.

(** [Commit] of [api/handler.go]: what it fetches is what its loop
    fetches, and when it returns no error it has committed the tree the
    loop left. *)
Lemma Api_Commit_trace (w : World) (v directory : string) (repository : git.Repository)
    (options : Api.CommitOptions) (st : State) :
  fetches (events (Api.Commit w v directory repository options st))
    `prefix_of` fetches (events (Api.stage w v directory st))
  ∧ (outcome (Api.Commit w v directory repository options st) = Done None →
     outcome (Api.stage w v directory st) = Done ()
     ∧ fetches (events (Api.Commit w v directory repository options st))
       = fetches (events (Api.stage w v directory st))
     ∧ committed (events (Api.Commit w v directory repository options st))
       = committed (events (Api.stage w v directory st))
         ++ [files (final (Api.stage w v directory st))]
     ∧ final (Api.Commit w v directory repository options st)
       = final (Api.stage w v directory st)).
Proof.
  unfold Api.Commit.
  destruct (repository_Worktree w repository); [split; [apply prefix_nil|discriminate]|].
  destruct (worktree_Checkout w _); unroll; [split; [apply prefix_nil|discriminate]|].
  destruct (Api.stage w v directory st) as [[[[]|e|c] sts] evs]; run.
  2,3: split; [count_events; by exists []; rewrite app_nil_r|discriminate].
  destruct options as [[]]; cbn [Api.Push negb]; oracles.
  all: (split; [count_events; by exists []; rewrite app_nil_r|]).
  all: try discriminate.
  all: intros _; split; [reflexivity|]; split; [by count_events|]; split;
    [by count_events|reflexivity].
Qed.

(** [Commit] asked to push returns no error only behind a push that
    succeeded. *)
Lemma Api_Commit_pushed (w : World) (v directory : string) (repository : git.Repository)
    (st : State) :
  outcome (Api.Commit w v directory repository {| Api.Push := true |} st) = Done None →
  remote_Push w (Api.pushOptions v (os_Getenv w "GITHUB_TOKEN")) = None
  ∧ ∃ client,
      EvPush (Api.pushOptions v (os_Getenv w "GITHUB_TOKEN")) client
      ∈ events (Api.Commit w v directory repository {| Api.Push := true |} st).
Proof.
  unfold Api.Commit.
  destruct (repository_Worktree w repository); [discriminate|].
  destruct (worktree_Checkout w _); unroll; [discriminate|].
  destruct (Api.stage w v directory st) as [[[[]|e|c] sts] evs]; run; [|discriminate..].
  cbn [Api.Push negb]. oracles; try discriminate.
  intros _. split; [done|]. eexists. find_event.
Qed.

(** [Commit] of [webhooks/handler.go] fetches nothing and writes
    nothing; when it returns no error it has committed the tree it
    found. *)
Lemma Webhooks_Commit_trace (w : World) (v : string) (repo : git.Repository)
    (options : Webhooks.CommitOptions) (st : State) :
  fetches (events (Webhooks.Commit w v repo options st)) = []
  ∧ final (Webhooks.Commit w v repo options st) = st
  ∧ (outcome (Webhooks.Commit w v repo options st) = Done None →
     committed (events (Webhooks.Commit w v repo options st)) = [files st]).
Proof.
  unfold Webhooks.Commit, Webhooks.push.
  destruct (repository_Worktree w repo); [by split; [|split]|].
  destruct (worktree_Checkout w _); unroll; [by split; [|split]|].
  destruct options as [[]]; cbn [Webhooks.Push negb]; oracles; unroll; oracles.
  all: split; [reflexivity|]; split; [reflexivity|]; done.
Qed.

Lemma Webhooks_Commit_pushed (w : World) (v : string) (repo : git.Repository) (st : State) :
  outcome (Webhooks.Commit w v repo {| Webhooks.Push := true |} st) = Done None →
  remote_Push w (Webhooks.pushOptions v (os_Getenv w "GITHUB_TOKEN")) = None
  ∧ ∃ client,
      EvPush (Webhooks.pushOptions v (os_Getenv w "GITHUB_TOKEN")) client
      ∈ events (Webhooks.Commit w v repo {| Webhooks.Push := true |} st).
Proof.
  unfold Webhooks.Commit, Webhooks.push.
  destruct (repository_Worktree w repo); [discriminate|].
  destruct (worktree_Checkout w _); unroll; [discriminate|].
  cbn [Webhooks.Push negb]. oracles; unroll; oracles; try discriminate.
  intros _. split; [done|]. eexists. find_event.
Qed.

(** X13: with [CommitOptions{Push: false}] neither [Commit] calls
    [remote.Push], whatever the oracles answer. *)
Theorem Commit_without_Push_does_not_push
    (w : World) (v directory : string) (repository : git.Repository) (st : State) :
  Forall notPush (events (Api.Commit w v directory repository {| Api.Push := false |} st))
  ∧ Forall notPush (events (Webhooks.Commit w v repository {| Webhooks.Push := false |} st)).
Proof.
  split.
  - assert (keeps (λ _, True) notPush
              (Api.Commit w v directory repository {| Api.Push := false |})) as H.
    { unfold Api.Commit. cbn [Api.Push negb].
      repeat first [by apply keeps_Api_stage | keeps_step]; done. }
    exact (proj1 (H st I)).
  - assert (keeps (λ _, True) notPush
              (Webhooks.Commit w v repository {| Webhooks.Push := false |})) as H.
    { unfold Webhooks.Commit. cbn [Webhooks.Push negb]. repeat keeps_step; done. }
    exact (proj1 (H st I)).
Qed.

(** ** The failures of [Download] *)

Lemma Download_failure_leaves_an_empty_file_witness :
  outcome (Api.Download Sample.unreachable (Api.downloadPath "8.12.0" "demo.js")
             (fmt.Sprintf "%s/src" ["/tmp/clone"])
             (set_files (insert "/tmp/clone/src/demo.js" "// demo") Sample.start))
  = Done (Err "dial tcp: i/o timeout")
  ∧ files (final (Api.Download Sample.unreachable (Api.downloadPath "8.12.0" "demo.js")
                    (fmt.Sprintf "%s/src" ["/tmp/clone"])
                    (set_files (insert "/tmp/clone/src/demo.js" "// demo") Sample.start)))
    = <[staged "/tmp/clone" "demo.js" := ""]>
        (files (set_files (insert "/tmp/clone/src/demo.js" "// demo") Sample.start)).
Proof.
  apply (Download_failure_leaves_an_empty_file Sample.unreachable "8.12.0" "/tmp/clone"
           "demo.js" "dial tcp: i/o timeout"); reflexivity.
Defined.

(** X18: [Download] of [api/handler.go] does not return the error of
    [io.Copy]: when the copy of the body fails the process exits with
    status 1 inside [Download], and the file is left with the bytes it
    took. *)
Theorem Download_exits_when_the_copy_fails
    (w : World) (v directory name : string) (response : http.Response) (e : error)
    (st : State) :
  plain name = true →
  os_Create w (staged directory name) = None →
  http_Get w (rawURL v name) = Ok response →
  io.copyError (file_Write w (staged directory name)) (http.bytes (http.Body response))
    (http.readErr (http.Body response)) = Some e →
  outcome (Api.Download w (Api.downloadPath v name) (fmt.Sprintf "%s/src" [directory]) st)
  = Exited 1
  ∧ files (final (Api.Download w (Api.downloadPath v name)
                    (fmt.Sprintf "%s/src" [directory]) st))
      !! staged directory name
    = Some (io.accepted (file_Write w (staged directory name))
              (http.bytes (http.Body response))).
Proof.
  intros Hplain Hcreate Hget Hcopy. unfold Api.Download.
  rewrite (Download_target v directory name Hplain).
  fold (rawURL v name).
  unfold os_create, io_Copy. unroll.
  rewrite Hcreate. run. rewrite Hget. run. rewrite Hcopy. run.
  split; [done|]. by rewrite lookup_insert_eq, lookup_insert_eq, overwrite_empty.
Qed.

Lemma Download_exits_when_the_copy_fails_witness :
  outcome (Api.Download Sample.diskFull (Api.downloadPath "8.12.0" "demo.js")
             (fmt.Sprintf "%s/src" ["/tmp/clone"]) Sample.start)
  = Exited 1
  ∧ files (final (Api.Download Sample.diskFull (Api.downloadPath "8.12.0" "demo.js")
                    (fmt.Sprintf "%s/src" ["/tmp/clone"]) Sample.start))
      !! staged "/tmp/clone" "demo.js"
    = Some "".
Proof.
  exact (Download_exits_when_the_copy_fails Sample.diskFull "8.12.0" "/tmp/clone" "demo.js"
           {| http.StatusCode := 200;
              http.Body :=
                {| http.bytes := "contents of " +:+ rawURL "8.12.0" "demo.js";
                   http.readErr := None |} |}
           "no space left on device" Sample.start eq_refl eq_refl eq_refl eq_refl).
Defined.

(** ** The stages of a run *)

(** [OpenPullRequest]: one call, a log line when it succeeds, and the
    state as it was. *)
Lemma Api_OpenPullRequest_run w v st :
  Api.OpenPullRequest w v st
  = (Done match PullRequests_Create w "ruimarinho" "google-libphonenumber"
                 (Api.newPullRequest v) with
          | Ok _ => None
          | Err err => Some err
          end,
     st,
     EvPullRequestCreate "ruimarinho" "google-libphonenumber" (Api.newPullRequest v)
       (os_Getenv w "GITHUB_TOKEN")
     :: match PullRequests_Create w "ruimarinho" "google-libphonenumber"
                (Api.newPullRequest v) with
        | Ok pull =>
            [EvLog InfoLevel "Pull request #%d opened (%v)"
               [Int (github.Number pull); Str (github.HTMLURL pull)]]
        | Err _ => []
        end).
Proof.
  unfold Api.OpenPullRequest.
  change Api.remoteRepositoryUsername with "ruimarinho".
  change Api.remoteRepositoryName with "google-libphonenumber".
  unroll. by destruct (PullRequests_Create w _ _ _).
Qed.

Lemma Webhooks_OpenPullRequest_run w v st :
  Webhooks.OpenPullRequest w v st
  = (Done match PullRequests_Create w "ruimarinho" "google-libphonenumber"
                 (Webhooks.newPullRequest v) with
          | Ok _ => None
          | Err err => Some err
          end,
     st,
     EvPullRequestCreate "ruimarinho" "google-libphonenumber" (Webhooks.newPullRequest v)
       (os_Getenv w "GITHUB_TOKEN")
     :: match PullRequests_Create w "ruimarinho" "google-libphonenumber"
                (Webhooks.newPullRequest v) with
        | Ok pull =>
            [EvLog InfoLevel "Pull request #%d opened (%v)"
               [Int (github.Number pull); Str (github.HTMLURL pull)]]
        | Err _ => []
        end).
Proof.
  unfold Webhooks.OpenPullRequest.
  unroll. by destruct (PullRequests_Create w _ _ _).
Qed.

(** The run of [HandleEvent] of [api/handler.go] on a tag, by the
    results of its stages. *)
Lemma Api_HandleEvent_run w payload st :
  strings.Contains (webhook.Ref payload) "refs/tags/" = true →
  Api.HandleEvent w payload st
  = let v := Api.version (webhook.Ref payload) in
    let pre := [EvLog InfoLevel "Handling incoming webhook" [];
                EvLog InfoLevel "Received push payload for version v%s" [Str v]] in
    match Api.Clone w "ruimarinho/google-libphonenumber" st with
    | (Done (directory, Ok repository), stc, evc) =>
        match Api.Commit w v directory repository {| Api.Push := true |} stc with
        | (Done None, stm, evm) =>
            (Done (), stm, pre ++ evc ++ evm ++ events (Api.OpenPullRequest w v stm))
        | (Done (Some e), stm, evm) =>
            (Panicked e, stm, pre ++ evc ++ evm ++ [EvLog PanicLevel e []])
        | (Panicked e, stm, evm) => (Panicked e, stm, pre ++ evc ++ evm)
        | (Exited c, stm, evm) => (Exited c, stm, pre ++ evc ++ evm)
        end
    | (Done (directory, Err e), stc, evc) =>
        (Panicked e, stc, pre ++ evc ++ [EvLog PanicLevel e []])
    | (Panicked e, stc, evc) => (Panicked e, stc, pre ++ evc)
    | (Exited c, stc, evc) => (Exited c, stc, pre ++ evc)
    end.
Proof.
  intros Htag. unfold Api.HandleEvent. rewrite Htag. cbn [negb]. cbv zeta.
  change (fmt.Sprintf "%s/%s" [Api.remoteRepositoryUsername; Api.remoteRepositoryName])
    with "ruimarinho/google-libphonenumber".
  set (v := Api.version (webhook.Ref payload)).
  unroll.
  destruct (Api.Clone w "ruimarinho/google-libphonenumber" st)
    as [[[[directory [repository|e]]|e|c] stc] evc]; run; [| |done..].
  - destruct (Api.Commit w v directory repository _ stc) as [[[[e|]|e|c] stm] evm]; run;
      [done| |done..].
    rewrite Api_OpenPullRequest_run. run. by rewrite app_nil_r.
  - done.
Qed.

(** The same for [webhooks/handler.go]. *)
Lemma Webhooks_HandleEvent_run w payload st :
  strings.Contains (webhook.Ref payload) "refs/tags/" = true →
  Webhooks.HandleEvent w payload st
  = let v := Webhooks.version (webhook.Ref payload) in
    let pre := [EvLog InfoLevel "Handling incoming libphonenumber-webhook" [];
                EvLog InfoLevel "Received push payload for version v" [Str v]] in
    let get := EvHttpGet (Webhooks.archiveURL v) http.DefaultClient in
    match Webhooks.Clone w st with
    | (Done (directory, Ok repo), stc, evc) =>
        match http_Get w (Webhooks.archiveURL v) with
        | Err e => (Panicked e, stc, pre ++ evc ++ [get; EvLog PanicLevel e []])
        | Ok resp =>
            match Webhooks.Extract w (http.Body resp) directory stc with
            | (Done None, ste, eve) =>
                match Webhooks.Commit w v repo {| Webhooks.Push := true |} ste with
                | (Done None, stm, evm) =>
                    (Done (), stm,
                     pre ++ evc ++ get :: eve ++ evm
                       ++ events (Webhooks.OpenPullRequest w v stm))
                | (Done (Some e), stm, evm) =>
                    (Panicked e, stm,
                     pre ++ evc ++ get :: eve ++ evm ++ [EvLog PanicLevel e []])
                | (Panicked e, stm, evm) => (Panicked e, stm, pre ++ evc ++ get :: eve ++ evm)
                | (Exited c, stm, evm) => (Exited c, stm, pre ++ evc ++ get :: eve ++ evm)
                end
            | (Done (Some e), ste, eve) =>
                (Panicked e, ste, pre ++ evc ++ get :: eve ++ [EvLog PanicLevel e []])
            | (Panicked e, ste, eve) => (Panicked e, ste, pre ++ evc ++ get :: eve)
            | (Exited c, ste, eve) => (Exited c, ste, pre ++ evc ++ get :: eve)
            end
        end
    | (Done (directory, Err e), stc, evc) =>
        (Panicked e, stc, pre ++ evc ++ [EvLog PanicLevel e []])
    | (Panicked e, stc, evc) => (Panicked e, stc, pre ++ evc)
    | (Exited c, stc, evc) => (Exited c, stc, pre ++ evc)
    end.
Proof.
  intros Htag. unfold Webhooks.HandleEvent. rewrite Htag. cbn [negb]. cbv zeta.
  set (v := Webhooks.version (webhook.Ref payload)).
  unroll.
  destruct (Webhooks.Clone w st) as [[[[directory [repo|e]]|e|c] stc] evc]; run;
    [| |done..].
  - rewrite Webhooks_Download_run. run.
    destruct (http_Get w (Webhooks.archiveURL v)) as [resp|e]; run; [|done].
    destruct (Webhooks.Extract w (http.Body resp) directory stc)
      as [[[[e|]|e|c] ste] eve]; run; [done| |done..].
    destruct (Webhooks.Commit w v repo _ ste) as [[[[e|]|e|c] stm] evm]; run;
      [done| |done..].
    rewrite Webhooks_OpenPullRequest_run. run. by rewrite app_nil_r.
  - done.
Qed.

Section Splits.

Context (P : Event → Prop).

(** The first event outside [P] of a list that begins with events in
    [P] lies behind them. *)
Lemma split_behind A B evs1 evs2 e :
  Forall P A → ¬ P e → A ++ B = evs1 ++ e :: evs2 →
  ∃ rest, evs1 = A ++ rest ∧ B = rest ++ e :: evs2.
Proof.
  intros HA He. revert evs1.
  induction HA as [|a A Ha _ IH]; intros evs1 Heq; [by exists evs1|].
  destruct evs1 as [|a' evs1]; cbn in Heq.
  - injection Heq as -> _. done.
  - injection Heq as -> Heq. destruct (IH _ Heq) as (rest & -> & ->). by exists rest.
Qed.

Lemma split_none A evs1 evs2 e :
  Forall P A → ¬ P e → A ≠ evs1 ++ e :: evs2.
Proof.
  intros HA He Heq. rewrite <- (app_nil_r A) in Heq.
  destruct (split_behind _ _ _ _ _ HA He Heq) as (rest & _ & Hnil).
  by destruct rest.
Qed.

End Splits.

Section Parts.

Variable w : World.

Lemma Api_Clone_notPull name st : Forall notPull (events (Api.Clone w name st)).
Proof. by apply (keeps_Api_Clone w (λ _, True) notPull). Qed.

Lemma Api_Commit_notPull v directory repository options st :
  Forall notPull (events (Api.Commit w v directory repository options st)).
Proof. by apply (keeps_Api_Commit w v (λ _, True) notPull). Qed.

Lemma Webhooks_Clone_notPull st : Forall notPull (events (Webhooks.Clone w st)).
Proof. by apply (keeps_Webhooks_Clone w (λ _, True) notPull). Qed.

Lemma Webhooks_Extract_notPull file directory st :
  Forall notPull (events (Webhooks.Extract w file directory st)).
Proof. by apply (keeps_Webhooks_Extract w (λ _, True) notPull). Qed.

Lemma Webhooks_Commit_notPull v repo options st :
  Forall notPull (events (Webhooks.Commit w v repo options st)).
Proof. by apply (keeps_Webhooks_Commit w v (λ _, True) notPull). Qed.

End Parts.

(** A list of events written with [::] and [++] holds only events in a
    predicate that its parts are known to hold. *)
Ltac all_events :=
  repeat first
    [ assumption
    | apply Forall_nil_2
    | apply Forall_cons; split; [exact I|]
    | apply Forall_app; split ].

(** No event outside a predicate stands in a list of events in it. *)
Ltac absent P H :=
  apply (split_none P) in H; [destruct H | all_events | exact (λ H', H')].

Lemma Api_pull_follows_push (w : World) (payload : webhook.PushPayload) (st : State)
    (evs1 evs2 : list Event) (owner repo : string) (pull : github.NewPullRequest)
    (token : string) :
  events (Api.HandleEvent w payload st)
  = evs1 ++ EvPullRequestCreate owner repo pull token :: evs2 →
  remote_Push w (Api.pushOptions (Api.version (webhook.Ref payload))
                   (os_Getenv w "GITHUB_TOKEN")) = None
  ∧ ∃ client,
      EvPush (Api.pushOptions (Api.version (webhook.Ref payload))
                (os_Getenv w "GITHUB_TOKEN")) client ∈ evs1.
Proof.
  destruct (strings.Contains (webhook.Ref payload) "refs/tags/") eqn:Htag.
  2: { unfold Api.HandleEvent. rewrite Htag. cbn [negb]. unroll. intros Heq.
       absent notPull Heq. }
  rewrite (Api_HandleEvent_run w payload st Htag). cbv zeta.
  set (v := Api.version (webhook.Ref payload)).
  pose proof (Api_Clone_notPull w "ruimarinho/google-libphonenumber" st) as HevC.
  destruct (Api.Clone w "ruimarinho/google-libphonenumber" st)
    as [[[[directory [repository|e]]|e|c] stc] evc]; cbn [events snd] in HevC; run.
  2-4: intros Heq; absent notPull Heq.
  pose proof (Api_Commit_notPull w v directory repository {| Api.Push := true |} stc) as HevM.
  pose proof (Api_Commit_pushed w v directory repository stc) as Hpushed.
  destruct (Api.Commit w v directory repository _ stc) as [[[[e|]|e|c] stm] evm];
    cbn [events outcome fst snd] in HevM, Hpushed; run.
  1,3,4: intros Heq; absent notPull Heq.
  destruct (Hpushed eq_refl) as [Hpush [client Hclient]]. intros Heq. split; [exact Hpush|].
  rewrite !app_assoc in Heq.
  apply (split_behind notPull) in Heq as (rest & -> & _); [| all_events |exact (λ H, H)].
  exists client. find_event.
Qed.

Lemma Webhooks_pull_follows_push (w : World) (payload : webhook.PushPayload) (st : State)
    (evs1 evs2 : list Event) (owner repo : string) (pull : github.NewPullRequest)
    (token : string) :
  events (Webhooks.HandleEvent w payload st)
  = evs1 ++ EvPullRequestCreate owner repo pull token :: evs2 →
  remote_Push w (Webhooks.pushOptions (Webhooks.version (webhook.Ref payload))
                   (os_Getenv w "GITHUB_TOKEN")) = None
  ∧ ∃ client,
      EvPush (Webhooks.pushOptions (Webhooks.version (webhook.Ref payload))
                (os_Getenv w "GITHUB_TOKEN")) client ∈ evs1.
Proof.
  destruct (strings.Contains (webhook.Ref payload) "refs/tags/") eqn:Htag.
  2: { unfold Webhooks.HandleEvent. rewrite Htag. cbn [negb]. unroll. intros Heq.
       absent notPull Heq. }
  rewrite (Webhooks_HandleEvent_run w payload st Htag). cbv zeta.
  set (v := Webhooks.version (webhook.Ref payload)).
  pose proof (Webhooks_Clone_notPull w st) as HevC.
  destruct (Webhooks.Clone w st)
    as [[[[directory [repo'|e]]|e|c] stc] evc]; cbn [events snd] in HevC; run.
  2-4: intros Heq; absent notPull Heq.
  destruct (http_Get w (Webhooks.archiveURL v)) as [resp|e]; run.
  2: intros Heq; absent notPull Heq.
  pose proof (Webhooks_Extract_notPull w (http.Body resp) directory stc) as HevE.
  destruct (Webhooks.Extract w (http.Body resp) directory stc)
    as [[[[e|]|e|c] ste] eve]; cbn [events snd] in HevE; run.
  1,3,4: intros Heq; absent notPull Heq.
  pose proof (Webhooks_Commit_notPull w v repo' {| Webhooks.Push := true |} ste) as HevM.
  pose proof (Webhooks_Commit_pushed w v repo' ste) as Hpushed.
  destruct (Webhooks.Commit w v repo' _ ste) as [[[[e|]|e|c] stm] evm];
    cbn [events outcome fst snd] in HevM, Hpushed; run.
  1,3,4: intros Heq; absent notPull Heq.
  destruct (Hpushed eq_refl) as [Hpush [client Hclient]]. intros Heq. split; [exact Hpush|].
  rewrite app_comm_cons, !app_assoc in Heq.
  apply (split_behind notPull) in Heq as (rest & -> & _); [| all_events |exact (λ H, H)].
  exists client. find_event.
Qed.

(** X14: a pull request is asked for only behind a push that succeeded:
    wherever the creation of a pull request stands among the calls of a
    run, [remote.Push] has answered without an error for the refspec of
    the version, and the call of that push stands before it. *)
Theorem pull_request_follows_the_push
    (w : World) (payload : webhook.PushPayload) (st : State) :
  (∀ evs1 evs2 owner repo pull token,
     events (Api.HandleEvent w payload st)
     = evs1 ++ EvPullRequestCreate owner repo pull token :: evs2 →
     remote_Push w (Api.pushOptions (Api.version (webhook.Ref payload))
                      (os_Getenv w "GITHUB_TOKEN")) = None
     ∧ ∃ client,
         EvPush (Api.pushOptions (Api.version (webhook.Ref payload))
                   (os_Getenv w "GITHUB_TOKEN")) client ∈ evs1)
  ∧ (∀ evs1 evs2 owner repo pull token,
       events (Webhooks.HandleEvent w payload st)
       = evs1 ++ EvPullRequestCreate owner repo pull token :: evs2 →
       remote_Push w (Webhooks.pushOptions (Webhooks.version (webhook.Ref payload))
                        (os_Getenv w "GITHUB_TOKEN")) = None
       ∧ ∃ client,
           EvPush (Webhooks.pushOptions (Webhooks.version (webhook.Ref payload))
                     (os_Getenv w "GITHUB_TOKEN")) client ∈ evs1).
Proof.
  split.
  - intros evs1 evs2 owner repo pull token. apply Api_pull_follows_push.
  - intros evs1 evs2 owner repo pull token. apply Webhooks_pull_follows_push.
Qed.

Section CloneFails.

Variable w : World.
Variable e : error.

Lemma Api_Clone_fails st :
  cloneFails w "ruimarinho-google-libphonenumber"
    {| git.URL := "https://github.com/ruimarinho/google-libphonenumber.git";
       git.ReferenceName := "refs/heads/master" |} e →
  ∃ directory,
    outcome (Api.Clone w "ruimarinho/google-libphonenumber" st) = Done (directory, Err e).
Proof.
  unfold Api.Clone.
  change (strings.ReplaceAll "ruimarinho/google-libphonenumber" "/" "-")
    with "ruimarinho-google-libphonenumber".
  change (fmt.Sprintf "https://github.com/%s.git" ["ruimarinho/google-libphonenumber"])
    with "https://github.com/ruimarinho/google-libphonenumber.git".
  change (fmt.Sprintf "refs/heads/master" []) with "refs/heads/master".
  intros [Htmp|(directory & Htmp & Hclone)]; rewrite Htmp; unroll.
  - by exists "".
  - rewrite Hclone. by exists directory.
Qed.

Lemma Webhooks_Clone_fails st :
  cloneFails w "libphonenumber"
    {| git.URL := "https://github.com/ruimarinho/google-libphonenumber.git";
       git.ReferenceName := "" |} e →
  ∃ directory, outcome (Webhooks.Clone w st) = Done (directory, Err e).
Proof.
  unfold Webhooks.Clone.
  intros [Htmp|(directory & Htmp & Hclone)]; rewrite Htmp; unroll.
  - by exists "".
  - rewrite Hclone. by exists directory.
Qed.

End CloneFails.

(** X15: when the temporary directory cannot be made, or the clone of
    the downstream repository fails, a run on a tag panics with that
    error; it has made no call but log lines, the request for the
    temporary directory and the clone: no file is created or opened,
    nothing is fetched, checked out, committed or pushed. *)
Theorem failed_clone_stops_the_run
    (w : World) (payload : webhook.PushPayload) (e : error) (st : State) :
  strings.Contains (webhook.Ref payload) "refs/tags/" = true →
  (cloneFails w "ruimarinho-google-libphonenumber"
     {| git.URL := "https://github.com/ruimarinho/google-libphonenumber.git";
        git.ReferenceName := "refs/heads/master" |} e →
   outcome (Api.HandleEvent w payload st) = Panicked e
   ∧ Forall beforeFetch (events (Api.HandleEvent w payload st)))
  ∧ (cloneFails w "libphonenumber"
       {| git.URL := "https://github.com/ruimarinho/google-libphonenumber.git";
          git.ReferenceName := "" |} e →
     outcome (Webhooks.HandleEvent w payload st) = Panicked e
     ∧ Forall beforeFetch (events (Webhooks.HandleEvent w payload st))).
Proof.
  intros Htag. split; intros Hfail.
  - rewrite (Api_HandleEvent_run w payload st Htag). cbv zeta.
    destruct (Api_Clone_fails w e st Hfail) as [directory HC].
    assert (Forall beforeFetch
              (events (Api.Clone w "ruimarinho/google-libphonenumber" st))) as HevC
      by (by apply (keeps_Api_Clone w (λ _, True) beforeFetch)).
    destruct (Api.Clone w "ruimarinho/google-libphonenumber" st) as [[oc stc] evc].
    cbn [outcome events fst snd] in HC, HevC. subst oc. run.
    split; [done|]. all_events.
  - rewrite (Webhooks_HandleEvent_run w payload st Htag). cbv zeta.
    destruct (Webhooks_Clone_fails w e st Hfail) as [directory HC].
    assert (Forall beforeFetch (events (Webhooks.Clone w st))) as HevC
      by (by apply (keeps_Webhooks_Clone w (λ _, True) beforeFetch)).
    destruct (Webhooks.Clone w st) as [[oc stc] evc].
    cbn [outcome events fst snd] in HC, HevC. subst oc. run.
    split; [done|]. all_events.
Qed.

Lemma failed_clone_stops_the_run_witness :
  outcome (Api.HandleEvent Sample.offline scenario Sample.start)
  = Panicked "repository not found"
  ∧ outcome (Webhooks.HandleEvent Sample.offline scenario Sample.start)
    = Panicked "repository not found".
Proof.
  pose proof (failed_clone_stops_the_run Sample.offline scenario "repository not found"
                Sample.start eq_refl) as [HA HW].
  split.
  - apply HA. right. eexists. split; reflexivity.
  - apply HW. right. eexists. split; reflexivity.
Defined.

(** ** What a run fetches and commits *)

(** Quiet events hold no fetch and no commit. *)
Lemma quiet_silent evs : Forall quiet evs → fetches evs = [] ∧ committed evs = [].
Proof.
  induction 1 as [|e evs He _ IH]; [done|].
  destruct e; cbn in *; done.
Qed.

Section Quiet.

Variable w : World.

Lemma Api_Clone_quiet name st : Forall quiet (events (Api.Clone w name st)).
Proof. by apply (keeps_Api_Clone w (λ _, True) quiet). Qed.

Lemma Webhooks_Clone_quiet st : Forall quiet (events (Webhooks.Clone w st)).
Proof. by apply (keeps_Webhooks_Clone w (λ _, True) quiet). Qed.

Lemma Webhooks_Extract_quiet file directory st :
  Forall quiet (events (Webhooks.Extract w file directory st)).
Proof. by apply (keeps_Webhooks_Extract w (λ _, True) quiet). Qed.


End Quiet.



(** The fetches of a run of [api/handler.go]. *)
Lemma Api_HandleEvent_fetches (w : World) (payload : webhook.PushPayload) (st : State) :
  fetches (events (Api.HandleEvent w payload st))
    `prefix_of` (rawURL (Api.version (webhook.Ref payload)) <$> Api.filenames)
  ∧ (strings.Contains (webhook.Ref payload) "refs/tags/" = true →
     outcome (Api.HandleEvent w payload st) = Done () →
     fetches (events (Api.HandleEvent w payload st))
     = rawURL (Api.version (webhook.Ref payload)) <$> Api.filenames).
Proof.
  destruct (strings.Contains (webhook.Ref payload) "refs/tags/") eqn:Htag.
  2: { split; [|discriminate].
       unfold Api.HandleEvent. rewrite Htag. cbn [negb]. unroll. apply prefix_nil. }
  rewrite (Api_HandleEvent_run w payload st Htag). cbv zeta.
  set (v := Api.version (webhook.Ref payload)).
  destruct (quiet_silent _ (Api_Clone_quiet w "ruimarinho/google-libphonenumber" st))
    as [HevC _].
  destruct (Api.Clone w "ruimarinho/google-libphonenumber" st)
    as [[[[directory [repository|e]]|e|c] stc] evc]; cbn [events snd] in HevC; run.
  2-4: split; [count_events; rewrite HevC; apply prefix_nil|discriminate].
  destruct (Api_Commit_trace w v directory repository {| Api.Push := true |} stc)
    as [Hpre Hdone].
  destruct (range_step_fetches w v directory Api.filenames stc filenames_plain)
    as [Hstage Hall].
  fold (Api.stage w v directory stc) in Hstage, Hall.
  destruct (Api.Commit w v directory repository _ stc) as [[[[e|]|e|c] stm] evm];
    cbn [events outcome fst snd] in Hpre, Hdone; run.
  1,3,4: split; [count_events; rewrite HevC; cbn [app]; by etrans|discriminate].
  destruct (Hdone eq_refl) as (Hs & Hf & _).
  rewrite Api_OpenPullRequest_run. run. count_events. rewrite HevC. cbn [app].
  assert (fetches evm = rawURL v <$> Api.filenames) as -> by (rewrite Hf; by apply Hall).
  destruct (PullRequests_Create w _ _ _); count_events; done.
Qed.

(** The fetches of a run of [webhooks/handler.go]. *)
Lemma Webhooks_HandleEvent_fetches (w : World) (payload : webhook.PushPayload) (st : State) :
  fetches (events (Webhooks.HandleEvent w payload st))
    `prefix_of` [Webhooks.archiveURL (Webhooks.version (webhook.Ref payload))]
  ∧ (strings.Contains (webhook.Ref payload) "refs/tags/" = true →
     outcome (Webhooks.HandleEvent w payload st) = Done () →
     fetches (events (Webhooks.HandleEvent w payload st))
     = [Webhooks.archiveURL (Webhooks.version (webhook.Ref payload))]).
Proof.
  destruct (strings.Contains (webhook.Ref payload) "refs/tags/") eqn:Htag.
  2: { split; [|discriminate].
       unfold Webhooks.HandleEvent. rewrite Htag. cbn [negb]. unroll. apply prefix_nil. }
  rewrite (Webhooks_HandleEvent_run w payload st Htag). cbv zeta.
  set (v := Webhooks.version (webhook.Ref payload)).
  destruct (quiet_silent _ (Webhooks_Clone_quiet w st)) as [HevC _].
  destruct (Webhooks.Clone w st)
    as [[[[directory [repo|e]]|e|c] stc] evc]; cbn [events snd] in HevC; run.
  2-4: split; [count_events; rewrite HevC; apply prefix_nil|discriminate].
  destruct (http_Get w (Webhooks.archiveURL v)) as [resp|e]; run.
  2: split; [count_events; by rewrite HevC|discriminate].
  destruct (quiet_silent _ (Webhooks_Extract_quiet w (http.Body resp) directory stc))
    as [HevE _].
  destruct (Webhooks.Extract w (http.Body resp) directory stc)
    as [[[[e|]|e|c] ste] eve]; cbn [events snd] in HevE; run.
  1,3,4: split; [count_events; by rewrite HevC, HevE|discriminate].
  destruct (Webhooks_Commit_trace w v repo {| Webhooks.Push := true |} ste)
    as (HevM & _ & _).
  destruct (Webhooks.Commit w v repo _ ste) as [[[[e|]|e|c] stm] evm];
    cbn [events outcome fst snd] in HevM; run.
  1,3,4: split; [count_events; by rewrite HevC, HevE, HevM|discriminate].
  rewrite Webhooks_OpenPullRequest_run. run. count_events. rewrite HevC, HevE, HevM.
  destruct (PullRequests_Create w _ _ _); count_events; done.
Qed.

(** X16: the upstream URLs of a run.  A run of [api/handler.go] fetches
    a prefix of the URLs of the list, in the order of the list, and
    nothing else; a run of [webhooks/handler.go] fetches the tarball of
    the version at most once, and nothing else.  A run on a tag that
    returns has fetched all of the list, respectively the tarball
    once. *)
Theorem a_run_fetches_upstream_once
    (w : World) (payload : webhook.PushPayload) (st : State) :
  (fetches (events (Api.HandleEvent w payload st))
     `prefix_of` (rawURL (Api.version (webhook.Ref payload)) <$> Api.filenames)
   ∧ fetches (events (Webhooks.HandleEvent w payload st))
       `prefix_of` [Webhooks.archiveURL (Webhooks.version (webhook.Ref payload))])
  ∧ (strings.Contains (webhook.Ref payload) "refs/tags/" = true →
     (outcome (Api.HandleEvent w payload st) = Done () →
      fetches (events (Api.HandleEvent w payload st))
      = rawURL (Api.version (webhook.Ref payload)) <$> Api.filenames)
     ∧ (outcome (Webhooks.HandleEvent w payload st) = Done () →
        fetches (events (Webhooks.HandleEvent w payload st))
        = [Webhooks.archiveURL (Webhooks.version (webhook.Ref payload))])).
Proof.
  destruct (Api_HandleEvent_fetches w payload st) as [HA HA'].
  destruct (Webhooks_HandleEvent_fetches w payload st) as [HW HW'].
  split; [by split|]. intros Htag. split; [by apply HA'|by apply HW'].
Qed.





(** ** The files and the checkout *)

Section SplitsBefore.

Context (P : Event → Prop).

(** The last event outside [P] of a list that ends with events in [P]
    lies before them. *)
Lemma split_before A B evs1 evs2 e :
  Forall P B → ¬ P e → A ++ B = evs1 ++ e :: evs2 →
  ∃ rest, A = evs1 ++ e :: rest ∧ evs2 = rest ++ B.
Proof.
  intros HB He. revert evs1.
  induction A as [|a A IH]; intros evs1 Heq; cbn in Heq.
  - subst B. apply Forall_app in HB as [_ HB]. by apply Forall_cons in HB as [? _].
  - destruct evs1 as [|a' evs1]; cbn in Heq.
    + injection Heq as -> <-. by exists A.
    + injection Heq as -> Heq. destruct (IH _ Heq) as (rest & -> & ->). by exists rest.
Qed.

End SplitsBefore.

Section Checkout.

Variable w : World.

(** [Commit] of [api/handler.go] begins with its checkout, and checks
    out once. *)
Lemma Api_Commit_checkout v directory repository options st :
  events (Api.Commit w v directory repository options st) = []
  ∨ ∃ rest,
      events (Api.Commit w v directory repository options st)
      = EvCheckout (Api.checkoutOptions v) :: rest
      ∧ Forall notCheckout rest.
Proof.
  unfold Api.Commit.
  destruct (repository_Worktree w repository); [by left|right].
  rewrite bind_events. cbn [emit events outcome final fst snd app].
  eexists. split; [reflexivity|].
  match goal with
  | |- Forall _ (events (?m st)) =>
      assert (keeps (λ _, True) notCheckout m) as H; [|exact (proj1 (H st I))]
  end.
  repeat first [by apply keeps_Api_stage | keeps_step]; done.
Qed.

Lemma Api_Clone_opensNoFile name st : Forall opensNoFile (events (Api.Clone w name st)).
Proof. by apply (keeps_Api_Clone w (λ _, True) opensNoFile). Qed.

Lemma Api_Clone_notCheckout name st : Forall notCheckout (events (Api.Clone w name st)).
Proof. by apply (keeps_Api_Clone w (λ _, True) notCheckout). Qed.

Lemma Webhooks_Clone_notCheckout st : Forall notCheckout (events (Webhooks.Clone w st)).
Proof. by apply (keeps_Webhooks_Clone w (λ _, True) notCheckout). Qed.

Lemma Webhooks_Extract_notCheckout file directory st :
  Forall notCheckout (events (Webhooks.Extract w file directory st)).
Proof. by apply (keeps_Webhooks_Extract w (λ _, True) notCheckout). Qed.

Lemma Webhooks_Commit_opensNoFile v repo options st :
  Forall opensNoFile (events (Webhooks.Commit w v repo options st)).
Proof. by apply (keeps_Webhooks_Commit w v (λ _, True) opensNoFile). Qed.

End Checkout.

(** In [api/handler.go] the files are created after the checkout. *)
Lemma Api_files_after_checkout (w : World) (payload : webhook.PushPayload) (st : State)
    (evs1 evs2 : list Event) (o : git.CheckoutOptions) :
  events (Api.HandleEvent w payload st) = evs1 ++ EvCheckout o :: evs2 →
  Forall opensNoFile evs1.
Proof.
  destruct (strings.Contains (webhook.Ref payload) "refs/tags/") eqn:Htag.
  2: { unfold Api.HandleEvent. rewrite Htag. cbn [negb]. unroll. intros Heq.
       absent notCheckout Heq. }
  rewrite (Api_HandleEvent_run w payload st Htag). cbv zeta.
  set (v := Api.version (webhook.Ref payload)).
  pose proof (Api_Clone_notCheckout w "ruimarinho/google-libphonenumber" st) as HevC.
  pose proof (Api_Clone_opensNoFile w "ruimarinho/google-libphonenumber" st) as HevC'.
  destruct (Api.Clone w "ruimarinho/google-libphonenumber" st)
    as [[[[directory [repository|e]]|e|c] stc] evc]; cbn [events snd] in HevC, HevC'; run.
  2-4: intros Heq; absent notCheckout Heq.
  pose proof (Api_Commit_checkout w v directory repository {| Api.Push := true |} stc)
    as HevM.
  assert (∀ tail, Forall notCheckout tail →
            [EvLog InfoLevel "Handling incoming webhook" [];
             EvLog InfoLevel "Received push payload for version v%s" [Str v]]
            ++ evc ++ events (Api.Commit w v directory repository {| Api.Push := true |} stc)
            ++ tail
            = evs1 ++ EvCheckout o :: evs2 →
            Forall opensNoFile evs1) as Hsplit.
  { intros tail Htail Heq. destruct HevM as [HM|(rest & HM & Hrest)]; rewrite HM in Heq.
    - absent notCheckout Heq.
    - destruct (split_before notCheckout
                  ([EvLog InfoLevel "Handling incoming webhook" [];
                    EvLog InfoLevel "Received push payload for version v%s" [Str v]]
                   ++ evc ++ [EvCheckout (Api.checkoutOptions v)])
                  (rest ++ tail) evs1 evs2 (EvCheckout o))
        as (rest' & Heq' & _); [all_events|exact (λ H, H)| |].
      { rewrite <- Heq, <- !app_assoc. reflexivity. }
      assert (Forall opensNoFile (evs1 ++ EvCheckout o :: rest')) as Hall
        by (rewrite <- Heq'; all_events).
      by apply Forall_app in Hall as [? _]. }
  destruct (Api.Commit w v directory repository _ stc) as [[[[e|]|e|c] stm] evm];
    cbn [events snd] in Hsplit; run.
  - apply Hsplit. all_events.
  - rewrite Api_OpenPullRequest_run. run. apply Hsplit.
    destruct (PullRequests_Create w _ _ _); all_events.
  - rewrite <- (app_nil_r evm). apply Hsplit. all_events.
  - rewrite <- (app_nil_r evm). apply Hsplit. all_events.
Qed.

(** In [webhooks/handler.go] the files are opened before the checkout. *)
Lemma Webhooks_files_before_checkout
    (w : World) (payload : webhook.PushPayload) (st : State)
    (evs1 evs2 : list Event) (o : git.CheckoutOptions) :
  events (Webhooks.HandleEvent w payload st) = evs1 ++ EvCheckout o :: evs2 →
  Forall opensNoFile evs2.
Proof.
  destruct (strings.Contains (webhook.Ref payload) "refs/tags/") eqn:Htag.
  2: { unfold Webhooks.HandleEvent. rewrite Htag. cbn [negb]. unroll. intros Heq.
       absent notCheckout Heq. }
  rewrite (Webhooks_HandleEvent_run w payload st Htag). cbv zeta.
  set (v := Webhooks.version (webhook.Ref payload)).
  pose proof (Webhooks_Clone_notCheckout w st) as HevC.
  destruct (Webhooks.Clone w st)
    as [[[[directory [repo|e]]|e|c] stc] evc]; cbn [events snd] in HevC; run.
  2-4: intros Heq; absent notCheckout Heq.
  destruct (http_Get w (Webhooks.archiveURL v)) as [resp|e]; run.
  2: intros Heq; absent notCheckout Heq.
  pose proof (Webhooks_Extract_notCheckout w (http.Body resp) directory stc) as HevE.
  destruct (Webhooks.Extract w (http.Body resp) directory stc)
    as [[[[e|]|e|c] ste] eve]; cbn [events snd] in HevE; run.
  1,3,4: intros Heq; absent notCheckout Heq.
  pose proof (Webhooks_Commit_opensNoFile w v repo {| Webhooks.Push := true |} ste) as HevM.
  assert (∀ tail, Forall opensNoFile tail →
            [EvLog InfoLevel "Handling incoming libphonenumber-webhook" [];
             EvLog InfoLevel "Received push payload for version v" [Str v]]
            ++ evc ++ EvHttpGet (Webhooks.archiveURL v) http.DefaultClient :: eve
            ++ events (Webhooks.Commit w v repo {| Webhooks.Push := true |} ste) ++ tail
            = evs1 ++ EvCheckout o :: evs2 →
            Forall opensNoFile evs2) as Hsplit.
  { intros tail Htail Heq.
    rewrite app_comm_cons, !app_assoc, <- (app_assoc _ (events _) tail) in Heq.
    apply (split_behind notCheckout) in Heq as (rest & _ & Heq);
      [| all_events |exact (λ H, H)].
    assert (Forall opensNoFile (rest ++ EvCheckout o :: evs2)) as Hall
      by (rewrite <- Heq; all_events).
    apply Forall_app in Hall as [_ Hall]. by apply Forall_cons in Hall as [_ ?]. }
  destruct (Webhooks.Commit w v repo _ ste) as [[[[e|]|e|c] stm] evm];
    cbn [events snd] in Hsplit, HevM; run.
  - apply Hsplit. all_events.
  - rewrite Webhooks_OpenPullRequest_run. run. apply Hsplit.
    destruct (PullRequests_Create w _ _ _); all_events.
  - rewrite <- (app_nil_r evm). apply Hsplit. all_events.
  - rewrite <- (app_nil_r evm). apply Hsplit. all_events.
Qed.

(** X19: the two variants write their files on different sides of the
    checkout of the new branch.  In [api/handler.go] no file is created
    or opened before the checkout; in [webhooks/handler.go] none is
    after it: [Extract] has run on the branch of the clone. *)
Theorem files_and_the_checkout
    (w : World) (payload : webhook.PushPayload) (st : State) :
  (∀ evs1 evs2 o,
     events (Api.HandleEvent w payload st) = evs1 ++ EvCheckout o :: evs2 →
     Forall opensNoFile evs1)
  ∧ (∀ evs1 evs2 o,
       events (Webhooks.HandleEvent w payload st) = evs1 ++ EvCheckout o :: evs2 →
       Forall opensNoFile evs2).
Proof.
  split.
  - intros evs1 evs2 o. apply Api_files_after_checkout.
  - intros evs1 evs2 o. apply Webhooks_files_before_checkout.
Qed.

(** ** The client of go-git *)

(** [Clone] of [webhooks/handler.go] installs its client before anything
    else: a run on a tag ends as it would with the client installed from
    the start. *)
Lemma Webhooks_HandleEvent_final_installed w payload st :
  strings.Contains (webhook.Ref payload) "refs/tags/" = true →
  final (Webhooks.HandleEvent w payload st)
  = final (Webhooks.HandleEvent w payload (set_https Webhooks.customClient st)).
Proof. intros Htag. unfold Webhooks.HandleEvent. by rewrite Htag. Qed.

(** X20: the client that go-git is left with.  A run of
    [webhooks/handler.go] on a tag leaves the client with the timeout of
    15 seconds installed for [https], however the run ends; a push that
    is not a tag leaves the client as it was, and so does every run of
    [api/handler.go]. *)
Theorem the_client_of_git_after_a_run
    (w : World) (payload : webhook.PushPayload) (st : State) :
  https (final (Webhooks.HandleEvent w payload st))
  = (if strings.Contains (webhook.Ref payload) "refs/tags/"
     then Webhooks.customClient else https st)
  ∧ https (final (Api.HandleEvent w payload st)) = https st.
Proof.
  split.
  - destruct (strings.Contains (webhook.Ref payload) "refs/tags/") eqn:Htag.
    + rewrite Webhooks_HandleEvent_final_installed by done.
      by apply (keeps_Webhooks_HandleEvent w (Webhooks.version (webhook.Ref payload))
                  (λ s, https s = Webhooks.customClient) (λ _, True)).
    + unfold Webhooks.HandleEvent. rewrite Htag. reflexivity.
  - by apply (keeps_Api_HandleEvent w (Api.version (webhook.Ref payload))
                (λ s, https s = https st) (λ _, True)).
Qed.

